(** * Load-driven CPU hotplug and thermal frequency limiting

    A shallow embedding of
      - arch/arm/kernel/auto_hotplug.c  (the hotplug governor), and
      - drivers/thermal/msm_thermal.c   (the thermal limiter, in its two
        variants: the one with a shutdown band and the one with a
        max-throttle band),
    followed by the properties of the specification that were checked
    against them.

    The target is 32-bit ARM: [int], [long], [unsigned int] and
    [unsigned long] are all 32 bits wide.  C integers are modelled in [Z]
    with every wrap-around written out ([u32], [s32], [u8]). *)

From Stdlib Require Import ZArith List Bool Lia.
From stdpp Require Import base list.
Import ListNotations.
Local Open Scope Z_scope.

(** ** Machine integers *)

Definition u32 (x : Z) : Z := x mod 2 ^ 32.
Definition u8 (x : Z) : Z := x mod 2 ^ 8.

(** Conversion of a 32-bit pattern to [int]. *)
Definition s32 (x : Z) : Z :=
  let y := x mod 2 ^ 32 in if y <? 2 ^ 31 then y else y - 2 ^ 32.

Definition EINVAL : Z := 22.
Definition ERANGE : Z := 34.

(** ** Faults

    What C leaves undefined or what stops the kernel is a fault of the
    model: an access outside an allocated block, a division by zero, a
    [BUG_ON] that fires. *)

Inductive fault : Type :=
| OutOfBounds (idx : Z)
| DivideByZero
| BugOn.

Inductive result (A : Type) : Type :=
| Ok (a : A)
| Fault (f : fault).
Arguments Ok {A} a.
Arguments Fault {A} f.

Definition bind {A B : Type} (r : result A) (k : A -> result B) : result B :=
  match r with
  | Ok a => k a
  | Fault f => Fault f
  end.

Notation "'do' x <- c ; k" := (bind c (fun x => k))
  (at level 10, x name, c at level 100, k at level 200).

(** ** Blocks of memory

    An array is the list of its elements; an index is a C integer.  Only an
    index inside the block yields an element. *)
Definition block_get (b : list Z) (j : Z) : option Z :=
  if (0 <=? j) && (j <? Z.of_nat (length b)) then b !! Z.to_nat j else None.

(** ** Collaborators shared by both drivers *)

(** [msecs_to_jiffies(const unsigned int m)] of the kernel, for a tick
    rate [HZ] that divides 1000 (kernel/time.c and include/linux/jiffies.h,
    outside these files): an argument that is negative when read as an
    [int] means an infinite timeout, [MAX_JIFFY_OFFSET]. *)
Definition MAX_JIFFY_OFFSET : Z := 1073741822.   (* (LONG_MAX >> 1) - 1 *)

Definition msecs_to_jiffies (HZ m : Z) : Z :=
  if s32 m <? 0 then MAX_JIFFY_OFFSET
  else (u32 m + 1000 / HZ - 1) / (1000 / HZ).

(** A module-parameter write as the kernel's integer parsers see it
    ([strict_strtol] and [param_set_int], lib/ and kernel/params.c, outside
    these files).  On this target [long] and [int] have the same range, so
    both parsers accept the same strings. *)
Inductive kparam : Type :=
| NullVal                (* no value: val == NULL *)
| Malformed              (* not an integer: the parsers return -EINVAL *)
| Overflow (junk : Z)    (* an integer too large for long: -ERANGE, the
                            local [num] keeps whatever the stack held *)
| Num (n : Z).           (* an integer in the range of int *)

(** [strict_strtol(val, 0, &num)]: the return code and the content of
    [num] afterwards. *)
Definition strict_strtol (val : kparam) : Z * Z :=
  match val with
  | Num n => (0, n)
  | Overflow junk => (- ERANGE, junk)
  | Malformed | NullVal => (- EINVAL, 0)
  end.

(** [param_set_int(val, kp)]: the return code and the new content of the
    [unsigned int] that [kp->arg] points to. *)
Definition param_set_int (val : kparam) (old : Z) : Z * Z :=
  match val with
  | Num n => (0, u32 n)
  | Overflow _ => (- ERANGE, old)
  | Malformed | NullVal => (- EINVAL, old)
  end.

(** A write to a boolean module parameter as [param_set_bool] sees it
    (kernel/params.c, outside these files): no value at all counts as
    "1". *)
Inductive kbool : Type :=
| NoArg                  (* val == NULL *)
| Yes                    (* "y", "Y" or "1" *)
| No                     (* "n", "N" or "0" *)
| BadBool.               (* anything else: -EINVAL *)

(** [param_set_bool(val, kp)]: the return code and the new content of the
    variable. *)
Definition param_set_bool (val : kbool) (old : Z) : Z * Z :=
  match val with
  | NoArg | Yes => (0, 1)
  | No => (0, 0)
  | BadBool => (- EINVAL, old)
  end.

(** A device-tree node as [of_property_read_u32] sees it (drivers/of,
    outside these files): per property the return code and, when that is
    0, the value. *)
Inductive dt_key : Type :=
| qcom_sensor_id
| qcom_poll_ms
| qcom_limit_temp
| qcom_temp_hysteresis
| qcom_freq_step.

Definition dt_node : Type := dt_key -> Z * Z.

(** * The hotplug governor: arch/arm/kernel/auto_hotplug.c *)

Module AutoHotplug.

(** What the platform fixes at boot. *)
Record platform : Type := {
  CPUS_AVAILABLE : Z;      (* num_possible_cpus() *)
  HZ : Z
}.

Definition DEFAULT_SAMPLING_PERIODS : Z := 10.
Definition DEFAULT_MIN_SAMPLING_RATE : Z := 20.
Definition DEFAULT_ENABLE_ALL_LOAD_THRESHOLD (p : platform) : Z :=
  u32 (100 * CPUS_AVAILABLE p).
Definition DEFAULT_ENABLE_LOAD_THRESHOLD : Z := 200.
Definition DEFAULT_DISABLE_LOAD_THRESHOLD : Z := 80.

(** Control flags, bits of an [unsigned char]. *)
Definition HOTPLUG_DISABLED : Z := Z.shiftl 1 0.
Definition HOTPLUG_PAUSED : Z := Z.shiftl 1 1.
Definition BOOSTPULSE_ACTIVE : Z := Z.shiftl 1 2.
Definition EARLYSUSPEND_ACTIVE : Z := Z.shiftl 1 3.

(** *** Tunables *)

Record tunables : Type := {
  enable_all_load_threshold : Z;
  enable_load_threshold : Z;
  disable_load_threshold : Z;
  min_sampling_rate : Z;
  sampling_periods : Z;
  min_online_cpus : Z;
  max_online_cpus : Z
}.

Definition with_enable_all_load_threshold (v : Z) (t : tunables) : tunables :=
  {| enable_all_load_threshold := v;
     enable_load_threshold := enable_load_threshold t;
     disable_load_threshold := disable_load_threshold t;
     min_sampling_rate := min_sampling_rate t;
     sampling_periods := sampling_periods t;
     min_online_cpus := min_online_cpus t;
     max_online_cpus := max_online_cpus t |}.

Definition with_enable_load_threshold (v : Z) (t : tunables) : tunables :=
  {| enable_all_load_threshold := enable_all_load_threshold t;
     enable_load_threshold := v;
     disable_load_threshold := disable_load_threshold t;
     min_sampling_rate := min_sampling_rate t;
     sampling_periods := sampling_periods t;
     min_online_cpus := min_online_cpus t;
     max_online_cpus := max_online_cpus t |}.

Definition with_disable_load_threshold (v : Z) (t : tunables) : tunables :=
  {| enable_all_load_threshold := enable_all_load_threshold t;
     enable_load_threshold := enable_load_threshold t;
     disable_load_threshold := v;
     min_sampling_rate := min_sampling_rate t;
     sampling_periods := sampling_periods t;
     min_online_cpus := min_online_cpus t;
     max_online_cpus := max_online_cpus t |}.

Definition with_min_sampling_rate (v : Z) (t : tunables) : tunables :=
  {| enable_all_load_threshold := enable_all_load_threshold t;
     enable_load_threshold := enable_load_threshold t;
     disable_load_threshold := disable_load_threshold t;
     min_sampling_rate := v;
     sampling_periods := sampling_periods t;
     min_online_cpus := min_online_cpus t;
     max_online_cpus := max_online_cpus t |}.

Definition with_sampling_periods (v : Z) (t : tunables) : tunables :=
  {| enable_all_load_threshold := enable_all_load_threshold t;
     enable_load_threshold := enable_load_threshold t;
     disable_load_threshold := disable_load_threshold t;
     min_sampling_rate := min_sampling_rate t;
     sampling_periods := v;
     min_online_cpus := min_online_cpus t;
     max_online_cpus := max_online_cpus t |}.

Definition with_min_online_cpus (v : Z) (t : tunables) : tunables :=
  {| enable_all_load_threshold := enable_all_load_threshold t;
     enable_load_threshold := enable_load_threshold t;
     disable_load_threshold := disable_load_threshold t;
     min_sampling_rate := min_sampling_rate t;
     sampling_periods := sampling_periods t;
     min_online_cpus := v;
     max_online_cpus := max_online_cpus t |}.

Definition with_max_online_cpus (v : Z) (t : tunables) : tunables :=
  {| enable_all_load_threshold := enable_all_load_threshold t;
     enable_load_threshold := enable_load_threshold t;
     disable_load_threshold := disable_load_threshold t;
     min_sampling_rate := min_sampling_rate t;
     sampling_periods := sampling_periods t;
     min_online_cpus := min_online_cpus t;
     max_online_cpus := v |}.

(** Each setter returns its return code and the tunables afterwards.
    The [debug] switch only selects log output and is left out. *)

Definition set_enable_all_load_threshold (val : kparam) (t : tunables)
  : Z * tunables :=
  match val with
  | NullVal => (- EINVAL, t)
  | _ =>
    let '(ret, num) := strict_strtol val in
    if (ret =? - EINVAL) || (num >? 550) || (num <? 270) then (- EINVAL, t)
    else
      let '(ret, v) := param_set_int val (enable_all_load_threshold t) in
      (ret, with_enable_all_load_threshold v t)
  end.

Definition set_enable_load_threshold (val : kparam) (t : tunables)
  : Z * tunables :=
  match val with
  | NullVal => (- EINVAL, t)
  | _ =>
    let '(ret, num) := strict_strtol val in
    if (ret =? - EINVAL) || (num >? 250) || (num <? 130) then (- EINVAL, t)
    else
      let '(ret, v) := param_set_int val (enable_load_threshold t) in
      (ret, with_enable_load_threshold v t)
  end.

Definition set_disable_load_threshold (val : kparam) (t : tunables)
  : Z * tunables :=
  match val with
  | NullVal => (- EINVAL, t)
  | _ =>
    let '(ret, num) := strict_strtol val in
    if (ret =? - EINVAL) || (num >? 125) || (num <? 40) then (- EINVAL, t)
    else
      let '(ret, v) := param_set_int val (disable_load_threshold t) in
      (ret, with_disable_load_threshold v t)
  end.

Definition set_min_sampling_rate (val : kparam) (t : tunables)
  : Z * tunables :=
  match val with
  | NullVal => (- EINVAL, t)
  | _ =>
    let '(ret, num) := strict_strtol val in
    if (ret =? - EINVAL) || (num >? 50) || (num <? 10) then (- EINVAL, t)
    else
      let '(ret, v) := param_set_int val (min_sampling_rate t) in
      (ret, with_min_sampling_rate v t)
  end.

Definition set_sampling_periods (val : kparam) (t : tunables)
  : Z * tunables :=
  match val with
  | NullVal => (- EINVAL, t)
  | _ =>
    let '(ret, num) := strict_strtol val in
    if (ret =? - EINVAL) || (num >? 50) || (num <? 5) then (- EINVAL, t)
    else
      let '(ret, v) := param_set_int val (sampling_periods t) in
      (ret, with_sampling_periods v t)
  end.

(** "at least 1 core must run even if set value is out of range" *)
Definition min_online_cpus_set (p : platform) (arg : kparam) (t : tunables)
  : Z * tunables :=
  let '(ret, v) := param_set_int arg (min_online_cpus t) in
  let v' := if (v <? 1) || (v >? CPUS_AVAILABLE p) then 1 else v in
  (ret, with_min_online_cpus v' t).

(** "default to cpus available if set value is out of range" *)
Definition max_online_cpus_set (p : platform) (arg : kparam) (t : tunables)
  : Z * tunables :=
  let '(ret, v) := param_set_int arg (max_online_cpus t) in
  let v' := if (v <? 1) || (v >? CPUS_AVAILABLE p) then CPUS_AVAILABLE p else v in
  (ret, with_max_online_cpus v' t).

(** *** Deferred work

    The work items of the driver and what the workqueue holds of them.
    The scheduling primitives are the kernel's (linux/workqueue.h, outside
    these files): queueing an item that is already pending does nothing;
    cancelling removes a pending item.  A pending item carries the delay it
    was queued with (0 for [schedule_work]). *)

Inductive work : Type :=
| hotplug_decision_work
| hotplug_unpause_work
| hotplug_online_all_work
| hotplug_online_single_work
| hotplug_offline_work
| hotplug_offline_all_work.

Definition work_eqb (a b : work) : bool :=
  match a, b with
  | hotplug_decision_work, hotplug_decision_work
  | hotplug_unpause_work, hotplug_unpause_work
  | hotplug_online_all_work, hotplug_online_all_work
  | hotplug_online_single_work, hotplug_online_single_work
  | hotplug_offline_work, hotplug_offline_work
  | hotplug_offline_all_work, hotplug_offline_all_work => true
  | _, _ => false
  end.

Definition workqueue : Type := work -> option Z.

Definition wq_set (w : work) (v : option Z) (q : workqueue) : workqueue :=
  fun w' => if work_eqb w w' then v else q w'.

Definition wq_pending (w : work) (q : workqueue) : bool :=
  match q w with Some _ => true | None => false end.

Definition wq_queue (w : work) (delay : Z) (q : workqueue) : workqueue :=
  if wq_pending w q then q else wq_set w (Some delay) q.

Definition wq_cancel (w : work) (q : workqueue) : workqueue :=
  wq_set w None q.

(** *** Driver state *)

Inductive cpu_op : Type :=
| cpu_up (cpu : nat)
| cpu_down (cpu : nat).

Record state : Type := {
  flags : Z;
  tun : tunables;
  live_sampling_periods : Z;
  index_max_value : Z;
  history : list Z;         (* the block [history] points to: its length is
                               the number of elements that may be accessed *)
  index : Z;
  pending : workqueue;
  cpu_log : list cpu_op     (* the cpu_up/cpu_down calls made so far *)
}.

Definition with_flags (f : Z) (s : state) : state :=
  {| flags := f; tun := tun s;
     live_sampling_periods := live_sampling_periods s;
     index_max_value := index_max_value s;
     history := history s; index := index s;
     pending := pending s; cpu_log := cpu_log s |}.

Definition with_tun (t : tunables) (s : state) : state :=
  {| flags := flags s; tun := t;
     live_sampling_periods := live_sampling_periods s;
     index_max_value := index_max_value s;
     history := history s; index := index s;
     pending := pending s; cpu_log := cpu_log s |}.

Definition with_live (live imv : Z) (s : state) : state :=
  {| flags := flags s; tun := tun s;
     live_sampling_periods := live;
     index_max_value := imv;
     history := history s; index := index s;
     pending := pending s; cpu_log := cpu_log s |}.

Definition with_history (h : list Z) (s : state) : state :=
  {| flags := flags s; tun := tun s;
     live_sampling_periods := live_sampling_periods s;
     index_max_value := index_max_value s;
     history := h; index := index s;
     pending := pending s; cpu_log := cpu_log s |}.

Definition with_index (i : Z) (s : state) : state :=
  {| flags := flags s; tun := tun s;
     live_sampling_periods := live_sampling_periods s;
     index_max_value := index_max_value s;
     history := history s; index := i;
     pending := pending s; cpu_log := cpu_log s |}.

Definition with_pending (q : workqueue) (s : state) : state :=
  {| flags := flags s; tun := tun s;
     live_sampling_periods := live_sampling_periods s;
     index_max_value := index_max_value s;
     history := history s; index := index s;
     pending := q; cpu_log := cpu_log s |}.

Definition log_cpu (ops : list cpu_op) (s : state) : state :=
  {| flags := flags s; tun := tun s;
     live_sampling_periods := live_sampling_periods s;
     index_max_value := index_max_value s;
     history := history s; index := index s;
     pending := pending s; cpu_log := cpu_log s ++ ops |}.

Definition flag_set (bit : Z) (s : state) : bool :=
  negb (Z.land (flags s) bit =? 0).

(** [flags |= bit] and [flags &= ~bit] on the [unsigned char]. *)
Definition set_flag (bit : Z) (s : state) : state :=
  with_flags (u8 (Z.lor (flags s) bit)) s.
Definition clear_flag (bit : Z) (s : state) : state :=
  with_flags (u8 (Z.land (flags s) (Z.lnot bit))) s.

(** The primitives on the state, as they act when no work function is in
    progress: one entry into the driver is then one step.
    [cancel_delayed_work_sync], which in the kernel also waits for a
    running instance, has nothing to wait for here and only takes the item
    off the queue; its wait, with work functions in progress while
    [hotplug_disable] runs, is modelled in [HotplugSMP] below. *)
Definition schedule_work (w : work) (s : state) : state :=
  with_pending (wq_queue w 0 (pending s)) s.
Definition schedule_delayed_work (w : work) (delay : Z) (s : state) : state :=
  with_pending (wq_queue w delay (pending s)) s.
Definition cancel_delayed_work (w : work) (s : state) : state :=
  with_pending (wq_cancel w (pending s)) s.
Definition cancel_delayed_work_sync (w : work) (s : state) : state :=
  with_pending (wq_cancel w (pending s)) s.
Definition delayed_work_pending (w : work) (s : state) : bool :=
  wq_pending w (pending s).

(** *** The history buffer *)

Definition hist_read (h : list Z) (j : Z) : result Z :=
  match block_get h j with
  | Some v => Ok v
  | None => Fault (OutOfBounds j)
  end.

Definition hist_write (h : list Z) (j v : Z) : result (list Z) :=
  match block_get h j with
  | Some _ => Ok (<[Z.to_nat j := v]> h)
  | None => Fault (OutOfBounds j)
  end.

(** What [krealloc(history, ...)] did.  The driver drops the pointer it
    returns, so [history] keeps naming the old block: unchanged when the
    allocator fails or returns the block in place, freed when the
    allocator moved it. *)
Inductive krealloc_ret : Type :=
| KNull
| KSame
| KMoved.

(** What one run of the decision work reads from the system. *)
Record sample_env : Type := {
  nr_running : Z;
  num_online_cpus : Z;
  krealloc : krealloc_ret
}.

(** Lines 313-323: the lazy resize. *)
Definition resize_history (e : sample_env) (s : state) : state :=
  if live_sampling_periods s =? sampling_periods (tun s) then s
  else
    match krealloc e with
    | KNull => s
    | KSame =>
      with_live (sampling_periods (tun s))
                (u32 (sampling_periods (tun s) - 1)) s
    | KMoved =>
      with_history []
        (with_live (sampling_periods (tun s))
                   (u32 (sampling_periods (tun s) - 1)) s)
    end.

(** Lines 346-350: [n] turns of the summing loop, from cursor [j] with
    the sum so far in [acc]. *)
Fixpoint sum_history (n : nat) (h : list Z) (imv j acc : Z) : result Z :=
  match n with
  | O => Ok acc
  | S n' =>
    do v <- hist_read h j;
    let j1 := if j =? 0 then imv else j in
    sum_history n' h imv (u32 (j1 - 1)) (u32 (acc + v))
  end.

(** Lines 313-365: resize, store the sample, average, advance the cursor.
    Returns [avg_running] and the state. *)
Definition sample_load (e : sample_env) (s : state) : result (Z * state) :=
  let s1 := resize_history e s in
  let running := u32 (nr_running e * 100) in
  do h <- hist_write (history s1) (index s1) running;
  do sum <- sum_history (Z.to_nat (live_sampling_periods s1)) h
                        (index_max_value s1) (index s1) 0;
  let index' :=
    if index s1 =? index_max_value s1 then 0 else u32 (index s1 + 1) in
  if live_sampling_periods s1 =? 0 then Fault DivideByZero
  else
    Ok (sum / live_sampling_periods s1, with_index index' (with_history h s1)).

(** Lines 413-420: the decision work queues itself again, the longer
    ahead the more cpus are online.  [tn] holds the tunables as the
    function read them at its start (line 307). *)
Definition rearm (p : platform) (e : sample_env) (tn : tunables) (s : state)
  : state :=
  let min_sampling_rate_in_jiffies :=
    msecs_to_jiffies (HZ p) (min_sampling_rate tn) in
  let online_cpus := num_online_cpus e in
  schedule_delayed_work hotplug_decision_work
    (u32 (min_sampling_rate_in_jiffies * (online_cpus * online_cpus))) s.

(** Lines 371-421: what the decision work does once it has read Disabled
    clear at line 370. *)
Definition decide_enabled (p : platform) (e : sample_env) (avg_running : Z)
    (s : state) : state :=
  let min_sampling_rate_in_jiffies :=
    msecs_to_jiffies (HZ p) (min_sampling_rate (tun s)) in
  let online_cpus := num_online_cpus e in
  let available_cpus := CPUS_AVAILABLE p in
  let disable_load := u32 (disable_load_threshold (tun s) * online_cpus) in
  let enable_load := u32 (enable_load_threshold (tun s) * online_cpus) in
  if (avg_running >=? enable_all_load_threshold (tun s))
     && (online_cpus <? available_cpus)
     && (max_online_cpus (tun s) >? online_cpus)
  then
    let s1 := set_flag HOTPLUG_PAUSED s in
    let s2 := if delayed_work_pending hotplug_offline_work s1
              then cancel_delayed_work hotplug_offline_work s1 else s1 in
    schedule_work hotplug_online_all_work s2
  else if flag_set HOTPLUG_PAUSED s then
    schedule_delayed_work hotplug_decision_work min_sampling_rate_in_jiffies s
  else if (avg_running >=? enable_load)
          && (online_cpus <? available_cpus)
          && (max_online_cpus (tun s) >? online_cpus)
  then
    let s1 := if delayed_work_pending hotplug_offline_work s
              then cancel_delayed_work hotplug_offline_work s else s in
    schedule_work hotplug_online_single_work s1
  else if (avg_running <=? disable_load)
          && (min_online_cpus (tun s) <? online_cpus)
  then
    let s1 := if negb (delayed_work_pending hotplug_offline_work s)
              then schedule_delayed_work hotplug_offline_work (HZ p) s
              else s in
    let s2 := if flag_set BOOSTPULSE_ACTIVE s1
              then clear_flag BOOSTPULSE_ACTIVE s1 else s1 in
    rearm p e (tun s) s2
  else rearm p e (tun s) s.

(** Lines 370-421: the decision on [avg_running]. *)
Definition decide (p : platform) (e : sample_env) (avg_running : Z) (s : state)
  : state :=
  if negb (flag_set HOTPLUG_DISABLED s) then decide_enabled p e avg_running s
  else rearm p e (tun s) s.

Definition hotplug_decision_work_fn (p : platform) (e : sample_env) (s : state)
  : result state :=
  do r <- sample_load e s;
  Ok (decide p e (fst r) (snd r)).

(** *** The one-shot actions *)

Definition cpu_online (mask : list bool) (cpu : nat) : bool :=
  match mask !! cpu with
  | Some b => b
  | None => false
  end.

(** [for_each_possible_cpu]: cpus 0 .. CPUS_AVAILABLE-1. *)
Definition possible_cpus (p : platform) : list nat :=
  seq 0 (Z.to_nat (CPUS_AVAILABLE p)).

Definition nonzero (cpu : nat) : bool := negb (Nat.eqb cpu 0).

Definition hotplug_online_all_work_fn (p : platform) (mask : list bool)
    (s : state) : state :=
  let ups := List.filter (fun c => negb (cpu_online mask c)) (possible_cpus p) in
  let s1 := log_cpu (map cpu_up ups) s in
  let s2 := schedule_delayed_work hotplug_unpause_work (u32 (HZ p * 2)) s1 in
  schedule_delayed_work hotplug_decision_work (min_sampling_rate (tun s2)) s2.

Definition hotplug_offline_all_work_fn (p : platform) (mask : list bool)
    (s : state) : state :=
  let downs :=
    List.filter (fun c => cpu_online mask c && nonzero c) (possible_cpus p) in
  log_cpu (map cpu_down downs) s.

Definition hotplug_online_single_work_fn (p : platform) (mask : list bool)
    (s : state) : state :=
  let cand :=
    List.filter (fun c => nonzero c && negb (cpu_online mask c))
                (possible_cpus p) in
  let s1 := log_cpu (map cpu_up (firstn 1 cand)) s in
  schedule_delayed_work hotplug_decision_work (min_sampling_rate (tun s1)) s1.

Definition hotplug_offline_work_fn (p : platform) (mask : list bool)
    (s : state) : state :=
  let cand :=
    List.filter (fun c => cpu_online mask c && nonzero c) (possible_cpus p) in
  let s1 := log_cpu (map cpu_down (firstn 1 cand)) s in
  schedule_delayed_work hotplug_decision_work (min_sampling_rate (tun s1)) s1.

Definition hotplug_unpause_work_fn (s : state) : state :=
  clear_flag HOTPLUG_PAUSED s.

Definition hotplug_disable (flag : bool) (s : state) : state :=
  if flag_set HOTPLUG_DISABLED s && negb flag then
    let s1 := clear_flag HOTPLUG_DISABLED s in
    let s2 := clear_flag HOTPLUG_PAUSED s1 in
    schedule_delayed_work hotplug_decision_work 0 s2
  else if flag && negb (flag_set HOTPLUG_DISABLED s) then
    let s1 := set_flag HOTPLUG_DISABLED s in
    let s2 := cancel_delayed_work_sync hotplug_offline_work s1 in
    let s3 := cancel_delayed_work_sync hotplug_decision_work s2 in
    cancel_delayed_work_sync hotplug_unpause_work s3
  else s.

(** [online_cpus] is what [num_online_cpus()] returns at the call. *)
Definition hotplug_boostpulse (p : platform) (online_cpus : Z) (s : state)
  : state :=
  if negb (Z.land (flags s) (Z.lor EARLYSUSPEND_ACTIVE HOTPLUG_DISABLED) =? 0)
  then s
  else if negb (flag_set BOOSTPULSE_ACTIVE s)
          && (max_online_cpus (tun s) >? online_cpus)
  then
    let s1 := set_flag BOOSTPULSE_ACTIVE s in
    if online_cpus <? 2 then
      let s2 := cancel_delayed_work_sync hotplug_offline_work s1 in
      let s3 := set_flag HOTPLUG_PAUSED s2 in
      let s4 := schedule_work hotplug_online_single_work s3 in
      schedule_delayed_work hotplug_unpause_work (HZ p) s4
    else if delayed_work_pending hotplug_offline_work s1 then
      let s2 := cancel_delayed_work hotplug_offline_work s1 in
      let s3 := set_flag HOTPLUG_PAUSED s2 in
      let s4 := schedule_delayed_work hotplug_unpause_work (u32 (HZ p * 2)) s3 in
      schedule_delayed_work hotplug_decision_work (min_sampling_rate (tun s4)) s4
    else s1
  else s.

Definition auto_hotplug_early_suspend (online_cpus : Z) (s : state) : state :=
  let s1 := set_flag EARLYSUSPEND_ACTIVE s in
  let s2 := cancel_delayed_work_sync hotplug_offline_work s1 in
  let s3 := cancel_delayed_work_sync hotplug_decision_work s2 in
  if online_cpus >? 1 then schedule_work hotplug_offline_all_work s3 else s3.

(** "stack the deck": history[0..4] = 500. *)
Fixpoint stack_the_deck (i : Z) (n : nat) (h : list Z) : result (list Z) :=
  match n with
  | O => Ok h
  | S n' =>
    do h' <- hist_write h i 500;
    stack_the_deck (i + 1) n' h'
  end.

Definition auto_hotplug_late_resume (p : platform) (s : state) : result state :=
  let s1 := clear_flag EARLYSUSPEND_ACTIVE s in
  do h <- stack_the_deck 0 5 (history s1);
  Ok (schedule_delayed_work hotplug_decision_work (HZ p / 2)
        (with_history h s1)).

(** What [kmalloc] returned: NULL, or a block that is not cleared and
    holds whatever the memory held. *)
Inductive kmalloc_ret : Type :=
| KmNull
| KmBlock (content : nat -> Z).

(** [kmalloc] of [n] unsigned ints.  The driver does not test the
    pointer (line 594): after a failed allocation [history] is NULL, a
    block of which no element may be accessed. *)
Definition kmalloc (n : Z) (r : kmalloc_ret) : list Z :=
  match r with
  | KmNull => []
  | KmBlock content => map content (seq 0 (Z.to_nat n))
  end.

(** The variables as the C initialisers leave them, then
    [auto_hotplug_init]. *)
Definition auto_hotplug_init (p : platform) (alloc : kmalloc_ret) : state :=
  let s0 :=
    {| flags := 0;
       tun := {| enable_all_load_threshold := DEFAULT_ENABLE_ALL_LOAD_THRESHOLD p;
                 enable_load_threshold := DEFAULT_ENABLE_LOAD_THRESHOLD;
                 disable_load_threshold := DEFAULT_DISABLE_LOAD_THRESHOLD;
                 min_sampling_rate := DEFAULT_MIN_SAMPLING_RATE;
                 sampling_periods := DEFAULT_SAMPLING_PERIODS;
                 min_online_cpus := 1;
                 max_online_cpus := CPUS_AVAILABLE p |};
       live_sampling_periods := DEFAULT_SAMPLING_PERIODS;
       index_max_value := DEFAULT_SAMPLING_PERIODS - 1;
       history := kmalloc DEFAULT_SAMPLING_PERIODS alloc;
       index := 0;
       pending := fun _ => None;
       cpu_log := [] |} in
  let s1 := set_flag HOTPLUG_PAUSED s0 in
  let s2 := schedule_delayed_work hotplug_decision_work (u32 (HZ p * 5)) s1 in
  schedule_delayed_work hotplug_unpause_work (u32 (HZ p * 10)) s2.

(** *** The driver as a transition system

    An event is one entry into the driver: the workqueue running a pending
    item, or a call from outside.  Each event carries what the driver reads
    from the system while it handles it. *)

Inductive tunable : Type :=
| T_enable_all_load_threshold
| T_enable_load_threshold
| T_disable_load_threshold
| T_min_sampling_rate
| T_sampling_periods
| T_min_online_cpus
| T_max_online_cpus.

Definition write_tunable (p : platform) (t : tunable) (val : kparam)
    (tn : tunables) : Z * tunables :=
  match t with
  | T_enable_all_load_threshold => set_enable_all_load_threshold val tn
  | T_enable_load_threshold => set_enable_load_threshold val tn
  | T_disable_load_threshold => set_disable_load_threshold val tn
  | T_min_sampling_rate => set_min_sampling_rate val tn
  | T_sampling_periods => set_sampling_periods val tn
  | T_min_online_cpus => min_online_cpus_set p val tn
  | T_max_online_cpus => max_online_cpus_set p val tn
  end.

(** The inclusive range each MODULE_PARM_DESC documents. *)
Definition documented_range (p : platform) (t : tunable) : Z * Z :=
  match t with
  | T_enable_all_load_threshold => (270, 550)
  | T_enable_load_threshold => (130, 250)
  | T_disable_load_threshold => (40, 125)
  | T_min_sampling_rate => (10, 50)
  | T_sampling_periods => (5, 50)
  | T_min_online_cpus => (1, CPUS_AVAILABLE p)
  | T_max_online_cpus => (1, CPUS_AVAILABLE p)
  end.

Definition in_documented_range (p : platform) (t : tunable) (n : Z) : Prop :=
  fst (documented_range p t) <= n <= snd (documented_range p t).

Definition read_tunable (t : tunable) (tn : tunables) : Z :=
  match t with
  | T_enable_all_load_threshold => enable_all_load_threshold tn
  | T_enable_load_threshold => enable_load_threshold tn
  | T_disable_load_threshold => disable_load_threshold tn
  | T_min_sampling_rate => min_sampling_rate tn
  | T_sampling_periods => sampling_periods tn
  | T_min_online_cpus => min_online_cpus tn
  | T_max_online_cpus => max_online_cpus tn
  end.

Definition store_tunable (t : tunable) (v : Z) (tn : tunables) : tunables :=
  match t with
  | T_enable_all_load_threshold => with_enable_all_load_threshold v tn
  | T_enable_load_threshold => with_enable_load_threshold v tn
  | T_disable_load_threshold => with_disable_load_threshold v tn
  | T_min_sampling_rate => with_min_sampling_rate v tn
  | T_sampling_periods => with_sampling_periods v tn
  | T_min_online_cpus => with_min_online_cpus v tn
  | T_max_online_cpus => with_max_online_cpus v tn
  end.



Inductive event : Type :=
| RunWork (w : work) (e : sample_env) (mask : list bool)
| CallDisable (flag : bool)
| CallBoostpulse (online_cpus : Z)
| EarlySuspend (online_cpus : Z)
| LateResume
| WriteParam (t : tunable) (val : kparam).

Definition work_fn (p : platform) (w : work) (e : sample_env)
    (mask : list bool) (s : state) : result state :=
  match w with
  | hotplug_decision_work => hotplug_decision_work_fn p e s
  | hotplug_unpause_work => Ok (hotplug_unpause_work_fn s)
  | hotplug_online_all_work => Ok (hotplug_online_all_work_fn p mask s)
  | hotplug_online_single_work => Ok (hotplug_online_single_work_fn p mask s)
  | hotplug_offline_work => Ok (hotplug_offline_work_fn p mask s)
  | hotplug_offline_all_work => Ok (hotplug_offline_all_work_fn p mask s)
  end.

(** The workqueue runs [w] only while it is pending, and takes it off
    the queue before calling its function. *)
Definition run_work (p : platform) (w : work) (e : sample_env)
    (mask : list bool) (s : state) : result state :=
  if wq_pending w (pending s)
  then work_fn p w e mask (with_pending (wq_cancel w (pending s)) s)
  else Ok s.

Definition step (p : platform) (ev : event) (s : state) : result state :=
  match ev with
  | RunWork w e mask => run_work p w e mask s
  | CallDisable flag => Ok (hotplug_disable flag s)
  | CallBoostpulse n => Ok (hotplug_boostpulse p n s)
  | EarlySuspend n => Ok (auto_hotplug_early_suspend n s)
  | LateResume => auto_hotplug_late_resume p s
  | WriteParam t val => Ok (with_tun (snd (write_tunable p t val (tun s))) s)
  end.

Fixpoint run (p : platform) (evs : list event) (s : state) : result state :=
  match evs with
  | [] => Ok s
  | ev :: evs' => do s' <- step p ev s; run p evs' s'
  end.

(** *** What the specification says of disabling and of the boost latch *)


(** The guard of the single-off branch of [decide] (lines 370-398). *)
Definition single_off_fires (p : platform) (e : sample_env) (avg_running : Z)
    (s : state) : bool :=
  let online_cpus := num_online_cpus e in
  let can_online :=
    (online_cpus <? CPUS_AVAILABLE p)
    && (max_online_cpus (tun s) >? online_cpus) in
  negb (flag_set HOTPLUG_DISABLED s)
  && negb ((avg_running >=? enable_all_load_threshold (tun s)) && can_online)
  && negb (flag_set HOTPLUG_PAUSED s)
  && negb ((avg_running >=? u32 (enable_load_threshold (tun s) * online_cpus))
           && can_online)
  && (avg_running <=? u32 (disable_load_threshold (tun s) * online_cpus))
  && (min_online_cpus (tun s) <? online_cpus).

(** Handling [ev] in [s] takes the single-off branch. *)
Definition takes_single_off (p : platform) (ev : event) (s : state) : bool :=
  match ev with
  | RunWork hotplug_decision_work e _ =>
    wq_pending hotplug_decision_work (pending s)
    && match sample_load e
               (with_pending (wq_cancel hotplug_decision_work (pending s)) s)
       with
       | Ok r => single_off_fires p e (fst r) (snd r)
       | Fault _ => false
       end
  | _ => false
  end.

(** No event of the run takes the single-off branch. *)
Fixpoint single_off_free (p : platform) (evs : list event) (s : state)
  : Prop :=
  match evs with
  | [] => True
  | ev :: evs' =>
    takes_single_off p ev s = false
    /\ match step p ev s with
       | Ok s' => single_off_free p evs' s'
       | Fault _ => True
       end
  end.

(** *** The moving average

    [avg_trace] lists the [avg_running] of each decision step of a run. *)
Fixpoint avg_trace (p : platform) (es : list sample_env) (s : state)
  : result (list Z) :=
  match es with
  | [] => Ok []
  | e :: es' =>
    do r <- sample_load e s;
    do s' <- hotplug_decision_work_fn p e s;
    do t <- avg_trace p es' s';
    Ok (fst r :: t)
  end.

Definition sumZ (l : list Z) : Z := fold_right Z.add 0 l.

(** The sample a decision step stores. *)
Definition stored_sample (e : sample_env) : Z := u32 (nr_running e * 100).

(** The specification's average: the sum of the most recent [n] stored
    samples, divided by [n] ([stored] is oldest first). *)
Definition spec_moving_average (stored : list Z) (n : Z) : Z :=
  sumZ (drop (length stored - Z.to_nat n) stored) / n.

(** The state of the sampler between two decision steps when no resize is
    outstanding. *)
Definition sampler_ok (s : state) : Prop :=
  live_sampling_periods s = sampling_periods (tun s)
  /\ 2 <= live_sampling_periods s < 2 ^ 32
  /\ index_max_value s = live_sampling_periods s - 1
  /\ Z.of_nat (length (history s)) = live_sampling_periods s
  /\ 0 <= index s <= index_max_value s.

(** *** Further notions for the properties below *)

(** Decision steps one after the other, one per sample. *)
Fixpoint decision_steps (p : platform) (es : list sample_env) (s : state)
  : result state :=
  match es with
  | [] => Ok s
  | e :: es' =>
    do s' <- hotplug_decision_work_fn p e s;
    decision_steps p es' s'
  end.

(** Every tunable is inside the range its description documents. *)
Definition tunables_in_range (p : platform) (tn : tunables) : Prop :=
  forall t : tunable, in_documented_range p t (read_tunable t tn).

(** A series of parameter writes, return codes dropped. *)
Fixpoint write_all (p : platform) (ws : list (tunable * kparam))
    (tn : tunables) : tunables :=
  match ws with
  | [] => tn
  | (t, val) :: ws' => write_all p ws' (snd (write_tunable p t val tn))
  end.

(** The five tunables whose setter checks the range before it stores. *)
Definition range_checked (t : tunable) : bool :=
  match t with
  | T_min_online_cpus | T_max_online_cpus => false
  | _ => true
  end.

(** Core 0 has never been taken down. *)
Definition cpu0_never_down (s : state) : Prop :=
  ~ In (cpu_down 0) (cpu_log s).

(** Some work that leads back to the decision step is queued: the
    decision work itself, or one of the works whose function queues it. *)
Definition sampler_alive (s : state) : Prop :=
  wq_pending hotplug_decision_work (pending s) = true
  \/ wq_pending hotplug_online_all_work (pending s) = true
  \/ wq_pending hotplug_online_single_work (pending s) = true
  \/ wq_pending hotplug_offline_work (pending s) = true.

(** No work that brings a cpu up or takes one down is queued. *)
Definition no_cpu_work (s : state) : Prop :=
  wq_pending hotplug_online_all_work (pending s) = false
  /\ wq_pending hotplug_online_single_work (pending s) = false
  /\ wq_pending hotplug_offline_work (pending s) = false
  /\ wq_pending hotplug_offline_all_work (pending s) = false.

(** The events that neither enable the governor again nor make early
    suspend queue the offline-all work. *)
Definition keeps_disabled (ev : event) : bool :=
  match ev with
  | CallDisable flag => flag
  | EarlySuspend online_cpus => online_cpus <=? 1
  | _ => true
  end.

(** The event writes the sampling_periods parameter. *)
Definition writes_periods (ev : event) : bool :=
  match ev with
  | WriteParam T_sampling_periods _ => true
  | _ => false
  end.

(** The sampler has no resize outstanding and its block has the five
    entries late resume writes. *)
Definition sampler_steady (s : state) : Prop :=
  sampler_ok s /\ 5 <= sampling_periods (tun s).

(** The events that stop the sampler on purpose. *)
Definition stops_sampler (ev : event) : bool :=
  match ev with
  | CallDisable true => true
  | EarlySuspend _ => true
  | _ => false
  end.

End AutoHotplug.

(** ** The governor with work functions in progress

    [hotplug_disable] can be called while work functions are running on
    other cpus.  Here a work function runs in two steps (it begins; it
    finishes), the decision work being cut after its test of Disabled
    (line 370), and [hotplug_disable(true)] runs test by test and cancel by
    cancel, so that every order of these steps is a timing of the call.
    Each statement on [flags] is taken as one indivisible step, and no
    other call into the driver is made while this one runs.

    The workqueue is the kernel's (kernel/workqueue.c, outside these
    files).  It clears an item's PENDING bit before it calls the item's
    function, so an item can be queued again, and started again on another
    cpu, while an instance of it runs.  [cancel_delayed_work_sync] deletes
    the timer and holds the item's PENDING bit, so that the item cannot be
    queued while the call waits and [delayed_work_pending] reads true; it
    waits until no instance of the item runs, then clears the bit and
    returns. *)

Module HotplugSMP.
Import AutoHotplug.

(** Ghost: whether an instance of a work item was queued before
    [hotplug_disable(true)] was entered or after. *)
Inductive age : Type :=
| Old
| New.

(** A work function in progress: what it read when it began, and for
    the decision work the average it computed and whether it read
    Disabled clear. *)
Record job : Type := {
  job_age : age;
  job_env : sample_env;
  job_avg : Z;
  job_saw_enabled : bool
}.

(** The steps of [hotplug_disable(true)], lines 494-507. *)
Inductive caller_op : Type :=
| OpEnter                  (* the two tests; flags |= HOTPLUG_DISABLED *)
| OpGrab (w : work)        (* cancel_delayed_work_sync(w): the timer is
                              deleted, the PENDING bit held *)
| OpWait (w : work).       (* ... it returns once no instance of w
                              runs; the bit is cleared *)

Definition hotplug_disable_true : list caller_op :=
  [OpEnter;
   OpGrab hotplug_offline_work; OpWait hotplug_offline_work;
   OpGrab hotplug_decision_work; OpWait hotplug_decision_work;
   OpGrab hotplug_unpause_work; OpWait hotplug_unpause_work].

Record cstate : Type := {
  base : state;                       (* [pending w] is w's PENDING bit *)
  stamp : work -> age;                (* ghost: age of the queued instance *)
  in_progress : work -> list job;     (* the instances that run *)
  held : work -> bool;                (* a cancel holds w's PENDING bit *)
  todo : list caller_op               (* what is left of the call *)
}.

Definition set_at {A : Type} (f : work -> A) (w : work) (a : A) : work -> A :=
  fun w' => if work_eqb w w' then a else f w'.

(** [w] is on the queue and will run. *)
Definition queued (c : cstate) (w : work) : bool :=
  wq_pending w (pending (base c)) && negb (held c w).

Definition running (c : cstate) (w : work) : bool :=
  match in_progress c w with
  | [] => false
  | _ :: _ => true
  end.

(** The workqueue starts [w]: it comes off the queue; the decision work
    runs up to and including its read of Disabled (lines 298-370).  A
    fault ends the run. *)
Definition begin_work (w : work) (e : sample_env) (c : cstate)
  : option cstate :=
  if queued c w then
    let b1 := with_pending (wq_cancel w (pending (base c))) (base c) in
    match w with
    | hotplug_decision_work =>
      match sample_load e b1 with
      | Ok r =>
        Some {| base := snd r; stamp := stamp c;
                in_progress :=
                  set_at (in_progress c) w
                    ({| job_age := stamp c w; job_env := e;
                        job_avg := fst r;
                        job_saw_enabled :=
                          negb (flag_set HOTPLUG_DISABLED (snd r)) |}
                     :: in_progress c w);
                held := held c; todo := todo c |}
      | Fault _ => None
      end
    | _ =>
      Some {| base := b1; stamp := stamp c;
              in_progress :=
                set_at (in_progress c) w
                  ({| job_age := stamp c w; job_env := e;
                      job_avg := 0; job_saw_enabled := true |}
                   :: in_progress c w);
              held := held c; todo := todo c |}
    end
  else None.

(** The rest of a work function. *)
Definition rest_of_work (p : platform) (w : work) (j : job)
    (mask : list bool) (b : state) : state :=
  match w with
  | hotplug_decision_work =>
    if job_saw_enabled j then decide_enabled p (job_env j) (job_avg j) b
    else rearm p (job_env j) (tun b) b
  | hotplug_unpause_work => hotplug_unpause_work_fn b
  | hotplug_online_all_work => hotplug_online_all_work_fn p mask b
  | hotplug_online_single_work => hotplug_online_single_work_fn p mask b
  | hotplug_offline_work => hotplug_offline_work_fn p mask b
  | hotplug_offline_all_work => hotplug_offline_all_work_fn p mask b
  end.

(** A PENDING bit that a cancel holds stays as it is, whatever the work
    function did to the item. *)
Definition keep_held (h : work -> bool) (before after : workqueue)
  : workqueue :=
  fun w => if h w then before w else after w.

(** Ghost: an item that came onto the queue is a new instance. *)
Definition restamp (before after : workqueue) (st : work -> age)
  : work -> age :=
  fun w => if negb (wq_pending w before) && wq_pending w after then New
           else st w.

(** The [i]-th running instance of [w] runs to its end. *)
Definition finish_work (p : platform) (w : work) (i : nat) (mask : list bool)
    (c : cstate) : option cstate :=
  match in_progress c w !! i with
  | None => None
  | Some j =>
    let b' := rest_of_work p w j mask (base c) in
    let q := keep_held (held c) (pending (base c)) (pending b') in
    Some {| base := with_pending q b';
            stamp := restamp (pending (base c)) q (stamp c);
            in_progress := set_at (in_progress c) w (delete i (in_progress c w));
            held := held c; todo := todo c |}
  end.

(** The next step of the call; a wait is blocked while an instance of
    the item runs. *)
Definition call_step (c : cstate) : option cstate :=
  match todo c with
  | [] => None
  | OpEnter :: rest =>
    if flag_set HOTPLUG_DISABLED (base c) then
      Some {| base := base c; stamp := stamp c;
              in_progress := in_progress c; held := held c; todo := [] |}
    else
      Some {| base := set_flag HOTPLUG_DISABLED (base c); stamp := stamp c;
              in_progress := in_progress c; held := held c; todo := rest |}
  | OpGrab w :: rest =>
    Some {| base := with_pending (wq_queue w 0 (pending (base c))) (base c);
            stamp := stamp c; in_progress := in_progress c;
            held := set_at (held c) w true; todo := rest |}
  | OpWait w :: rest =>
    if running c w then None
    else
      Some {| base := with_pending (wq_cancel w (pending (base c))) (base c);
              stamp := stamp c; in_progress := in_progress c;
              held := set_at (held c) w false; todo := rest |}
  end.

Inductive cevent : Type :=
| Begin (w : work) (e : sample_env)
| Finish (w : work) (i : nat) (mask : list bool)
| Call.

Definition cstep (p : platform) (ev : cevent) (c : cstate) : option cstate :=
  match ev with
  | Begin w e => begin_work w e c
  | Finish w i mask => finish_work p w i mask c
  | Call => call_step c
  end.

(** A timing: the steps in the order they happen.  [None] when a step of
    the list cannot happen where it stands. *)
Fixpoint crun (p : platform) (evs : list cevent) (c : cstate)
  : option cstate :=
  match evs with
  | [] => Some c
  | ev :: evs' =>
    match cstep p ev c with
    | Some c' => crun p evs' c'
    | None => None
    end
  end.






(** The state of the sequential model as a state with nothing in
    progress and the call about to be entered. *)
Definition entering (s : state) : cstate :=
  {| base := s; stamp := fun _ => Old; in_progress := fun _ => [];
     held := fun _ => false; todo := hotplug_disable_true |}.









End HotplugSMP.

(** * The thermal limiter: drivers/thermal/msm_thermal.c

    Two revisions of the driver are in the tree.  What they share comes
    first. *)

(** mach/cpufreq.h and linux/cpufreq.h, outside these files. *)
Definition MSM_CPUFREQ_NO_LIMIT : Z := 4294967295.   (* 0xFFFFFFFF *)
Definition CPUFREQ_TABLE_END : Z := 4294967294.      (* ~1 *)

Definition COOL_TEMP_OFFSET_MS : Z := 250.
Definition HOT_TEMP_OFFSET_MS : Z := 250.

(** struct msm_thermal_data (linux/msm_thermal.h): five [uint32_t]. *)
Record msm_thermal_data : Type := {
  sensor_id : Z;
  poll_ms : Z;
  limit_temp_degC : Z;
  temp_hysteresis_degC : Z;
  freq_step : Z
}.

(** The calls the driver makes into the rest of the kernel, in order. *)
Inductive call : Type :=
| orderly_poweroff
| msm_cpufreq_set_freq_limits (cpu : nat) (min max : Z)
| cpufreq_update_policy (cpu : nat).

(** What one run of [check_temp] reads from the system. *)
Record thermal_env : Type := {
  tsens_ret : Z;                      (* return code of tsens_get_temp *)
  tsens_temp : Z;                     (* the temperature it stored *)
  cpufreq_table : option (list Z);    (* cpufreq_frequency_get_table(0):
                                         NULL, or the frequencies of the
                                         array, terminator included *)
  set_limits_ret : nat -> Z;          (* return code of
                                         msm_cpufreq_set_freq_limits per cpu *)
  nr_possible_cpus : nat              (* for_each_possible_cpu: 0 .. n-1 *)
}.

(** [table[i].frequency]. *)
Definition table_freq (table : option (list Z)) (i : Z) : result Z :=
  match table with
  | None => Fault (OutOfBounds i)
  | Some t =>
    match block_get t i with
    | Some f => Ok f
    | None => Fault (OutOfBounds i)
    end
  end.

(** [while (table[i].frequency != CPUFREQ_TABLE_END) i++;] from [i]. *)
Fixpoint table_end (t : list Z) (i : Z) : result Z :=
  match t with
  | [] => Fault (OutOfBounds i)
  | f :: t' => if f =? CPUFREQ_TABLE_END then Ok i else table_end t' (i + 1)
  end.

(** ** The revision with the shutdown band (drivers/thermal/msm_thermal.c) *)

Module ThermalB.

Definition DEFAULT_THROTTLE_TEMP : Z := 64.
Definition MAX_THROTTLE_TEMP : Z := 74.
Definition SHUTDOWN_TEMP : Z := 80.
Definition COOL_TEMP : Z := 40.

Record state : Type := {
  enabled : Z;
  msm_thermal_info : msm_thermal_data;
  limited_max_freq : Z;
  check_temp_work : option Z;    (* pending with this delay, or idle *)
  limit_idx : Z;
  limit_idx_low : Z;
  limit_idx_high : Z;
  table : option (list Z);
  limit_init : Z;                (* the static local of check_temp *)
  throttle_temp : Z;
  calls : list call
}.

Definition with_enabled (v : Z) (s : state) : state :=
  {| enabled := v; msm_thermal_info := msm_thermal_info s;
     limited_max_freq := limited_max_freq s;
     check_temp_work := check_temp_work s;
     limit_idx := limit_idx s; limit_idx_low := limit_idx_low s;
     limit_idx_high := limit_idx_high s; table := table s;
     limit_init := limit_init s; throttle_temp := throttle_temp s;
     calls := calls s |}.

Definition with_limited_max_freq (v : Z) (s : state) : state :=
  {| enabled := enabled s; msm_thermal_info := msm_thermal_info s;
     limited_max_freq := v;
     check_temp_work := check_temp_work s;
     limit_idx := limit_idx s; limit_idx_low := limit_idx_low s;
     limit_idx_high := limit_idx_high s; table := table s;
     limit_init := limit_init s; throttle_temp := throttle_temp s;
     calls := calls s |}.

Definition with_check_temp_work (v : option Z) (s : state) : state :=
  {| enabled := enabled s; msm_thermal_info := msm_thermal_info s;
     limited_max_freq := limited_max_freq s;
     check_temp_work := v;
     limit_idx := limit_idx s; limit_idx_low := limit_idx_low s;
     limit_idx_high := limit_idx_high s; table := table s;
     limit_init := limit_init s; throttle_temp := throttle_temp s;
     calls := calls s |}.

Definition with_limit_idx (v : Z) (s : state) : state :=
  {| enabled := enabled s; msm_thermal_info := msm_thermal_info s;
     limited_max_freq := limited_max_freq s;
     check_temp_work := check_temp_work s;
     limit_idx := v; limit_idx_low := limit_idx_low s;
     limit_idx_high := limit_idx_high s; table := table s;
     limit_init := limit_init s; throttle_temp := throttle_temp s;
     calls := calls s |}.

Definition with_table (t : option (list Z)) (s : state) : state :=
  {| enabled := enabled s; msm_thermal_info := msm_thermal_info s;
     limited_max_freq := limited_max_freq s;
     check_temp_work := check_temp_work s;
     limit_idx := limit_idx s; limit_idx_low := limit_idx_low s;
     limit_idx_high := limit_idx_high s; table := t;
     limit_init := limit_init s; throttle_temp := throttle_temp s;
     calls := calls s |}.

Definition with_range (low high : Z) (s : state) : state :=
  {| enabled := enabled s; msm_thermal_info := msm_thermal_info s;
     limited_max_freq := limited_max_freq s;
     check_temp_work := check_temp_work s;
     limit_idx := limit_idx s; limit_idx_low := low;
     limit_idx_high := high; table := table s;
     limit_init := limit_init s; throttle_temp := throttle_temp s;
     calls := calls s |}.

Definition with_limit_init (v : Z) (s : state) : state :=
  {| enabled := enabled s; msm_thermal_info := msm_thermal_info s;
     limited_max_freq := limited_max_freq s;
     check_temp_work := check_temp_work s;
     limit_idx := limit_idx s; limit_idx_low := limit_idx_low s;
     limit_idx_high := limit_idx_high s; table := table s;
     limit_init := v; throttle_temp := throttle_temp s;
     calls := calls s |}.

Definition with_throttle_temp (v : Z) (s : state) : state :=
  {| enabled := enabled s; msm_thermal_info := msm_thermal_info s;
     limited_max_freq := limited_max_freq s;
     check_temp_work := check_temp_work s;
     limit_idx := limit_idx s; limit_idx_low := limit_idx_low s;
     limit_idx_high := limit_idx_high s; table := table s;
     limit_init := limit_init s; throttle_temp := v;
     calls := calls s |}.

Definition log_call (c : call) (s : state) : state :=
  {| enabled := enabled s; msm_thermal_info := msm_thermal_info s;
     limited_max_freq := limited_max_freq s;
     check_temp_work := check_temp_work s;
     limit_idx := limit_idx s; limit_idx_low := limit_idx_low s;
     limit_idx_high := limit_idx_high s; table := table s;
     limit_init := limit_init s; throttle_temp := throttle_temp s;
     calls := calls s ++ [c] |}.

(** [schedule_delayed_work(&check_temp_work, delay)]. *)
Definition schedule_delayed_work (delay : Z) (s : state) : state :=
  match check_temp_work s with
  | Some _ => s
  | None => with_check_temp_work (Some delay) s
  end.

(** Returns the return code and the state. *)
Definition msm_thermal_get_freq_table (e : thermal_env) (s : state)
  : result (Z * state) :=
  let s1 := with_table (cpufreq_table e) s in
  match cpufreq_table e with
  | None => Ok (- EINVAL, s1)
  | Some t =>
    do i <- table_end t 0;
    let s2 := with_limit_idx (s32 (i - 1)) (with_range 0 (s32 (i - 1)) s1) in
    if (limit_idx_high s2 <=? 0) || (limit_idx_high s2 <=? limit_idx_low s2)
    then Fault BugOn
    else Ok (0, s2)
  end.

Definition update_cpu_max_freq (e : thermal_env) (max_freq : Z) (s : state)
    (cpu : nat) : state :=
  let s1 :=
    log_call (msm_cpufreq_set_freq_limits cpu MSM_CPUFREQ_NO_LIMIT max_freq) s in
  if negb (set_limits_ret e cpu =? 0) then s1
  else log_call (cpufreq_update_policy cpu) (with_limited_max_freq max_freq s1).

(** The label [reschedule]. *)
Definition reschedule (hz temp : Z) (near_limit : bool) (s : state) : state :=
  if enabled s =? 0 then s
  else
    let poll := poll_ms (msm_thermal_info s) in
    if temp >? COOL_TEMP then
      if near_limit
      then schedule_delayed_work
             (msecs_to_jiffies hz (u32 (poll - HOT_TEMP_OFFSET_MS))) s
      else schedule_delayed_work (msecs_to_jiffies hz poll) s
    else schedule_delayed_work
           (msecs_to_jiffies hz (u32 (poll + COOL_TEMP_OFFSET_MS))) s.

(** The label [setmaxfreq], falling through to [reschedule]. *)
Definition setmaxfreq (hz : Z) (e : thermal_env) (max_freq temp : Z)
    (near_limit : bool) (s : state) : state :=
  reschedule hz temp near_limit
    (fold_left (update_cpu_max_freq e max_freq)
               (seq 0 (nr_possible_cpus e)) s).

(** Line 173: apply only a ceiling that differs from the one in force. *)
Definition apply_if_changed (hz : Z) (e : thermal_env) (max_freq temp : Z)
    (near_limit : bool) (s : state) : state :=
  if max_freq =? limited_max_freq s then reschedule hz temp near_limit s
  else setmaxfreq hz e max_freq temp near_limit s.

(** Lines 126-132: the lazy read of the frequency table. *)
Definition init_limits (e : thermal_env) (s : state) : result (Z * state) :=
  if limit_init s =? 0 then
    do r <- msm_thermal_get_freq_table e s;
    if negb (fst r =? 0) then Ok r
    else Ok (0, with_limit_init 1 (snd r))
  else Ok (0, s).

(** Lines 134-175: the temperature bands, once the table is there.
    [max_freq] is the ceiling that was in force when [check_temp] was
    entered. *)
Definition apply_bands (hz : Z) (e : thermal_env) (max_freq temp : Z)
    (s : state) : result state :=
  if temp >=? SHUTDOWN_TEMP then
    (* between mutex_lock and mutex_unlock of emergency_shutdown_mutex *)
    let s1 := log_call orderly_poweroff s in
    do f <- table_freq (table s1) (limit_idx s1);
    Ok (setmaxfreq hz e f temp false (with_enabled 0 s1))
  else
    let hyst := temp_hysteresis_degC (msm_thermal_info s) in
    let step := freq_step (msm_thermal_info s) in
    let near_limit := temp >? u32 (throttle_temp s - hyst) in
    if temp >=? u32 (throttle_temp s) then
      if limit_idx s =? limit_idx_low s
      then Ok (reschedule hz temp near_limit s)
      else
        let idx := s32 (limit_idx s - step) in
        let idx := if idx <? limit_idx_low s then limit_idx_low s else idx in
        do f <- table_freq (table s) idx;
        Ok (apply_if_changed hz e f temp near_limit (with_limit_idx idx s))
    else if temp <? u32 (throttle_temp s - hyst) then
      if limit_idx s =? limit_idx_high s
      then Ok (reschedule hz temp near_limit s)
      else
        let idx := s32 (limit_idx s + step) in
        if idx >=? limit_idx_high s then
          Ok (apply_if_changed hz e MSM_CPUFREQ_NO_LIMIT temp near_limit
                (with_limit_idx (limit_idx_high s) s))
        else
          do f <- table_freq (table s) idx;
          Ok (apply_if_changed hz e f temp near_limit (with_limit_idx idx s))
    else Ok (apply_if_changed hz e max_freq temp near_limit s).

Definition check_temp (hz : Z) (e : thermal_env) (s : state) : result state :=
  let max_freq := limited_max_freq s in
  if negb (tsens_ret e =? 0) then Ok (reschedule hz 0 false s)
  else
    let temp := u32 (tsens_temp e) in
    do r <- init_limits e s;
    if negb (fst r =? 0) then Ok (reschedule hz temp false (snd r))
    else apply_bands hz e max_freq temp (snd r).

Definition set_throttle_temp (val : kparam) (s : state) : Z * state :=
  match val with
  | NullVal => (- EINVAL, s)
  | _ =>
    let '(ret, num) := strict_strtol val in
    if (ret =? - EINVAL) || (num >? MAX_THROTTLE_TEMP) || (num <? COOL_TEMP)
    then (- EINVAL, s)
    else
      let '(ret, v) := param_set_int val (u32 (throttle_temp s)) in
      (ret, with_throttle_temp (s32 v) s)
  end.

(** The variables as the C initialisers leave them, then
    [msm_thermal_init]. *)
Definition msm_thermal_init (pdata : msm_thermal_data) : state :=
  {| enabled := 1; msm_thermal_info := pdata;
     limited_max_freq := MSM_CPUFREQ_NO_LIMIT;
     check_temp_work := Some 0;
     limit_idx := 0; limit_idx_low := 0; limit_idx_high := 0;
     table := None; limit_init := 0;
     throttle_temp := DEFAULT_THROTTLE_TEMP;
     calls := [] |}.

(** The workqueue runs [check_temp] while the work is pending, and takes
    it off the queue first. *)
Definition run_check_temp (hz : Z) (e : thermal_env) (s : state)
  : result state :=
  match check_temp_work s with
  | Some _ => check_temp hz e (with_check_temp_work None s)
  | None => Ok s
  end.

(** The polling chain: one run of the work per reading, for as long as the
    work re-arms itself. *)
Fixpoint poll (hz : Z) (es : list thermal_env) (s : state) : result state :=
  match es with
  | [] => Ok s
  | e :: es' => do s' <- run_check_temp hz e s; poll hz es' s'
  end.

(** [check_temp] entered once per reading, whoever calls it. *)
Fixpoint invoke (hz : Z) (es : list thermal_env) (s : state) : result state :=
  match es with
  | [] => Ok s
  | e :: es' => do s' <- check_temp hz e s; invoke hz es' s'
  end.

Definition poweroffs (s : state) : nat :=
  length (List.filter (fun c => match c with orderly_poweroff => true | _ => false end)
                      (calls s)).

(** *** What the proofs observe of a state *)

(** Everything but the queue, the ceiling in force and the call log (of
    which only the number of power-off calls is kept). *)
Definition core (s : state)
  : Z * Z * Z * option (list Z) * Z * Z * msm_thermal_data * Z * nat :=
  (limit_idx s, limit_idx_low s, limit_idx_high s, table s, limit_init s,
   throttle_temp s, msm_thermal_info s, enabled s, poweroffs s).

(** The index [check_temp] leaves below the shutdown band, for a state
    whose table is resolved. *)
Definition next_limit_idx (temp : Z) (s : state) : Z :=
  let hyst := temp_hysteresis_degC (msm_thermal_info s) in
  let step := freq_step (msm_thermal_info s) in
  if temp >=? u32 (throttle_temp s) then
    if limit_idx s =? limit_idx_low s then limit_idx s
    else if s32 (limit_idx s - step) <? limit_idx_low s then limit_idx_low s
         else s32 (limit_idx s - step)
  else if temp <? u32 (throttle_temp s - hyst) then
    if limit_idx s =? limit_idx_high s then limit_idx s
    else if s32 (limit_idx s + step) >=? limit_idx_high s then limit_idx_high s
         else s32 (limit_idx s + step)
  else limit_idx s.

(** The table is resolved, the index is inside the validated range, and
    the configuration keeps the 32-bit arithmetic of the step from
    wrapping. *)
Definition resolved (s : state) : Prop :=
  limit_init s <> 0
  /\ (exists t, table s = Some t /\ limit_idx_high s < Z.of_nat (length t))
  /\ 0 <= limit_idx_low s <= limit_idx s
  /\ limit_idx s <= limit_idx_high s
  /\ 0 <= freq_step (msm_thermal_info s)
  /\ freq_step (msm_thermal_info s) + limit_idx_high s < 2 ^ 31.


(** *** What the specification says of this driver *)

(** Power-off is requested at most once, however often the sampling step
    is entered. *)
Definition shutdown_at_most_once (hz : Z) (es : list thermal_env) (s : state)
  : Prop :=
  forall s', invoke hz es s = Ok s' -> (poweroffs s' <= 1)%nat.

(** A reading in the shutdown band requests power-off, puts the ceiling at
    the lowest frequency of the range and leaves no poll scheduled. *)
Definition shutdown_clamps_to_minimum (hz : Z) (e : thermal_env) (s : state)
  : Prop :=
  tsens_ret e = 0 ->
  SHUTDOWN_TEMP <= u32 (tsens_temp e) ->
  exists s',
    run_check_temp hz e s = Ok s'
    /\ poweroffs s' = S (poweroffs s)
    /\ table_freq (table s') (limit_idx_low s') = Ok (limited_max_freq s')
    /\ check_temp_work s' = None.


(** The sensor answers with a temperature in the shutdown band. *)
Definition shutdown_reading (e : thermal_env) : Prop :=
  tsens_ret e = 0 /\ SHUTDOWN_TEMP <= u32 (tsens_temp e).



(** *** Switching the limiter off, and probing *)

(** [cancel_delayed_work] and [flush_scheduled_work] leave nothing queued
    (no entry runs while another is in progress); then the ceiling is
    lifted on every cpu unless none is in force. *)
Definition disable_msm_thermal (e : thermal_env) (s : state) : state :=
  let s1 := with_check_temp_work None s in
  if limited_max_freq s1 =? MSM_CPUFREQ_NO_LIMIT then s1
  else fold_left (update_cpu_max_freq e MSM_CPUFREQ_NO_LIMIT)
                 (seq 0 (nr_possible_cpus e)) s1.

Definition set_enabled (e : thermal_env) (val : kbool) (s : state)
  : Z * state :=
  let '(ret, v) := param_set_bool val (enabled s) in
  let s1 := with_enabled v s in
  if enabled s1 =? 0 then (ret, disable_msm_thermal e s1) else (ret, s1).

(** The variables as the C initialisers leave them. *)
Definition statics : state :=
  {| enabled := 0;
     msm_thermal_info :=
       {| sensor_id := 0; poll_ms := 0; limit_temp_degC := 0;
          temp_hysteresis_degC := 0; freq_step := 0 |};
     limited_max_freq := MSM_CPUFREQ_NO_LIMIT;
     check_temp_work := None;
     limit_idx := 0; limit_idx_low := 0; limit_idx_high := 0;
     table := None; limit_init := 0;
     throttle_temp := DEFAULT_THROTTLE_TEMP;
     calls := [] |}.

Definition with_msm_thermal_info (d : msm_thermal_data) (s : state) : state :=
  {| enabled := enabled s; msm_thermal_info := d;
     limited_max_freq := limited_max_freq s;
     check_temp_work := check_temp_work s;
     limit_idx := limit_idx s; limit_idx_low := limit_idx_low s;
     limit_idx_high := limit_idx_high s; table := table s;
     limit_init := limit_init s; throttle_temp := throttle_temp s;
     calls := calls s |}.

(** [msm_thermal_init(pdata)], lines 295-308, entered in state [s]:
    [tsens_max] is TSENS_MAX_SENSORS (linux/msm_tsens.h, outside these
    files); INIT_DELAYED_WORK leaves the work idle, then it is queued
    with no delay.  From the C initialisers this gives the state
    [msm_thermal_init pdata] above. *)
Definition msm_thermal_init_from (tsens_max : Z) (pdata : msm_thermal_data)
    (s : state) : result (Z * state) :=
  if sensor_id pdata >=? tsens_max then Fault BugOn
  else
    let s1 := with_enabled 1 (with_msm_thermal_info pdata s) in
    Ok (0, schedule_delayed_work 0 (with_check_temp_work None s1)).

(** [msm_thermal_dev_probe], entered in state [s]: the five properties
    are read in order into a zeroed [data], the first failure ends the
    probe with its code and nothing else done. *)
Definition msm_thermal_dev_probe (tsens_max : Z) (node : dt_node) (s : state)
  : result (Z * state) :=
  let rd (k : dt_key) : Z := if fst (node k) =? 0 then u32 (snd (node k)) else 0 in
  let data :=
    {| sensor_id := rd qcom_sensor_id; poll_ms := rd qcom_poll_ms;
       limit_temp_degC := rd qcom_limit_temp;
       temp_hysteresis_degC := rd qcom_temp_hysteresis;
       freq_step := rd qcom_freq_step |} in
  if negb (fst (node qcom_sensor_id) =? 0)
  then Ok (fst (node qcom_sensor_id), s)
  else if negb (fst (node qcom_poll_ms) =? 0)
  then Ok (fst (node qcom_poll_ms), s)
  else if negb (fst (node qcom_limit_temp) =? 0)
  then Ok (fst (node qcom_limit_temp), s)
  else if negb (fst (node qcom_temp_hysteresis) =? 0)
  then Ok (fst (node qcom_temp_hysteresis), s)
  else if negb (fst (node qcom_freq_step) =? 0)
  then Ok (fst (node qcom_freq_step), s)
  else msm_thermal_init_from tsens_max data s.

(** The first property, in the order of the probe, that cannot be
    read. *)
Definition first_unreadable (node : dt_node) : option dt_key :=
  List.find (fun k => negb (fst (node k) =? 0))
            [qcom_sensor_id; qcom_poll_ms; qcom_limit_temp;
             qcom_temp_hysteresis; qcom_freq_step].

(** The delay [reschedule] asks for. *)
Definition poll_delay (hz temp : Z) (near_limit : bool) (s : state) : Z :=
  let poll := poll_ms (msm_thermal_info s) in
  if temp >? COOL_TEMP then
    if near_limit then msecs_to_jiffies hz (u32 (poll - HOT_TEMP_OFFSET_MS))
    else msecs_to_jiffies hz poll
  else msecs_to_jiffies hz (u32 (poll + COOL_TEMP_OFFSET_MS)).

(** What [update_cpu_max_freq] logs for one cpu. *)
Definition cpu_calls (e : thermal_env) (max_freq : Z) (cpu : nat)
  : list call :=
  if set_limits_ret e cpu =? 0
  then [msm_cpufreq_set_freq_limits cpu MSM_CPUFREQ_NO_LIMIT max_freq;
        cpufreq_update_policy cpu]
  else [msm_cpufreq_set_freq_limits cpu MSM_CPUFREQ_NO_LIMIT max_freq].

(** What a reading in the shutdown band does, [s1] being the state once
    the table is there and [idx] its index: power-off is requested once,
    before any ceiling; the index stays; every possible cpu is given the
    ceiling [f]; [enabled] is cleared and no poll is queued. *)
Definition shuts_down (e : thermal_env) (s1 s' : state) (idx f : Z) : Prop :=
  poweroffs s' = S (poweroffs s1)
  /\ limit_idx s' = idx
  /\ calls s'
     = calls s1
       ++ orderly_poweroff
          :: flat_map (cpu_calls e f) (seq 0 (nr_possible_cpus e))
  /\ limited_max_freq s'
     = (if existsb (fun c => set_limits_ret e c =? 0)
                   (seq 0 (nr_possible_cpus e))
        then f else limited_max_freq s1)
  /\ enabled s' = 0
  /\ check_temp_work s' = check_temp_work s1.

End ThermalB.

(** ** The revision with the max-throttle band

    The second msm_thermal.c of the tree (it follows the hotplug driver in
    arch/arm/kernel/auto_hotplug.c, from line 620 on).  Its indices are
    [unsigned int]. *)

Module ThermalA.

Definition DEFAULT_THROTTLE_TEMP : Z := 70.
Definition MAX_THROTTLE_TEMP : Z := 80.
Definition COOL_TEMP : Z := 45.
Definition DEFAULT_MIN_FREQ_INDEX : Z := 7.

Record state : Type := {
  enabled : Z;
  msm_thermal_info : msm_thermal_data;
  limited_max_freq : Z;
  check_temp_work : option Z;
  limit_idx : Z;
  min_freq_index : Z;
  limit_idx_high : Z;
  throttle_on : bool;
  throttle_temp : Z;
  table : option (list Z);
  limit_init : Z;
  calls : list call
}.

Definition with_limited_max_freq (v : Z) (s : state) : state :=
  {| enabled := enabled s; msm_thermal_info := msm_thermal_info s;
     limited_max_freq := v; check_temp_work := check_temp_work s;
     limit_idx := limit_idx s; min_freq_index := min_freq_index s;
     limit_idx_high := limit_idx_high s; throttle_on := throttle_on s;
     throttle_temp := throttle_temp s; table := table s;
     limit_init := limit_init s; calls := calls s |}.

Definition with_check_temp_work (v : option Z) (s : state) : state :=
  {| enabled := enabled s; msm_thermal_info := msm_thermal_info s;
     limited_max_freq := limited_max_freq s; check_temp_work := v;
     limit_idx := limit_idx s; min_freq_index := min_freq_index s;
     limit_idx_high := limit_idx_high s; throttle_on := throttle_on s;
     throttle_temp := throttle_temp s; table := table s;
     limit_init := limit_init s; calls := calls s |}.

Definition with_limit_idx (v : Z) (s : state) : state :=
  {| enabled := enabled s; msm_thermal_info := msm_thermal_info s;
     limited_max_freq := limited_max_freq s;
     check_temp_work := check_temp_work s;
     limit_idx := v; min_freq_index := min_freq_index s;
     limit_idx_high := limit_idx_high s; throttle_on := throttle_on s;
     throttle_temp := throttle_temp s; table := table s;
     limit_init := limit_init s; calls := calls s |}.

Definition with_min_freq_index (v : Z) (s : state) : state :=
  {| enabled := enabled s; msm_thermal_info := msm_thermal_info s;
     limited_max_freq := limited_max_freq s;
     check_temp_work := check_temp_work s;
     limit_idx := limit_idx s; min_freq_index := v;
     limit_idx_high := limit_idx_high s; throttle_on := throttle_on s;
     throttle_temp := throttle_temp s; table := table s;
     limit_init := limit_init s; calls := calls s |}.

Definition with_limit_idx_high (v : Z) (s : state) : state :=
  {| enabled := enabled s; msm_thermal_info := msm_thermal_info s;
     limited_max_freq := limited_max_freq s;
     check_temp_work := check_temp_work s;
     limit_idx := limit_idx s; min_freq_index := min_freq_index s;
     limit_idx_high := v; throttle_on := throttle_on s;
     throttle_temp := throttle_temp s; table := table s;
     limit_init := limit_init s; calls := calls s |}.

Definition with_throttle_on (v : bool) (s : state) : state :=
  {| enabled := enabled s; msm_thermal_info := msm_thermal_info s;
     limited_max_freq := limited_max_freq s;
     check_temp_work := check_temp_work s;
     limit_idx := limit_idx s; min_freq_index := min_freq_index s;
     limit_idx_high := limit_idx_high s; throttle_on := v;
     throttle_temp := throttle_temp s; table := table s;
     limit_init := limit_init s; calls := calls s |}.

Definition with_throttle_temp (v : Z) (s : state) : state :=
  {| enabled := enabled s; msm_thermal_info := msm_thermal_info s;
     limited_max_freq := limited_max_freq s;
     check_temp_work := check_temp_work s;
     limit_idx := limit_idx s; min_freq_index := min_freq_index s;
     limit_idx_high := limit_idx_high s; throttle_on := throttle_on s;
     throttle_temp := v; table := table s;
     limit_init := limit_init s; calls := calls s |}.

Definition with_table (t : option (list Z)) (s : state) : state :=
  {| enabled := enabled s; msm_thermal_info := msm_thermal_info s;
     limited_max_freq := limited_max_freq s;
     check_temp_work := check_temp_work s;
     limit_idx := limit_idx s; min_freq_index := min_freq_index s;
     limit_idx_high := limit_idx_high s; throttle_on := throttle_on s;
     throttle_temp := throttle_temp s; table := t;
     limit_init := limit_init s; calls := calls s |}.

Definition with_limit_init (v : Z) (s : state) : state :=
  {| enabled := enabled s; msm_thermal_info := msm_thermal_info s;
     limited_max_freq := limited_max_freq s;
     check_temp_work := check_temp_work s;
     limit_idx := limit_idx s; min_freq_index := min_freq_index s;
     limit_idx_high := limit_idx_high s; throttle_on := throttle_on s;
     throttle_temp := throttle_temp s; table := table s;
     limit_init := v; calls := calls s |}.

Definition log_call (c : call) (s : state) : state :=
  {| enabled := enabled s; msm_thermal_info := msm_thermal_info s;
     limited_max_freq := limited_max_freq s;
     check_temp_work := check_temp_work s;
     limit_idx := limit_idx s; min_freq_index := min_freq_index s;
     limit_idx_high := limit_idx_high s; throttle_on := throttle_on s;
     throttle_temp := throttle_temp s; table := table s;
     limit_init := limit_init s; calls := calls s ++ [c] |}.

Definition schedule_delayed_work (delay : Z) (s : state) : state :=
  match check_temp_work s with
  | Some _ => s
  | None => with_check_temp_work (Some delay) s
  end.

Definition msm_thermal_get_freq_table (e : thermal_env) (s : state)
  : result (Z * state) :=
  let s1 := with_table (cpufreq_table e) s in
  match cpufreq_table e with
  | None => Ok (- EINVAL, s1)
  | Some t =>
    do i <- table_end t 0;
    let s2 := with_min_freq_index DEFAULT_MIN_FREQ_INDEX s1 in
    let s3 := with_limit_idx (u32 (i - 1)) (with_limit_idx_high (u32 (i - 1)) s2) in
    if (limit_idx_high s3 <=? 0) || (limit_idx_high s3 <=? min_freq_index s3)
    then Fault BugOn
    else Ok (0, s3)
  end.

Definition update_cpu_max_freq (e : thermal_env) (max_freq : Z) (s : state)
    (cpu : nat) : state :=
  let s1 :=
    log_call (msm_cpufreq_set_freq_limits cpu MSM_CPUFREQ_NO_LIMIT max_freq) s in
  if negb (set_limits_ret e cpu =? 0) then s1
  else log_call (cpufreq_update_policy cpu) (with_limited_max_freq max_freq s1).

Definition reschedule (hz temp : Z) (poll_faster : bool) (s : state) : state :=
  if enabled s =? 0 then s
  else
    let poll := poll_ms (msm_thermal_info s) in
    if temp >? COOL_TEMP then
      if poll_faster
      then schedule_delayed_work
             (msecs_to_jiffies hz (u32 (poll - HOT_TEMP_OFFSET_MS))) s
      else schedule_delayed_work (msecs_to_jiffies hz poll) s
    else schedule_delayed_work
           (msecs_to_jiffies hz (u32 (poll + COOL_TEMP_OFFSET_MS))) s.

Definition setmaxfreq (hz : Z) (e : thermal_env) (max_freq temp : Z)
    (poll_faster : bool) (s : state) : state :=
  reschedule hz temp poll_faster
    (fold_left (update_cpu_max_freq e max_freq)
               (seq 0 (nr_possible_cpus e)) s).

Definition init_limits (e : thermal_env) (s : state) : result (Z * state) :=
  if limit_init s =? 0 then
    do r <- msm_thermal_get_freq_table e s;
    if negb (fst r =? 0) then Ok r
    else Ok (0, with_limit_init 1 (snd r))
  else Ok (0, s).

(** Lines 785-787: [limit_idx -= freq_step], held at [min_freq_index]. *)
Definition step_down (s : state) : Z :=
  let idx := u32 (limit_idx s - freq_step (msm_thermal_info s)) in
  if idx <? min_freq_index s then min_freq_index s else idx.

(** Lines 753-808: the temperature bands, once the table is there. *)
Definition apply_bands (hz : Z) (e : thermal_env) (max_freq temp : Z)
    (s : state) : result state :=
  let hyst := temp_hysteresis_degC (msm_thermal_info s) in
  if temp >=? MAX_THROTTLE_TEMP then
    (* max throttle exceeded - go direct to the low step *)
    let s1 := with_limit_idx (min_freq_index s) s in
    do f <- table_freq (table s1) (limit_idx s1);
    Ok (setmaxfreq hz e f temp true (with_throttle_on true s1))
  else if temp <? u32 (throttle_temp s - hyst) then
    (* temp is OK *)
    let s1 := with_throttle_on false s in
    if limit_idx s1 =? limit_idx_high s1
    then Ok (reschedule hz temp false s1)
    else
      let s2 := with_limit_idx (limit_idx_high s1) s1 in
      do f <- table_freq (table s2) (limit_idx s2);
      Ok (setmaxfreq hz e f temp false s2)
  else if temp >=? throttle_temp s then
    (* throttle exceeded - step down *)
    if limit_idx s =? min_freq_index s
    then Ok (reschedule hz temp true s)
    else
      let s1 := with_limit_idx (step_down s) s in
      do f <- table_freq (table s1) (limit_idx s1);
      Ok (setmaxfreq hz e f temp true (with_throttle_on true s1))
  else if temp >=? u32 (throttle_temp s - hyst) then
    (* warning track - allow to go to max but poll faster *)
    let s1 := with_throttle_on false s in
    if limit_idx s1 =? limit_idx_high s1
    then Ok (reschedule hz temp true s1)
    else
      let s2 := with_limit_idx (limit_idx_high s1) s1 in
      do f <- table_freq (table s2) (limit_idx s2);
      Ok (setmaxfreq hz e f temp true s2)
  else Ok (setmaxfreq hz e max_freq temp false s).

Definition check_temp (hz : Z) (e : thermal_env) (s : state) : result state :=
  let max_freq := limited_max_freq s in
  if negb (tsens_ret e =? 0) then Ok (reschedule hz 0 false s)
  else
    let temp := u32 (tsens_temp e) in
    do r <- init_limits e s;
    if negb (fst r =? 0) then Ok (reschedule hz temp false (snd r))
    else apply_bands hz e max_freq temp (snd r).

Definition set_throttle_temp (val : kparam) (s : state) : Z * state :=
  match val with
  | NullVal => (- EINVAL, s)
  | _ =>
    let '(ret, num) := strict_strtol val in
    if (ret =? - EINVAL) || (num >? MAX_THROTTLE_TEMP) || (num <? COOL_TEMP)
    then (- EINVAL, s)
    else
      let '(ret, v) := param_set_int val (throttle_temp s) in
      (ret, with_throttle_temp v s)
  end.

Definition set_min_freq_index (val : kparam) (s : state) : Z * state :=
  match val with
  | NullVal => (- EINVAL, s)
  | _ =>
    let '(ret, num) := strict_strtol val in
    if (ret =? - EINVAL) || (num >? 8) || (num <? 4) then (- EINVAL, s)
    else
      let '(ret, v) := param_set_int val (min_freq_index s) in
      (ret, with_min_freq_index v s)
  end.

Definition msm_thermal_init (pdata : msm_thermal_data) : state :=
  {| enabled := 1; msm_thermal_info := pdata;
     limited_max_freq := MSM_CPUFREQ_NO_LIMIT;
     check_temp_work := Some 0;
     limit_idx := 0; min_freq_index := 0; limit_idx_high := 0;
     throttle_on := false;
     throttle_temp := DEFAULT_THROTTLE_TEMP;
     table := None; limit_init := 0;
     calls := [] |}.

Fixpoint invoke (hz : Z) (es : list thermal_env) (s : state) : result state :=
  match es with
  | [] => Ok s
  | e :: es' => do s' <- check_temp hz e s; invoke hz es' s'
  end.

(** *** What the proofs observe of a state *)

Definition core (s : state)
  : Z * Z * Z * option (list Z) * Z * Z * msm_thermal_data :=
  (limit_idx s, min_freq_index s, limit_idx_high s, table s, limit_init s,
   throttle_temp s, msm_thermal_info s).

(** The index [apply_bands] leaves. *)
Definition next_limit_idx (temp : Z) (s : state) : Z :=
  let hyst := temp_hysteresis_degC (msm_thermal_info s) in
  if temp >=? MAX_THROTTLE_TEMP then min_freq_index s
  else if temp <? u32 (throttle_temp s - hyst) then limit_idx_high s
  else if temp >=? throttle_temp s then
    if limit_idx s =? min_freq_index s then limit_idx s else step_down s
  else if temp >=? u32 (throttle_temp s - hyst) then limit_idx_high s
  else limit_idx s.

(** The table is resolved, the index is inside the range, and a step is
    no larger than the low end of the range, so that the unsigned
    subtraction cannot wrap. *)
Definition resolved (s : state) : Prop :=
  limit_init s <> 0
  /\ (exists t, table s = Some t /\ limit_idx_high s < Z.of_nat (length t))
  /\ 0 <= min_freq_index s <= limit_idx s
  /\ limit_idx s <= limit_idx_high s < 2 ^ 32
  /\ 0 <= freq_step (msm_thermal_info s) <= min_freq_index s.

(** What [update_cpu_max_freq] logs for one cpu. *)
Definition cpu_calls (e : thermal_env) (max_freq : Z) (cpu : nat)
  : list call :=
  if set_limits_ret e cpu =? 0
  then [msm_cpufreq_set_freq_limits cpu MSM_CPUFREQ_NO_LIMIT max_freq;
        cpufreq_update_policy cpu]
  else [msm_cpufreq_set_freq_limits cpu MSM_CPUFREQ_NO_LIMIT max_freq].

End ThermalA.

(** * Worked inputs *)

Module Examples.

(** A quad-core board ticking at 100 Hz. *)
Definition quad : AutoHotplug.platform :=
  {| AutoHotplug.CPUS_AVAILABLE := 4; AutoHotplug.HZ := 100 |}.

(** The governor after [auto_hotplug_init] with the allocation
    successful, the fresh history block holding zeros. *)
Definition booted : AutoHotplug.state :=
  AutoHotplug.auto_hotplug_init quad (AutoHotplug.KmBlock (fun _ => 0)).

(** A decision step that finds [n] runnable tasks and one cpu online;
    the allocator returns the block in place. *)
Definition sample (n : Z) : AutoHotplug.sample_env :=
  {| AutoHotplug.nr_running := n;
     AutoHotplug.num_online_cpus := 1;
     AutoHotplug.krealloc := AutoHotplug.KSame |}.

(** Ten decision steps at one runnable task, then one at three. *)
Definition ten_then_three : list AutoHotplug.sample_env :=
  repeat (sample 1) 10 ++ [sample 3].

(** One cpu online out of four. *)
Definition one_online : list bool := [true; false; false; false].

(** The governor after boot, once the boot pause has run out and a
    decision step has found twelve runnable tasks: the step has queued
    the online-single work. *)
Definition about_to_online : AutoHotplug.state :=
  match AutoHotplug.run quad
          [AutoHotplug.RunWork AutoHotplug.hotplug_unpause_work (sample 0) one_online;
           AutoHotplug.RunWork AutoHotplug.hotplug_decision_work (sample 12) one_online]
          booted
  with
  | Ok s => s
  | Fault _ => booted
  end.

(** Events after a boost pulse that never reach the single-off branch: a
    decision step during the boot pause, a second boost pulse, the end of
    the pause. *)
Definition quiet_run : list AutoHotplug.event :=
  [AutoHotplug.RunWork AutoHotplug.hotplug_decision_work (sample 10) [true; true];
   AutoHotplug.CallBoostpulse 2;
   AutoHotplug.RunWork AutoHotplug.hotplug_unpause_work (sample 0) [true; true]].

(** A busy stretch after boot: the boot pause ends, a decision step finds
    twelve runnable tasks, a boost pulse arrives, the online-single work
    runs, the screen comes back on, a parameter is written. *)
Definition busy_run : list AutoHotplug.event :=
  [AutoHotplug.RunWork AutoHotplug.hotplug_unpause_work (sample 0) one_online;
   AutoHotplug.RunWork AutoHotplug.hotplug_decision_work (sample 12) one_online;
   AutoHotplug.CallBoostpulse 1;
   AutoHotplug.RunWork AutoHotplug.hotplug_online_single_work (sample 0)
                       one_online;
   AutoHotplug.LateResume;
   AutoHotplug.WriteParam AutoHotplug.T_sampling_periods (Num 3)].

(** The screen goes off with four cpus online, then the offline-all work
    runs. *)
Definition suspend_run : list AutoHotplug.event :=
  [AutoHotplug.EarlySuspend 4;
   AutoHotplug.RunWork AutoHotplug.hotplug_offline_all_work (sample 0)
                       [true; true; true; true]].

(** Entries into a disabled governor: a late resume, the decision work
    it queued, a boost pulse, a second request to disable, the screen
    going off with one cpu online, a parameter write. *)
Definition disabled_run : list AutoHotplug.event :=
  [AutoHotplug.LateResume;
   AutoHotplug.RunWork AutoHotplug.hotplug_decision_work (sample 12) one_online;
   AutoHotplug.CallBoostpulse 1;
   AutoHotplug.CallDisable true;
   AutoHotplug.EarlySuspend 1;
   AutoHotplug.WriteParam AutoHotplug.T_min_online_cpus (Num 2)].

(** A day in the life of the governor with sampling_periods left alone:
    suspend with four cpus online, resume, a decision step, a boost
    pulse, the online-single work, a write to min_sampling_rate. *)
Definition steady_run : list AutoHotplug.event :=
  suspend_run
  ++ [AutoHotplug.LateResume;
      AutoHotplug.RunWork AutoHotplug.hotplug_decision_work (sample 7)
                          one_online;
      AutoHotplug.CallBoostpulse 1;
      AutoHotplug.RunWork AutoHotplug.hotplug_online_single_work (sample 0)
                          one_online;
      AutoHotplug.WriteParam AutoHotplug.T_min_sampling_rate (Num 30)].

(** The governor entered by [hotplug_disable(true)] while a decision
    work is in progress: after boot the pause has run out, and the
    decision work has begun with two cpus online and three runnable
    tasks, and has read Disabled clear. *)
Definition mid_decision : HotplugSMP.cstate :=
  match AutoHotplug.run quad
          [AutoHotplug.RunWork AutoHotplug.hotplug_unpause_work (sample 0)
                               [true; true]] booted
  with
  | Ok s =>
    match HotplugSMP.begin_work AutoHotplug.hotplug_decision_work
            {| AutoHotplug.nr_running := 3;
               AutoHotplug.num_online_cpus := 2;
               AutoHotplug.krealloc := AutoHotplug.KSame |}
            (HotplugSMP.entering s)
    with
    | Some c => c
    | None => HotplugSMP.entering s
    end
  | Fault _ => HotplugSMP.entering booted
  end.

(** A timing of the call from there: Disabled is set and the offline
    work cancelled, then the decision work finishes, then the call runs
    to its end. *)
Definition race : list HotplugSMP.cevent :=
  [HotplugSMP.Call; HotplugSMP.Call;
   HotplugSMP.Call;
   HotplugSMP.Finish AutoHotplug.hotplug_decision_work 0 [true; true];
   HotplugSMP.Call; HotplugSMP.Call; HotplugSMP.Call; HotplugSMP.Call].

(** The governor when the call has returned. *)
Definition after_race : HotplugSMP.cstate :=
  match HotplugSMP.crun quad race mid_decision with
  | Some c => c
  | None => mid_decision
  end.

(** The offline work runs on it. *)
Definition stale_offline : AutoHotplug.state :=
  match AutoHotplug.run_work quad AutoHotplug.hotplug_offline_work (sample 0)
          [true; true] (HotplugSMP.base after_race)
  with
  | Ok s => s
  | Fault _ => HotplugSMP.base after_race
  end.

(** A decision step that finds three runnable tasks and two cpus
    online. *)
Definition low_load : AutoHotplug.sample_env :=
  {| AutoHotplug.nr_running := 3;
     AutoHotplug.num_online_cpus := 2;
     AutoHotplug.krealloc := AutoHotplug.KSame |}.

(** The twelve frequencies of a Krait cpu, terminator last. *)
Definition krait_table : list Z :=
  [384000; 486000; 594000; 702000; 810000; 918000; 1026000; 1134000;
   1242000; 1350000; 1458000; 1512000; CPUFREQ_TABLE_END].

(** Platform data with a hysteresis of 4 degrees and the given step. *)
Definition pdata (step : Z) : msm_thermal_data :=
  {| sensor_id := 7; poll_ms := 1000; limit_temp_degC := 60;
     temp_hysteresis_degC := 4; freq_step := step |}.

(** The sensor reads [t] degrees; the table is there, every cpu accepts
    its ceiling, four cpus are possible. *)
Definition reading (t : Z) : thermal_env :=
  {| tsens_ret := 0; tsens_temp := t; cpufreq_table := Some krait_table;
     set_limits_ret := fun _ => 0; nr_possible_cpus := 4 |}.


(** The shutdown-band driver after a first reading of 50 degrees: table
    resolved, index at 11, no ceiling. *)
Definition warm : ThermalB.state :=
  match ThermalB.check_temp 100 (reading 50)
          (ThermalB.msm_thermal_init (pdata 1)) with
  | Ok s => s
  | Fault _ => ThermalB.msm_thermal_init (pdata 1)
  end.

(** ... and after a further reading of 65 degrees: index at 10. *)
Definition throttled : ThermalB.state :=
  match ThermalB.check_temp 100 (reading 65) warm with
  | Ok s => s
  | Fault _ => warm
  end.

(** The revision with unsigned indices after a first reading of 50
    degrees, with a step of 2: table resolved, range 7..11, index at 11. *)
Definition cool : ThermalA.state :=
  match ThermalA.check_temp 100 (reading 50)
          (ThermalA.msm_thermal_init (pdata 2)) with
  | Ok s => s
  | Fault _ => ThermalA.msm_thermal_init (pdata 2)
  end.

(** A device-tree node with all five properties. *)
Definition good_node : dt_node :=
  fun k =>
    match k with
    | qcom_sensor_id => (0, 7)
    | qcom_poll_ms => (0, 1000)
    | qcom_limit_temp => (0, 60)
    | qcom_temp_hysteresis => (0, 4)
    | qcom_freq_step => (0, 1)
    end.

(** The sensor does not answer. *)
Definition no_reading : thermal_env :=
  {| tsens_ret := -5; tsens_temp := 99; cpufreq_table := Some krait_table;
     set_limits_ret := fun _ => 0; nr_possible_cpus := 4 |}.

(** cpufreq hands out a table with a single frequency, or with none. *)
Definition short_table : thermal_env :=
  {| tsens_ret := 0; tsens_temp := 50;
     cpufreq_table := Some [384000; CPUFREQ_TABLE_END];
     set_limits_ret := fun _ => 0; nr_possible_cpus := 4 |}.
Definition empty_table : thermal_env :=
  {| tsens_ret := 0; tsens_temp := 50;
     cpufreq_table := Some [CPUFREQ_TABLE_END];
     set_limits_ret := fun _ => 0; nr_possible_cpus := 4 |}.

End Examples.

(** * Machine integers and blocks *)

Module MachineInt.

Lemma u32_small (x : Z) : 0 <= x < 2 ^ 32 -> u32 x = x.
Proof. intros H. unfold u32. apply Z.mod_small. exact H. Qed.

Lemma u32_range (x : Z) : 0 <= u32 x < 2 ^ 32.
Proof. unfold u32. apply Z.mod_pos_bound. lia. Qed.

Lemma u32_neg (x : Z) : - 2 ^ 31 <= x < 0 -> u32 x = x + 2 ^ 32.
Proof.
  intros H. unfold u32.
  symmetry. apply (Z.mod_unique x (2 ^ 32) (-1) (x + 2 ^ 32)); lia.
Qed.

Lemma u32_add_l (a b : Z) : u32 (u32 a + b) = u32 (a + b).
Proof. unfold u32. apply Zplus_mod_idemp_l. Qed.

Lemma s32_small (x : Z) : - 2 ^ 31 <= x < 2 ^ 31 -> s32 x = x.
Proof.
  intros H. unfold s32.
  destruct (Z.lt_ge_cases x 0) as [Hneg | Hpos].
  - replace (x mod 2 ^ 32) with (x + 2 ^ 32)
      by (apply (Z.mod_unique x (2 ^ 32) (-1) (x + 2 ^ 32)); lia).
    destruct (Z.ltb_spec (x + 2 ^ 32) (2 ^ 31)); lia.
  - rewrite Z.mod_small by lia.
    destruct (Z.ltb_spec x (2 ^ 31)); lia.
Qed.

Lemma block_get_in (b : list Z) (j : Z) :
  0 <= j < Z.of_nat (length b) -> exists v, block_get b j = Some v.
Proof.
  intros Hj. unfold block_get.
  destruct (Z.leb_spec 0 j) as [H0 | H0]; [| lia].
  destruct (Z.ltb_spec j (Z.of_nat (length b))) as [H1 | H1]; [| lia].
  cbn [andb].
  destruct (b !! Z.to_nat j) as [v |] eqn:E.
  - exists v. reflexivity.
  - apply lookup_ge_None in E. lia.
Qed.

Lemma block_get_Some (b : list Z) (j v : Z) :
  block_get b j = Some v ->
  0 <= j < Z.of_nat (length b) /\ b !! Z.to_nat j = Some v.
Proof.
  unfold block_get.
  destruct (Z.leb_spec 0 j) as [H0 | H0];
    destruct (Z.ltb_spec j (Z.of_nat (length b))) as [H1 | H1];
    cbn [andb]; intros Hg; try discriminate Hg.
  split; [lia | exact Hg].
Qed.

Lemma table_freq_in (t : list Z) (i : Z) :
  0 <= i < Z.of_nat (length t) -> exists f, table_freq (Some t) i = Ok f.
Proof.
  intros Hi. unfold table_freq, block_get.
  destruct (Z.leb_spec 0 i) as [_ | H0]; [| lia].
  destruct (Z.ltb_spec i (Z.of_nat (length t))) as [_ | H1]; [| lia].
  cbn [andb].
  destruct (t !! Z.to_nat i) as [f |] eqn:E.
  - exists f. reflexivity.
  - apply lookup_ge_None in E. lia.
Qed.

Lemma msecs_to_jiffies_small (hz m : Z) :
  0 <= m < 2 ^ 31 ->
  msecs_to_jiffies hz m = (m + 1000 / hz - 1) / (1000 / hz).
Proof.
  intros Hm. unfold msecs_to_jiffies. rewrite s32_small by lia.
  destruct (Z.ltb_spec m 0); [lia |]. rewrite u32_small by lia. reflexivity.
Qed.

Lemma msecs_to_jiffies_negative (hz m : Z) :
  2 ^ 31 <= m < 2 ^ 32 -> msecs_to_jiffies hz m = MAX_JIFFY_OFFSET.
Proof.
  intros Hm. unfold msecs_to_jiffies, s32.
  rewrite Z.mod_small by lia.
  destruct (Z.ltb_spec m (2 ^ 31)); [lia |].
  destruct (Z.ltb_spec (m - 2 ^ 32) 0); [reflexivity | lia].
Qed.

End MachineInt.

(** * Properties of the hotplug governor *)

Module HotplugProps.
Import AutoHotplug Examples MachineInt.

(** ** Tunables *)

Ltac setter_cases :=
  repeat match goal with
         | |- context [?a >? ?b] => destruct (Z.gtb_spec a b)
         | |- context [?a <? ?b] => destruct (Z.ltb_spec a b)
         end; simpl; try reflexivity; try lia.

(** A write inside the documented range is stored and reports success. *)
Lemma write_in_range (p : platform) (t : tunable) (n : Z) (tn : tunables) :
  in_documented_range p t n ->
  1 <= CPUS_AVAILABLE p < 2 ^ 31 ->
  write_tunable p t (Num n) tn = (0, store_tunable t n tn).
Proof.
  unfold in_documented_range. intros Hr Hc.
  destruct t; simpl in Hr |- *;
    unfold set_enable_all_load_threshold, set_enable_load_threshold,
      set_disable_load_threshold, set_min_sampling_rate, set_sampling_periods,
      min_online_cpus_set, max_online_cpus_set; simpl;
    rewrite (u32_small n) by lia; setter_cases.
Qed.

(** Text that is not an integer changes no tunable that was in range, and
    the write fails. *)
Lemma write_malformed (p : platform) (t : tunable) (tn : tunables) :
  in_documented_range p t (read_tunable t tn) ->
  write_tunable p t Malformed tn = (- EINVAL, tn).
Proof.
  unfold in_documented_range. intros Hr.
  destruct t, tn; simpl in Hr |- *; try reflexivity;
    unfold min_online_cpus_set, max_online_cpus_set; simpl; setter_cases.
Qed.




(** ** The history buffer *)

Lemma hist_read_in (h : list Z) (j : Z) :
  0 <= j < Z.of_nat (length h) -> exists v, hist_read h j = Ok v.
Proof.
  intros Hj. unfold hist_read.
  destruct (block_get_in h j Hj) as [v ->]. exists v. reflexivity.
Qed.

Lemma hist_write_in (h : list Z) (j v : Z) :
  0 <= j < Z.of_nat (length h) ->
  hist_write h j v = Ok (<[Z.to_nat j := v]> h).
Proof.
  intros Hj. unfold hist_write.
  destruct (block_get_in h j Hj) as [x ->]. reflexivity.
Qed.

(** The summing loop stays inside a block that is longer than the index
    bound. *)
Lemma sum_history_in (n : nat) (h : list Z) (imv : Z) :
  1 <= imv < Z.of_nat (length h) -> imv < 2 ^ 32 ->
  forall j acc, 0 <= j <= imv -> exists v, sum_history n h imv j acc = Ok v.
Proof.
  intros Himv Hlt. induction n as [| n IH]; intros j acc Hj.
  - exists acc. reflexivity.
  - cbn [sum_history].
    destruct (hist_read_in h j) as [v Hv]; [lia |].
    rewrite Hv. cbn [bind].
    apply IH.
    destruct (Z.eqb_spec j 0); rewrite u32_small; lia.
Qed.

(** With no resize outstanding a decision step makes no access outside the
    history block, and leaves the sampler in the same condition. *)
Lemma sample_load_in_bounds (e : sample_env) (s : state) :
  sampler_ok s ->
  exists avg s', sample_load e s = Ok (avg, s') /\ sampler_ok s'.
Proof.
  intros (Hlive & Hrange & Himv & Hlen & Hidx).
  unfold sample_load, resize_history.
  replace (live_sampling_periods s =? sampling_periods (tun s)) with true
    by (symmetry; apply Z.eqb_eq; exact Hlive).
  rewrite hist_write_in by lia. cbn [bind].
  set (h := <[Z.to_nat (index s) := u32 (nr_running e * 100)]> (history s)).
  assert (Hh : Z.of_nat (length h) = live_sampling_periods s).
  { unfold h. rewrite length_insert. exact Hlen. }
  destruct (sum_history_in (Z.to_nat (live_sampling_periods s)) h
              (index_max_value s)) with (j := index s) (acc := 0)
    as [v Hv]; try lia.
  rewrite Hv. cbn [bind].
  destruct (Z.eqb_spec (live_sampling_periods s) 0) as [H0 | H0]; [lia |].
  eexists. eexists. split; [reflexivity |].
  unfold sampler_ok. cbn.
  repeat split; try assumption; try lia;
    destruct (Z.eqb_spec (index s) (index_max_value s));
    try rewrite u32_small; lia.
Qed.

(** ** What the summing loop adds up *)

Lemma sumZ_app (a b : list Z) : sumZ (a ++ b) = sumZ a + sumZ b.
Proof.
  induction a as [| x a IH]; cbn [app sumZ fold_right].
  - reflexivity.
  - fold (sumZ (a ++ b)). fold (sumZ a). rewrite IH. lia.
Qed.

Lemma hist_read_lookup (h : list Z) (j : nat) (v : Z) :
  h !! j = Some v -> hist_read h (Z.of_nat j) = Ok v.
Proof.
  intros H. pose proof (lookup_lt_Some _ _ _ H) as Hlt.
  unfold hist_read, block_get.
  destruct (Z.leb_spec 0 (Z.of_nat j)) as [_ | H0]; [| lia].
  destruct (Z.ltb_spec (Z.of_nat j) (Z.of_nat (length h))) as [_ | H1];
    [| lia].
  cbn [andb]. rewrite Nat2Z.id, H. reflexivity.
Qed.

(** From cursor [k] the loop first walks down to entry 0, adding entries
    0..k, and then restarts at [imv - 1], not at [imv]. *)
Lemma sum_history_down_to_zero (m : nat) (h : list Z) (imv : Z) :
  forall (k : nat) (acc : Z),
    (k < length h)%nat -> Z.of_nat k < 2 ^ 32 ->
    sum_history (S k + m) h imv (Z.of_nat k) acc
    = sum_history m h imv (u32 (imv - 1)) (u32 (acc + sumZ (take (S k) h))).
Proof.
  induction k as [| k IH]; intros acc Hk Hlt.
  - destruct h as [| x h]; [cbn in Hk; lia |].
    cbn [Nat.add sum_history]. rewrite (hist_read_lookup (x :: h) 0 x eq_refl).
    cbn [bind Z.eqb Z.of_nat take sumZ fold_right].
    rewrite Z.add_0_r. reflexivity.
  - destruct (lookup_lt_is_Some_2 h (S k) Hk) as [v Hv].
    change (S (S k) + m)%nat with (S (S k + m)). cbn [sum_history].
    rewrite (hist_read_lookup h (S k) v Hv). cbn [bind].
    destruct (Z.eqb_spec (Z.of_nat (S k)) 0) as [H0 | _]; [lia |].
    replace (u32 (Z.of_nat (S k) - 1)) with (Z.of_nat k)
      by (rewrite u32_small; lia).
    rewrite IH by lia.
    rewrite (take_S_r h (S k) v Hv), sumZ_app, u32_add_l.
    cbn [sumZ fold_right]. f_equal. f_equal. lia.
Qed.

(** [m] turns downwards from [j] that do not pass entry 0 add the [m]
    entries that end at [j]. *)
Lemma sum_history_segment (h : list Z) (imv : Z) :
  forall (m j : nat) (acc : Z),
    (m <= S j)%nat -> (j < length h)%nat -> Z.of_nat j < 2 ^ 32 ->
    0 <= acc < 2 ^ 32 ->
    sum_history m h imv (Z.of_nat j) acc
    = Ok (u32 (acc + sumZ (drop (S j - m) (take (S j) h)))).
Proof.
  induction m as [| m IH]; intros j acc Hm Hj Hlt Hacc.
  - cbn [sum_history]. rewrite Nat.sub_0_r.
    rewrite drop_ge by (rewrite length_take; lia).
    cbn [sumZ fold_right]. rewrite Z.add_0_r, u32_small by lia. reflexivity.
  - destruct (lookup_lt_is_Some_2 h j Hj) as [v Hv].
    cbn [sum_history]. rewrite (hist_read_lookup h j v Hv). cbn [bind].
    rewrite (take_S_r h j v Hv).
    destruct j as [| j].
    + assert (m = 0)%nat by lia. subst m. cbn [sum_history].
      rewrite take_0, drop_0. unfold sumZ. cbn. rewrite Z.add_0_r.
      reflexivity.
    + destruct (Z.eqb_spec (Z.of_nat (S j)) 0) as [H0 | _]; [lia |].
      replace (u32 (Z.of_nat (S j) - 1)) with (Z.of_nat j)
        by (rewrite u32_small; lia).
      rewrite IH; [| lia | lia | lia | apply u32_range].
      replace (S (S j) - S m)%nat with (S j - m)%nat by lia.
      rewrite drop_app_le by (rewrite length_take; lia).
      rewrite sumZ_app, u32_add_l. cbn [sumZ fold_right].
      f_equal. f_equal. lia.
Qed.

(** The whole loop over a block of [n] entries with index bound [n - 1]:
    from the last entry it adds every entry once; from any other cursor
    [k] it adds entries 0..k and k..n-2, that is entry [k] twice and the
    last entry not at all. *)
Lemma sum_history_total (h : list Z) (k : nat) (last : Z) :
  (2 <= length h)%nat -> Z.of_nat (length h) < 2 ^ 32 ->
  (k < length h)%nat ->
  h !! (length h - 1)%nat = Some last ->
  sum_history (length h) h (Z.of_nat (length h) - 1) (Z.of_nat k) 0
  = Ok (u32 (if Nat.eqb k (length h - 1) then sumZ h
             else sumZ h - last + default 0 (h !! k))).
Proof.
  intros Hn Hlt Hk Hlast.
  destruct (Nat.eqb_spec k (length h - 1)) as [-> | Hne].
  - replace (length h) with (S (length h - 1)) at 1 by lia.
    rewrite sum_history_segment; try lia.
    replace (S (length h - 1) - S (length h - 1))%nat with 0%nat by lia.
    replace (S (length h - 1)) with (length h) by lia.
    rewrite take_ge by lia. reflexivity.
  - destruct (lookup_lt_is_Some_2 h k Hk) as [v Hv]. rewrite Hv. cbn [default].
    replace (length h) with (S k + (length h - 1 - k))%nat at 1 by lia.
    rewrite sum_history_down_to_zero by lia.
    replace (u32 (Z.of_nat (length h) - 1 - 1))
      with (Z.of_nat (length h - 2)) by (rewrite u32_small; lia).
    rewrite sum_history_segment; [| lia | lia | lia | apply u32_range].
    replace (S (length h - 2) - (length h - 1 - k))%nat with k by lia.
    replace (S (length h - 2)) with (length h - 1)%nat by lia.
    rewrite u32_add_l, Z.add_0_l.
    f_equal. f_equal.
    rewrite (take_S_r h k v Hv), sumZ_app. cbn [sumZ fold_right].
    assert (Hall : sumZ h = sumZ (take (length h - 1) h) + last).
    { rewrite <- (take_drop (length h - 1) h) at 1.
      rewrite sumZ_app. f_equal.
      rewrite (drop_S h last (length h - 1) Hlast).
      rewrite drop_ge by lia. cbn. lia. }
    assert (Hsplit : sumZ (take (length h - 1) h)
                     = sumZ (take k h) + sumZ (drop k (take (length h - 1) h))).
    { rewrite <- (take_drop k (take (length h - 1) h)) at 1.
      rewrite sumZ_app, take_take.
      replace (k `min` (length h - 1))%nat with k by lia. reflexivity. }
    unfold id. lia.
Qed.

(** What a decision step reports as average, with no resize outstanding:
    the sum of the buffer over its length only when the cursor is on the
    last entry; otherwise the fresh sample counts twice and the last entry
    of the buffer is left out. *)
Lemma average_computed (e : sample_env) (s : state) :
  sampler_ok s ->
  let h' := <[Z.to_nat (index s) := stored_sample e]> (history s) in
  exists s' : state,
    sample_load e s
    = Ok (u32 (if index s =? index_max_value s then sumZ h'
               else sumZ h' - default 0 (h' !! (length h' - 1)%nat)
                    + stored_sample e)
          / live_sampling_periods s, s').
Proof.
  intros (Hlive & Hrange & Himv & Hlen & Hidx) h'.
  assert (Hlen' : length h' = length (history s))
    by (unfold h'; apply length_insert).
  destruct (lookup_lt_is_Some_2 h' (length h' - 1)) as [last Hlast]; [lia |].
  pose proof (sum_history_total h' (Z.to_nat (index s)) last) as Hsum.
  unfold sample_load, resize_history.
  replace (live_sampling_periods s =? sampling_periods (tun s)) with true
    by (symmetry; apply Z.eqb_eq; exact Hlive).
  rewrite hist_write_in by lia. cbn [bind].
  fold (stored_sample e). fold h'.
  replace (Z.to_nat (live_sampling_periods s)) with (length h') by lia.
  replace (index_max_value s) with (Z.of_nat (length h') - 1) by lia.
  rewrite Z2Nat.id in Hsum by lia.
  rewrite Hsum; [| lia | lia | lia | exact Hlast]. cbn [bind].
  destruct (Z.eqb_spec (live_sampling_periods s) 0) as [H0 | _]; [lia |].
  eexists. f_equal. f_equal. f_equal. f_equal.
  rewrite Hlast. cbn [default from_option]. unfold id.
  replace (h' !! Z.to_nat (index s)) with (Some (stored_sample e))
    by (symmetry; unfold h'; apply list_lookup_insert_eq; lia).
  cbn [default from_option]. unfold id.
  destruct (Nat.eqb_spec (Z.to_nat (index s)) (length h' - 1)) as [He | Hne];
    destruct (Z.eqb_spec (index s) (Z.of_nat (length h') - 1))
      as [He' | Hne'];
    try reflexivity; lia.
Qed.

(** C1 fails on the code.  Ten samples of one runnable task fill the
    default ten-entry buffer, the eleventh sample of three tasks lands on
    entry 0.  The ten most recent samples are nine of 100 and one of 300:
    the specification's average is 120.  The loop of the decision step
    visits entry 0 twice and never visits entry 9, and reports 140. *)
Theorem C1_average_after_wrap :
  avg_trace quad ten_then_three booted
    = Ok [20; 30; 40; 50; 60; 70; 80; 90; 100; 100; 140]
  /\ spec_moving_average (map stored_sample ten_then_three)
        (live_sampling_periods booted) = 120.
Proof. split; vm_compute; reflexivity. Qed.

(** C2 fails on the code.  After sampling_periods is raised from 10 to 50
    the next decision step keeps the ten-entry block ([krealloc] is asked
    for the old size and its result is dropped), moves the index bound to
    49, and its summing loop reads entry 48. *)
Theorem C2_resize_reads_past_block :
  let s := with_tun (snd (set_sampling_periods (Num 50) (tun booted))) booted in
  fst (set_sampling_periods (Num 50) (tun booted)) = 0
  /\ index_max_value (resize_history (sample 1) s) = 49
  /\ length (history (resize_history (sample 1) s)) = 10%nat
  /\ run quad [WriteParam T_sampling_periods (Num 50);
               RunWork hotplug_decision_work (sample 1) []] booted
     = Fault (OutOfBounds 48).
Proof. repeat split; vm_compute; reflexivity. Qed.

(** Lowering the tunable goes wrong too: the cursor is not reset, so
    once it is above the new bound it never wraps.  Seven steps leave the
    cursor at 7; with sampling_periods lowered to 5 the fourth step after
    that writes entry 10 of the ten-entry block. *)
Lemma resize_down_cursor_runs_off :
  run quad
      (repeat (RunWork hotplug_decision_work (sample 1) []) 7
       ++ [WriteParam T_sampling_periods (Num 5)]
       ++ repeat (RunWork hotplug_decision_work (sample 1) []) 4)
      booted
  = Fault (OutOfBounds 10).
Proof. vm_compute. reflexivity. Qed.

(** ** Control flags *)

Lemma land_pow2 (x k : Z) :
  0 <= k -> Z.land x (2 ^ k) = if Z.testbit x k then 2 ^ k else 0.
Proof.
  intros Hk. apply Z.bits_inj'. intros n Hn.
  rewrite Z.land_spec, Z.pow2_bits_eqb by exact Hk.
  destruct (Z.testbit x k) eqn:E.
  - rewrite Z.pow2_bits_eqb by exact Hk.
    destruct (Z.eqb_spec k n) as [-> | Hne].
    + rewrite E. reflexivity.
    + apply andb_false_r.
  - rewrite Z.bits_0.
    destruct (Z.eqb_spec k n) as [-> | Hne].
    + rewrite E. reflexivity.
    + apply andb_false_r.
Qed.

Lemma flag_set_testbit (k : Z) (s : state) :
  0 <= k -> flag_set (2 ^ k) s = Z.testbit (flags s) k.
Proof.
  intros Hk. unfold flag_set. rewrite land_pow2 by exact Hk.
  destruct (Z.testbit (flags s) k).
  - assert (0 < 2 ^ k) by (apply Z.pow_pos_nonneg; lia).
    destruct (Z.eqb_spec (2 ^ k) 0); [lia | reflexivity].
  - reflexivity.
Qed.

Lemma u8_testbit (x k : Z) :
  0 <= k < 8 -> Z.testbit (u8 x) k = Z.testbit x k.
Proof. intros Hk. unfold u8. apply Z.mod_pow2_bits_low. lia. Qed.

Lemma flag_set_set_flag (j k : Z) (s : state) :
  0 <= j -> 0 <= k < 8 ->
  flag_set (2 ^ k) (set_flag (2 ^ j) s) = flag_set (2 ^ k) s || (j =? k).
Proof.
  intros Hj Hk. rewrite !flag_set_testbit by lia.
  unfold set_flag. cbn [flags with_flags].
  rewrite u8_testbit by exact Hk.
  rewrite Z.lor_spec, Z.pow2_bits_eqb by exact Hj. reflexivity.
Qed.

Lemma flag_set_clear_flag (j k : Z) (s : state) :
  0 <= j -> 0 <= k < 8 ->
  flag_set (2 ^ k) (clear_flag (2 ^ j) s)
  = flag_set (2 ^ k) s && negb (j =? k).
Proof.
  intros Hj Hk. rewrite !flag_set_testbit by lia.
  unfold clear_flag. cbn [flags with_flags].
  rewrite u8_testbit by exact Hk.
  rewrite Z.land_spec, Z.lnot_spec, Z.pow2_bits_eqb by lia. reflexivity.
Qed.

(** The four flags as powers of two. *)
Ltac flag_bits :=
  change HOTPLUG_DISABLED with (2 ^ 0) in *;
  change HOTPLUG_PAUSED with (2 ^ 1) in *;
  change BOOSTPULSE_ACTIVE with (2 ^ 2) in *;
  change EARLYSUSPEND_ACTIVE with (2 ^ 3) in *.

(** Rewrites [flag_set] through one [set_flag] or [clear_flag]. *)
Ltac flag_step :=
  first [ rewrite flag_set_set_flag by lia
        | rewrite flag_set_clear_flag by lia ];
  cbn [Z.eqb Pos.eqb negb];
  rewrite ?orb_false_r, ?orb_true_r, ?andb_true_r, ?andb_false_r.

Lemma boost_after_set_boost (s : state) :
  flag_set BOOSTPULSE_ACTIVE (set_flag BOOSTPULSE_ACTIVE s) = true.
Proof. flag_bits. flag_step. reflexivity. Qed.

Lemma boost_after_clear_boost (s : state) :
  flag_set BOOSTPULSE_ACTIVE (clear_flag BOOSTPULSE_ACTIVE s) = false.
Proof. flag_bits. flag_step. reflexivity. Qed.

Lemma boost_after_set_other (b : Z) (s : state) :
  b = HOTPLUG_DISABLED \/ b = HOTPLUG_PAUSED \/ b = EARLYSUSPEND_ACTIVE ->
  flag_set BOOSTPULSE_ACTIVE (set_flag b s) = flag_set BOOSTPULSE_ACTIVE s.
Proof.
  intros [-> | [-> | ->]]; flag_bits; flag_step; reflexivity.
Qed.

Lemma boost_after_clear_other (b : Z) (s : state) :
  b = HOTPLUG_DISABLED \/ b = HOTPLUG_PAUSED \/ b = EARLYSUSPEND_ACTIVE ->
  flag_set BOOSTPULSE_ACTIVE (clear_flag b s) = flag_set BOOSTPULSE_ACTIVE s.
Proof.
  intros [-> | [-> | ->]]; flag_bits; flag_step; reflexivity.
Qed.

Lemma disabled_after_set_disabled (s : state) :
  flag_set HOTPLUG_DISABLED (set_flag HOTPLUG_DISABLED s) = true.
Proof. flag_bits. flag_step. reflexivity. Qed.

(** The entry test of [hotplug_boostpulse]. *)
Lemma suspend_or_disabled (s : state) :
  (Z.land (flags s) (Z.lor EARLYSUSPEND_ACTIVE HOTPLUG_DISABLED) =? 0)
  = negb (flag_set EARLYSUSPEND_ACTIVE s) && negb (flag_set HOTPLUG_DISABLED s).
Proof.
  unfold flag_set. rewrite Z.land_lor_distr_r, !negb_involutive.
  destruct (Z.eqb_spec (Z.land (flags s) EARLYSUSPEND_ACTIVE) 0) as [E1 | E1];
    destruct (Z.eqb_spec (Z.land (flags s) HOTPLUG_DISABLED) 0) as [E2 | E2];
    cbn [andb]; apply Z.eqb_eq || apply Z.eqb_neq;
    rewrite Z.lor_eq_0_iff; tauto.
Qed.

Lemma flag_set_with_pending (b : Z) (q : workqueue) (s : state) :
  flag_set b (with_pending q s) = flag_set b s.
Proof. reflexivity. Qed.

Lemma flag_set_log_cpu (b : Z) (ops : list cpu_op) (s : state) :
  flag_set b (log_cpu ops s) = flag_set b s.
Proof. reflexivity. Qed.

Lemma flag_set_same_flags (b : Z) (s s' : state) :
  flags s' = flags s -> flag_set b s' = flag_set b s.
Proof. unfold flag_set. intros ->. reflexivity. Qed.

(** Pushes [flag_set BOOSTPULSE_ACTIVE] through the scheduling calls and
    through changes of the other flags. *)
Ltac boost_through :=
  unfold schedule_work, schedule_delayed_work, cancel_delayed_work,
    cancel_delayed_work_sync;
  repeat first
    [ rewrite flag_set_with_pending
    | rewrite flag_set_log_cpu
    | rewrite boost_after_set_other by tauto
    | rewrite boost_after_clear_other by tauto ].

(** ** Disabling *)

(** With no work function in progress: [hotplug_disable(true)], called
    while the governor is not disabled, sets Disabled and takes the three
    delayed items (offline, decision, unpause) off the queue, so none of
    them runs unless it is queued again; the items queued with
    [schedule_work] (online-all, online-single, offline-all) stay on the
    queue as they were. *)
Lemma disable_takes_delayed_off (p : platform) (s : state) :
  flag_set HOTPLUG_DISABLED s = false ->
  let s' := hotplug_disable true s in
  flag_set HOTPLUG_DISABLED s' = true
  /\ (forall w : work,
        w = hotplug_offline_work \/ w = hotplug_decision_work
        \/ w = hotplug_unpause_work ->
        pending s' w = None
        /\ forall e mask, run_work p w e mask s' = Ok s')
  /\ (forall w : work,
        w = hotplug_online_all_work \/ w = hotplug_online_single_work
        \/ w = hotplug_offline_all_work ->
        pending s' w = pending s w).
Proof.
  intros Hd. unfold hotplug_disable. rewrite Hd. cbn [andb negb].
  split; [| split].
  - unfold cancel_delayed_work_sync. rewrite !flag_set_with_pending.
    apply disabled_after_set_disabled.
  - intros w Hw. split.
    + destruct Hw as [-> | [-> | ->]]; reflexivity.
    + intros e mask. destruct Hw as [-> | [-> | ->]]; reflexivity.
  - intros w Hw. destruct Hw as [-> | [-> | ->]]; reflexivity.
Qed.

Lemma about_to_online_reached :
  run quad [RunWork hotplug_unpause_work (sample 0) one_online;
            RunWork hotplug_decision_work (sample 12) one_online] booted
  = Ok about_to_online.
Proof. vm_compute. reflexivity. Qed.


(** ... and it then runs: it brings cpu 1 up and queues the decision work
    again, with Disabled set. *)
Lemma online_work_runs_after_disable :
  exists s' : state,
    run_work quad hotplug_online_single_work (sample 0) one_online
             (hotplug_disable true about_to_online) = Ok s'
    /\ flag_set HOTPLUG_DISABLED s' = true
    /\ cpu_log s' = [cpu_up 1]
    /\ pending s' hotplug_decision_work = Some 20.
Proof. eexists. repeat split; vm_compute; reflexivity. Qed.

(** A second [hotplug_disable(true)] changes nothing: the decision work
    queued in between stays. *)
Lemma disable_twice (s : state) :
  flag_set HOTPLUG_DISABLED s = true -> hotplug_disable true s = s.
Proof. intros H. unfold hotplug_disable. rewrite H. reflexivity. Qed.

(** ... as here, after the online work of above has queued the decision
    work again. *)
Lemma second_disable_cancels_nothing :
  exists s' : state,
    run_work quad hotplug_online_single_work (sample 0) one_online
             (hotplug_disable true about_to_online) = Ok s'
    /\ pending (hotplug_disable true s') hotplug_decision_work = Some 20.
Proof. eexists. split; vm_compute; reflexivity. Qed.

(** ** The boost latch *)

Lemma boostpulse_noop (p : platform) (m : Z) (s : state) :
  flag_set BOOSTPULSE_ACTIVE s = true -> hotplug_boostpulse p m s = s.
Proof.
  intros Hb. unfold hotplug_boostpulse. rewrite Hb. cbn [negb andb].
  destruct (negb _); reflexivity.
Qed.

Lemma resize_history_flags (e : sample_env) (s : state) :
  flags (resize_history e s) = flags s
  /\ tun (resize_history e s) = tun s
  /\ pending (resize_history e s) = pending s.
Proof.
  unfold resize_history.
  destruct (_ =? _); [tauto |]. destruct (krealloc e); repeat split.
Qed.

(** Sampling touches the buffer, the cursor and the live period count
    only. *)
Lemma sample_load_frame (e : sample_env) (s : state) (r : Z * state) :
  sample_load e s = Ok r ->
  flags (snd r) = flags s /\ tun (snd r) = tun s
  /\ pending (snd r) = pending s.
Proof.
  unfold sample_load. intros H.
  destruct (resize_history_flags e s) as (Hf & Ht & Hp).
  destruct (hist_write _ _ _) as [h |]; [| discriminate H]. cbn [bind] in H.
  destruct (sum_history _ _ _ _ _) as [sum |]; [| discriminate H].
  cbn [bind] in H.
  destruct (_ =? 0); [discriminate H |].
  injection H as <-. cbn. auto.
Qed.

(** Outside the single-off branch the decision leaves BoostActive as it
    is. *)
Lemma decide_keeps_boost (p : platform) (e : sample_env) (avg : Z)
    (s : state) :
  single_off_fires p e avg s = false ->
  flag_set BOOSTPULSE_ACTIVE (decide p e avg s)
  = flag_set BOOSTPULSE_ACTIVE s.
Proof.
  unfold single_off_fires, decide, decide_enabled, rearm. intros H.
  destruct (flag_set HOTPLUG_DISABLED s); cbn [negb andb] in H |- *;
    [boost_through; reflexivity |].
  destruct (avg >=? enable_all_load_threshold (tun s));
    destruct (num_online_cpus e <? CPUS_AVAILABLE p);
    destruct (max_online_cpus (tun s) >? num_online_cpus e);
    cbn [negb andb] in H |- *;
    try (destruct (delayed_work_pending hotplug_offline_work _);
         boost_through; reflexivity);
    (destruct (flag_set HOTPLUG_PAUSED s); cbn [negb andb] in H |- *;
     [boost_through; reflexivity |]);
    destruct (avg >=? u32 (enable_load_threshold (tun s) * num_online_cpus e));
    cbn [negb andb] in H |- *;
    try (destruct (delayed_work_pending hotplug_offline_work _);
         boost_through; reflexivity);
    destruct (avg <=? u32 (disable_load_threshold (tun s) * num_online_cpus e));
    destruct (min_online_cpus (tun s) <? num_online_cpus e);
    cbn [negb andb] in H |- *;
    try discriminate H; boost_through; reflexivity.
Qed.

(** The single-off branch clears it. *)
Lemma decide_clears_boost (p : platform) (e : sample_env) (avg : Z)
    (s : state) :
  single_off_fires p e avg s = true ->
  flag_set BOOSTPULSE_ACTIVE (decide p e avg s) = false.
Proof.
  unfold single_off_fires, decide, decide_enabled, rearm. intros H.
  destruct (flag_set HOTPLUG_DISABLED s); cbn [negb andb] in H |- *;
    [discriminate H |].
  destruct (avg >=? enable_all_load_threshold (tun s));
    destruct (num_online_cpus e <? CPUS_AVAILABLE p);
    destruct (max_online_cpus (tun s) >? num_online_cpus e);
    cbn [negb andb] in H |- *; try discriminate H;
    (destruct (flag_set HOTPLUG_PAUSED s); cbn [negb andb] in H |- *;
     [discriminate H |]);
    destruct (avg >=? u32 (enable_load_threshold (tun s) * num_online_cpus e));
    cbn [negb andb] in H |- *; try discriminate H;
    destruct (avg <=? u32 (disable_load_threshold (tun s) * num_online_cpus e));
    destruct (min_online_cpus (tun s) <? num_online_cpus e);
    cbn [negb andb] in H |- *; try discriminate H;
    (set (s1 := if negb (delayed_work_pending hotplug_offline_work s)
                then schedule_delayed_work hotplug_offline_work (HZ p) s
                else s);
     destruct (flag_set BOOSTPULSE_ACTIVE s1) eqn:E;
     [boost_through; apply boost_after_clear_boost
     | boost_through; exact E]).
Qed.

Lemma work_fn_keeps_boost (p : platform) (w : work) (e : sample_env)
    (mask : list bool) (s s' : state) :
  work_fn p w e mask s = Ok s' ->
  match w with
  | hotplug_decision_work =>
    match sample_load e s with
    | Ok r => single_off_fires p e (fst r) (snd r)
    | Fault _ => false
    end
  | _ => false
  end = false ->
  flag_set BOOSTPULSE_ACTIVE s' = flag_set BOOSTPULSE_ACTIVE s.
Proof.
  destruct w; cbn [work_fn]; intros Hs Hq;
    try (injection Hs as <-).
  - unfold hotplug_decision_work_fn in Hs.
    destruct (sample_load e s) as [r |] eqn:E; [| discriminate Hs].
    cbn [bind] in Hs. injection Hs as <-.
    rewrite (decide_keeps_boost _ _ _ _ Hq).
    apply flag_set_same_flags. apply (sample_load_frame e s r E).
  - unfold hotplug_unpause_work_fn. boost_through. reflexivity.
  - unfold hotplug_online_all_work_fn. boost_through. reflexivity.
  - unfold hotplug_online_single_work_fn. boost_through. reflexivity.
  - unfold hotplug_offline_work_fn. boost_through. reflexivity.
  - unfold hotplug_offline_all_work_fn. boost_through. reflexivity.
Qed.

(** No entry into the driver other than the single-off branch of the
    decision step clears BoostActive once it is set. *)
Lemma step_keeps_boost (p : platform) (ev : event) (s s' : state) :
  step p ev s = Ok s' ->
  takes_single_off p ev s = false ->
  flag_set BOOSTPULSE_ACTIVE s = true ->
  flag_set BOOSTPULSE_ACTIVE s' = true.
Proof.
  intros Hs Hq Hb. destruct ev; cbn [step] in Hs.
  - unfold run_work in Hs.
    destruct (wq_pending w (pending s)) eqn:Ew.
    + rewrite (work_fn_keeps_boost _ _ _ _ _ _ Hs).
      * rewrite flag_set_with_pending. exact Hb.
      * destruct w; try reflexivity.
        cbn [takes_single_off] in Hq. rewrite Ew in Hq. exact Hq.
    + injection Hs as <-. exact Hb.
  - injection Hs as <-. unfold hotplug_disable.
    destruct (flag_set HOTPLUG_DISABLED s && negb flag);
      [boost_through; exact Hb |].
    destruct (flag && negb (flag_set HOTPLUG_DISABLED s));
      [boost_through; exact Hb | exact Hb].
  - injection Hs as <-. rewrite boostpulse_noop by exact Hb. exact Hb.
  - injection Hs as <-. unfold auto_hotplug_early_suspend.
    destruct (online_cpus >? 1); boost_through; exact Hb.
  - unfold auto_hotplug_late_resume in Hs.
    destruct (stack_the_deck _ _ _) as [h |]; [| discriminate Hs].
    cbn [bind] in Hs. injection Hs as <-.
    boost_through.
    rewrite (flag_set_same_flags _ (clear_flag EARLYSUSPEND_ACTIVE s))
      by reflexivity.
    boost_through. exact Hb.
  - injection Hs as <-. exact Hb.
Qed.

Lemma run_keeps_boost (p : platform) (evs : list event) :
  forall s s' : state,
    single_off_free p evs s ->
    run p evs s = Ok s' ->
    flag_set BOOSTPULSE_ACTIVE s = true ->
    flag_set BOOSTPULSE_ACTIVE s' = true.
Proof.
  induction evs as [| ev evs IH]; intros s s' Hfree Hrun Hb.
  - injection Hrun as <-. exact Hb.
  - cbn [run] in Hrun. cbn [single_off_free] in Hfree.
    destruct Hfree as [Hq Hrest].
    destruct (step p ev s) as [s1 |] eqn:E; [| discriminate Hrun].
    cbn [bind] in Hrun.
    apply (IH s1 s' Hrest Hrun).
    apply (step_keeps_boost p ev s s1 E Hq Hb).
Qed.

(** The decision step that ends the latch: with two cpus online and an
    average of 60 against a disable threshold of 160, the single-off
    branch queues the offline work and clears BoostActive. *)
Lemma single_off_ends_latch :
  exists s1 s2 : state,
    run quad [CallBoostpulse 2;
              RunWork hotplug_unpause_work (sample 0) [true; true]] booted
    = Ok s1
    /\ flag_set BOOSTPULSE_ACTIVE s1 = true
    /\ run_work quad hotplug_decision_work
         {| nr_running := 3; num_online_cpus := 2; krealloc := KSame |}
         [true; true] s1 = Ok s2
    /\ flag_set BOOSTPULSE_ACTIVE s2 = false
    /\ pending s2 hotplug_offline_work = Some 100.
Proof.
  eexists. eexists. split; [vm_compute; reflexivity |].
  repeat split; vm_compute; reflexivity.
Qed.

End HotplugProps.

(** * Properties of the thermal limiter with the shutdown band *)

Module ThermalProps.
Import ThermalB Examples MachineInt.

(** ** Frames: what each part of [check_temp] leaves alone *)

Lemma poweroffs_log_call (c : call) (s : state) :
  poweroffs (log_call c s)
  = (poweroffs s + match c with orderly_poweroff => 1 | _ => 0 end)%nat.
Proof.
  unfold poweroffs, log_call. cbn [calls].
  rewrite List.filter_app, length_app. destruct c; cbn; lia.
Qed.

Lemma core_update_cpu_max_freq (e : thermal_env) (f : Z) (s : state)
    (cpu : nat) :
  core (update_cpu_max_freq e f s cpu) = core s
  /\ check_temp_work (update_cpu_max_freq e f s cpu) = check_temp_work s.
Proof.
  unfold update_cpu_max_freq.
  destruct (negb (set_limits_ret e cpu =? 0)); unfold core; cbn;
    rewrite ?poweroffs_log_call; cbn;
    unfold poweroffs; cbn [calls log_call with_limited_max_freq];
    rewrite ?List.filter_app, ?length_app; cbn;
    rewrite ?Nat.add_0_r; auto.
Qed.

Lemma core_apply_all (e : thermal_env) (f : Z) (cpus : list nat) :
  forall s : state,
    core (fold_left (update_cpu_max_freq e f) cpus s) = core s
    /\ check_temp_work (fold_left (update_cpu_max_freq e f) cpus s)
       = check_temp_work s.
Proof.
  induction cpus as [| c cpus IH]; intros s; cbn [fold_left].
  - auto.
  - destruct (IH (update_cpu_max_freq e f s c)) as [Hc Hw].
    destruct (core_update_cpu_max_freq e f s c) as [Hc' Hw'].
    split; congruence.
Qed.

Lemma core_reschedule (hz temp : Z) (near : bool) (s : state) :
  core (reschedule hz temp near s) = core s.
Proof.
  unfold reschedule, schedule_delayed_work.
  destruct (enabled s =? 0); [reflexivity |].
  destruct (temp >? COOL_TEMP); [destruct near |];
    destruct (check_temp_work s); reflexivity.
Qed.

Lemma reschedule_frame (hz temp : Z) (near : bool) (s : state) :
  calls (reschedule hz temp near s) = calls s
  /\ limited_max_freq (reschedule hz temp near s) = limited_max_freq s.
Proof.
  unfold reschedule, schedule_delayed_work.
  destruct (enabled s =? 0); [auto |].
  destruct (temp >? COOL_TEMP); [destruct near |];
    destruct (check_temp_work s); auto.
Qed.

(** While [enabled] is set every entry leaves the poll queued. *)
Lemma reschedule_rearms (hz temp : Z) (near : bool) (s : state) :
  enabled s <> 0 -> check_temp_work (reschedule hz temp near s) <> None.
Proof.
  intros Hen. unfold reschedule, schedule_delayed_work.
  destruct (Z.eqb_spec (enabled s) 0) as [H0 | _]; [contradiction |].
  destruct (temp >? COOL_TEMP); [destruct near |];
    destruct (check_temp_work s) eqn:E; cbn; congruence.
Qed.

Lemma reschedule_disabled (hz temp : Z) (near : bool) (s : state) :
  enabled s = 0 -> reschedule hz temp near s = s.
Proof. intros H. unfold reschedule. rewrite H. reflexivity. Qed.

Lemma core_setmaxfreq (hz : Z) (e : thermal_env) (f temp : Z) (near : bool)
    (s : state) :
  core (setmaxfreq hz e f temp near s) = core s.
Proof.
  unfold setmaxfreq. rewrite core_reschedule.
  apply (core_apply_all e f).
Qed.

Lemma core_apply_if_changed (hz : Z) (e : thermal_env) (f temp : Z)
    (near : bool) (s : state) :
  core (apply_if_changed hz e f temp near s) = core s.
Proof.
  unfold apply_if_changed.
  destruct (f =? limited_max_freq s);
    [apply core_reschedule | apply core_setmaxfreq].
Qed.

(** The table is read once it is there, and not again. *)
Lemma init_limits_resolved (e : thermal_env) (s : state) :
  limit_init s <> 0 -> init_limits e s = Ok (0, s).
Proof.
  intros H. unfold init_limits.
  destruct (Z.eqb_spec (limit_init s) 0); [contradiction | reflexivity].
Qed.

(** [init_limits] makes no call and leaves the queue and [enabled]. *)
Lemma init_limits_frame (e : thermal_env) (s : state) (r : Z * state) :
  init_limits e s = Ok r ->
  calls (snd r) = calls s
  /\ enabled (snd r) = enabled s
  /\ check_temp_work (snd r) = check_temp_work s
  /\ limited_max_freq (snd r) = limited_max_freq s.
Proof.
  unfold init_limits, msm_thermal_get_freq_table.
  destruct (limit_init s =? 0).
  - destruct (cpufreq_table e) as [t |]; cbn [bind].
    + destruct (table_end t 0) as [i |]; cbn [bind]; [| discriminate].
      destruct (_ || _); cbn [bind]; [discriminate |].
      cbn. intros H. injection H as <-. cbn. auto.
    + cbn. intros H. injection H as <-. cbn. auto.
  - intros H. injection H as <-. cbn. auto.
Qed.

(** ** The bands *)

Lemma apply_bands_core (hz : Z) (e : thermal_env) (mf temp : Z)
    (s s' : state) :
  apply_bands hz e mf temp s = Ok s' ->
  core s' =
    core (if temp >=? SHUTDOWN_TEMP
          then with_enabled 0 (log_call orderly_poweroff s)
          else with_limit_idx (next_limit_idx temp s) s).
Proof.
  unfold apply_bands.
  destruct (temp >=? SHUTDOWN_TEMP).
  - destruct (table_freq _ _) as [f |]; cbn [bind]; [| discriminate].
    intros H. injection H as <-. apply core_setmaxfreq.
  - unfold next_limit_idx.
    destruct (temp >=? u32 (throttle_temp s)).
    + destruct (limit_idx s =? limit_idx_low s) eqn:El.
      * intros H. injection H as <-. rewrite core_reschedule. reflexivity.
      * destruct (table_freq _ _) as [f |]; cbn [bind]; [| discriminate].
        intros H. injection H as <-. rewrite core_apply_if_changed.
        reflexivity.
    + destruct (temp <? u32 (throttle_temp s
                              - temp_hysteresis_degC (msm_thermal_info s))).
      * destruct (limit_idx s =? limit_idx_high s) eqn:Eh.
        -- intros H. injection H as <-. rewrite core_reschedule. reflexivity.
        -- destruct (s32 (limit_idx s + freq_step (msm_thermal_info s))
                     >=? limit_idx_high s).
           ++ intros H. injection H as <-. rewrite core_apply_if_changed.
              reflexivity.
           ++ destruct (table_freq _ _) as [f |]; cbn [bind];
                [| discriminate].
              intros H. injection H as <-. rewrite core_apply_if_changed.
              reflexivity.
      * intros H. injection H as <-. rewrite core_apply_if_changed.
        reflexivity.
Qed.

(** In the shutdown band nothing is queued. *)
Lemma apply_bands_shutdown_queue (hz : Z) (e : thermal_env) (mf temp : Z)
    (s s' : state) :
  SHUTDOWN_TEMP <= temp ->
  apply_bands hz e mf temp s = Ok s' ->
  check_temp_work s' = check_temp_work s.
Proof.
  intros Ht. unfold apply_bands.
  destruct (Z.geb_spec temp SHUTDOWN_TEMP) as [_ | Hlt]; [| lia].
  destruct (table_freq _ _) as [f |]; cbn [bind]; [| discriminate].
  intros H. injection H as <-. unfold setmaxfreq.
  rewrite reschedule_disabled.
  - rewrite (proj2 (core_apply_all e f _ _)). reflexivity.
  - pose proof (proj1 (core_apply_all e f (seq 0 (nr_possible_cpus e))
                         (with_enabled 0 (log_call orderly_poweroff s))))
      as Hc.
    unfold core in Hc. injection Hc as _ _ _ _ _ _ _ He _. exact He.
Qed.

(** With the table resolved, [check_temp] is [apply_bands]. *)
Lemma check_temp_resolved (hz : Z) (e : thermal_env) (s : state) :
  tsens_ret e = 0 ->
  limit_init s <> 0 ->
  check_temp hz e s
  = apply_bands hz e (limited_max_freq s) (u32 (tsens_temp e)) s.
Proof.
  intros Ht Hi. unfold check_temp.
  rewrite Ht, (init_limits_resolved e s Hi). reflexivity.
Qed.

Lemma core_inv (a b : state) :
  core a = core b ->
  limit_idx a = limit_idx b /\ limit_idx_low a = limit_idx_low b
  /\ limit_idx_high a = limit_idx_high b /\ table a = table b
  /\ limit_init a = limit_init b /\ throttle_temp a = throttle_temp b
  /\ msm_thermal_info a = msm_thermal_info b /\ enabled a = enabled b
  /\ poweroffs a = poweroffs b.
Proof.
  unfold core. intros H. injection H as H1 H2 H3 H4 H5 H6 H7 H8 H9.
  repeat split; assumption.
Qed.

Lemma poweroffs_with_enabled (v : Z) (s : state) :
  poweroffs (with_enabled v s) = poweroffs s.
Proof. reflexivity. Qed.

Lemma poweroffs_with_limit_idx (v : Z) (s : state) :
  poweroffs (with_limit_idx v s) = poweroffs s.
Proof. reflexivity. Qed.

Lemma poweroffs_same_calls (a b : state) :
  calls a = calls b -> poweroffs a = poweroffs b.
Proof. unfold poweroffs. intros ->. reflexivity. Qed.

(** ** The index *)

(** With the arithmetic of the step inside [int], the policy is: down by
    [freq_step] but not below the low end, up by [freq_step] but not above
    the high end. *)
Lemma next_limit_idx_range (temp : Z) (s : state) :
  resolved s ->
  limit_idx_low s <= next_limit_idx temp s <= limit_idx_high s.
Proof.
  intros (_ & _ & Hlow & Hhigh & Hstep & Hsum).
  unfold next_limit_idx.
  assert (Hdown : s32 (limit_idx s - freq_step (msm_thermal_info s))
                  = limit_idx s - freq_step (msm_thermal_info s))
    by (apply s32_small; lia).
  assert (Hup : s32 (limit_idx s + freq_step (msm_thermal_info s))
                = limit_idx s + freq_step (msm_thermal_info s))
    by (apply s32_small; lia).
  rewrite Hdown, Hup.
  repeat match goal with
         | |- context [if ?c then _ else _] =>
           match c with
           | ?a >=? ?b => destruct (Z.geb_spec a b)
           | ?a <? ?b => destruct (Z.ltb_spec a b)
           | ?a =? ?b => destruct (Z.eqb_spec a b)
           end
         end; lia.
Qed.



(** With the table resolved and the step inside [int], the bands read the
    table inside its bounds: [apply_bands] returns. *)
Lemma apply_bands_returns (hz : Z) (e : thermal_env) (mf temp : Z)
    (s : state) :
  resolved s -> exists s', apply_bands hz e mf temp s = Ok s'.
Proof.
  intros Hres.
  pose proof (next_limit_idx_range temp s Hres) as Hnext.
  destruct Hres as (_ & (t & Ht & Hlen) & Hlow & Hhigh & Hstep & Hsum).
  unfold apply_bands. unfold next_limit_idx in Hnext.
  destruct (temp >=? SHUTDOWN_TEMP).
  - cbn [table limit_idx log_call]. rewrite Ht.
    destruct (table_freq_in t (limit_idx s)) as [f ->]; [lia |].
    cbn [bind]. eexists. reflexivity.
  - rewrite Ht.
    destruct (temp >=? u32 (throttle_temp s)).
    + destruct (limit_idx s =? limit_idx_low s); [eexists; reflexivity |].
      match goal with
      | |- context [table_freq (Some t) ?i] =>
        destruct (table_freq_in t i) as [f ->]; [lia |]
      end.
      cbn [bind]. eexists. reflexivity.
    + destruct (temp <? _); [| eexists; reflexivity].
      destruct (limit_idx s =? limit_idx_high s); [eexists; reflexivity |].
      destruct (_ >=? limit_idx_high s); [eexists; reflexivity |].
      match goal with
      | |- context [table_freq (Some t) ?i] =>
        destruct (table_freq_in t i) as [f ->]; [lia |]
      end.
      cbn [bind]. eexists. reflexivity.
Qed.

Lemma resolved_core (a b : state) :
  core a = core b -> resolved b -> resolved a.
Proof.
  intros Hc. apply core_inv in Hc.
  destruct Hc as (H1 & H2 & H3 & H4 & H5 & H6 & H7 & _ & _).
  unfold resolved. rewrite H1, H2, H3, H4, H5, H7. tauto.
Qed.

(** The bands keep the state resolved; only the index moves, and it stays
    inside the range. *)
Lemma apply_bands_resolved (hz : Z) (e : thermal_env) (mf temp : Z)
    (s s' : state) :
  resolved s ->
  apply_bands hz e mf temp s = Ok s' ->
  resolved s'
  /\ throttle_temp s' = throttle_temp s
  /\ msm_thermal_info s' = msm_thermal_info s
  /\ limit_idx_low s' = limit_idx_low s
  /\ limit_idx_high s' = limit_idx_high s
  /\ limit_idx s' = (if temp >=? SHUTDOWN_TEMP then limit_idx s
                     else next_limit_idx temp s).
Proof.
  intros Hres H.
  pose proof (apply_bands_core _ _ _ _ _ _ H) as Hc.
  pose proof (next_limit_idx_range temp s Hres) as Hnext.
  split.
  - apply (resolved_core _ _ Hc).
    destruct (temp >=? SHUTDOWN_TEMP).
    + exact Hres.
    + destruct Hres as (Hi & Ht & Hlow & Hhigh & Hstep & Hsum).
      unfold resolved. cbn. repeat split; try assumption; lia.
  - apply core_inv in Hc.
    destruct Hc as (H1 & H2 & H3 & _ & _ & H6 & H7 & _ & _).
    destruct (temp >=? SHUTDOWN_TEMP); cbn in *; auto.
Qed.

(** One entry with the table resolved: it returns, and the index is the
    one of the policy. *)
Lemma check_temp_returns (hz : Z) (e : thermal_env) (s : state) :
  resolved s ->
  exists s' : state,
    check_temp hz e s = Ok s'
    /\ resolved s'
    /\ throttle_temp s' = throttle_temp s
    /\ msm_thermal_info s' = msm_thermal_info s
    /\ limit_idx_low s' = limit_idx_low s
    /\ limit_idx_high s' = limit_idx_high s
    /\ limit_idx s' =
       (if tsens_ret e =? 0
        then if u32 (tsens_temp e) >=? SHUTDOWN_TEMP then limit_idx s
             else next_limit_idx (u32 (tsens_temp e)) s
        else limit_idx s).
Proof.
  intros Hres.
  destruct (Z.eqb_spec (tsens_ret e) 0) as [Ht | Ht].
  - rewrite (check_temp_resolved hz e s Ht (proj1 Hres)).
    destruct (apply_bands_returns hz e (limited_max_freq s)
                (u32 (tsens_temp e)) s Hres) as [s' Hs'].
    exists s'. split; [exact Hs' |].
    apply (apply_bands_resolved _ _ _ _ _ _ Hres Hs').
  - exists (reschedule hz 0 false s). split.
    + unfold check_temp.
      destruct (Z.eqb_spec (tsens_ret e) 0); [contradiction | reflexivity].
    + pose proof (core_reschedule hz 0 false s) as Hc.
      split; [apply (resolved_core _ _ Hc Hres) |].
      apply core_inv in Hc. tauto.
Qed.


Lemma warm_resolved : resolved warm.
Proof.
  unfold resolved. split; [vm_compute; discriminate |].
  split; [exists krait_table; split; [reflexivity | vm_compute; reflexivity] |].
  vm_compute. repeat split; discriminate.
Qed.

(** ** Power-off *)

(** One entry requests power-off at most once; when it does, it clears
    [enabled] and queues nothing. *)
Lemma check_temp_poweroffs (hz : Z) (e : thermal_env) (s s' : state) :
  check_temp hz e s = Ok s' ->
  poweroffs s' = poweroffs s
  \/ (poweroffs s' = S (poweroffs s) /\ enabled s' = 0
      /\ check_temp_work s' = check_temp_work s).
Proof.
  unfold check_temp.
  destruct (negb (tsens_ret e =? 0)).
  - intros H. injection H as <-. left.
    apply (core_inv _ _ (core_reschedule _ _ _ _)).
  - destruct (init_limits e s) as [r |] eqn:Ei; cbn [bind]; [| discriminate].
    destruct (init_limits_frame e s r Ei) as (Hc & He & Hw & _).
    destruct (negb (fst r =? 0)).
    + intros H. injection H as <-. left.
      rewrite <- (poweroffs_same_calls _ _ Hc).
      apply (core_inv _ _ (core_reschedule _ _ _ _)).
    + intros H. pose proof (apply_bands_core _ _ _ _ _ _ H) as Hcore.
      apply core_inv in Hcore.
      destruct Hcore as (_ & _ & _ & _ & _ & _ & _ & Hen & Hp).
      destruct (Z.geb_spec (u32 (tsens_temp e)) SHUTDOWN_TEMP) as [Hge | Hlt].
      * right. split; [| split].
        -- rewrite Hp, poweroffs_with_enabled, poweroffs_log_call.
           rewrite (poweroffs_same_calls _ _ Hc). lia.
        -- rewrite Hen. reflexivity.
        -- rewrite (apply_bands_shutdown_queue _ _ _ _ _ _ Hge H). exact Hw.
      * left. rewrite Hp, poweroffs_with_limit_idx.
        apply (poweroffs_same_calls _ _ Hc).
Qed.

Lemma poll_poweroffs (hz : Z) (es : list thermal_env) :
  forall s s' : state,
    poweroffs s = 0%nat
    \/ (check_temp_work s = None /\ (poweroffs s <= 1)%nat) ->
    poll hz es s = Ok s' ->
    (poweroffs s' <= 1)%nat.
Proof.
  induction es as [| e es IH]; intros s s' Hinv Hp.
  - injection Hp as <-. destruct Hinv as [H | [_ H]]; lia.
  - cbn [poll] in Hp. unfold run_check_temp in Hp.
    destruct (check_temp_work s) as [d |] eqn:Ew.
    + destruct (check_temp hz e (with_check_temp_work None s)) as [s1 |] eqn:E;
        cbn [bind] in Hp; [| discriminate].
      apply (IH s1 s'); [| exact Hp].
      destruct Hinv as [H0 | [Hn _]]; [| discriminate Hn].
      destruct (check_temp_poweroffs _ _ _ _ E) as [Hsame | (Hone & _ & Hq)].
      * left. rewrite Hsame. exact H0.
      * right. split; [exact Hq |]. rewrite Hone.
        change (poweroffs (with_check_temp_work None s)) with (poweroffs s).
        lia.
    + cbn [bind] in Hp. apply (IH s s'); [| exact Hp].
      destruct Hinv as [H0 | [_ H1]]; [left; exact H0 | right; auto].
Qed.

(** An entry in the shutdown band, table resolved. *)
Lemma shutdown_entry (hz : Z) (e : thermal_env) (s : state) :
  tsens_ret e = 0 ->
  limit_init s <> 0 ->
  SHUTDOWN_TEMP <= u32 (tsens_temp e) ->
  (exists f, table_freq (table s) (limit_idx s) = Ok f) ->
  exists s' : state,
    check_temp hz e s = Ok s'
    /\ poweroffs s' = S (poweroffs s) /\ enabled s' = 0
    /\ check_temp_work s' = check_temp_work s
    /\ (do f <- table_freq (table s) (limit_idx s);
        Ok (setmaxfreq hz e f (u32 (tsens_temp e)) false
              (with_enabled 0 (log_call orderly_poweroff s)))) = Ok s'.
Proof.
  intros Ht Hi Hge [f Hf].
  assert (Hshape :
            check_temp hz e s
            = Ok (setmaxfreq hz e f (u32 (tsens_temp e)) false
                    (with_enabled 0 (log_call orderly_poweroff s)))).
  { rewrite (check_temp_resolved _ _ _ Ht Hi). unfold apply_bands.
    destruct (Z.geb_spec (u32 (tsens_temp e)) SHUTDOWN_TEMP) as [_ | Hlt];
      [| lia].
    change (table (log_call orderly_poweroff s)) with (table s).
    change (limit_idx (log_call orderly_poweroff s)) with (limit_idx s).
    rewrite Hf. reflexivity. }
  eexists. split; [exact Hshape |].
  pose proof Hshape as H'. rewrite (check_temp_resolved _ _ _ Ht Hi) in H'.
  pose proof (apply_bands_core _ _ _ _ _ _ H') as Hcore.
  apply core_inv in Hcore.
  destruct Hcore as (_ & _ & _ & _ & _ & _ & _ & Hen & Hp).
  destruct (Z.geb_spec (u32 (tsens_temp e)) SHUTDOWN_TEMP) as [_ | Hlt];
    [| lia].
  split; [| split; [| split]].
  - rewrite Hp, poweroffs_with_enabled, poweroffs_log_call. lia.
  - rewrite Hen. reflexivity.
  - apply (apply_bands_shutdown_queue _ _ _ _ _ _ Hge H').
  - rewrite Hf. reflexivity.
Qed.

(** As many power-off requests as entries in the shutdown band. *)
Lemma shutdown_entries_counted (hz : Z) (es : list thermal_env) :
  forall s : state,
    resolved s ->
    Forall shutdown_reading es ->
    exists s' : state,
      invoke hz es s = Ok s'
      /\ poweroffs s' = (poweroffs s + length es)%nat.
Proof.
  induction es as [| e es IH]; intros s Hres Hall.
  - exists s. split; [reflexivity | cbn; lia].
  - inversion Hall as [| e0 es0 [Hok Hge] Hrest]; subst.
    destruct (check_temp_returns hz e s Hres) as (s1 & Hs1 & Hres1 & _).
    destruct (check_temp_poweroffs hz e s s1 Hs1) as [Hsame | (Hone & _)].
    + exfalso.
      pose proof Hs1 as H'.
      rewrite (check_temp_resolved _ _ _ Hok (proj1 Hres)) in H'.
      pose proof (apply_bands_core _ _ _ _ _ _ H') as Hcore.
      apply core_inv in Hcore.
      destruct Hcore as (_ & _ & _ & _ & _ & _ & _ & _ & Hp).
      destruct (Z.geb_spec (u32 (tsens_temp e)) SHUTDOWN_TEMP) as [_ | Hlt];
        [| lia].
      rewrite poweroffs_with_enabled, poweroffs_log_call in Hp. lia.
    + destruct (IH s1 Hres1 Hrest) as (s' & Hs' & Hcount).
      exists s'. cbn [invoke]. rewrite Hs1. cbn [bind].
      split; [exact Hs' |]. rewrite Hcount, Hone. cbn [length]. lia.
Qed.

(** C4, as the code has it: every entry into [check_temp] that reads a
    temperature in the shutdown band with the table resolved calls
    orderly_poweroff exactly once more, so [k] such entries call it [k]
    times; the entry clears [enabled] and queues no further poll, so along
    the polling chain, where [check_temp] runs only when it was queued,
    power-off is requested at most once. *)
Theorem C4_poweroff_once_per_entry (hz : Z) :
  (forall (e : thermal_env) (s s' : state),
      shutdown_reading e ->
      limit_init s <> 0 ->
      check_temp hz e s = Ok s' ->
      poweroffs s' = S (poweroffs s) /\ enabled s' = 0
      /\ check_temp_work s' = check_temp_work s)
  /\ (forall (es : list thermal_env) (s : state),
        resolved s ->
        Forall shutdown_reading es ->
        exists s' : state,
          invoke hz es s = Ok s'
          /\ poweroffs s' = (poweroffs s + length es)%nat)
  /\ (forall (es : list thermal_env) (s s' : state),
        poweroffs s = 0%nat ->
        poll hz es s = Ok s' ->
        (poweroffs s' <= 1)%nat).
Proof.
  split; [| split].
  - intros e s s' [Ht Hge] Hi H.
    pose proof H as H'. rewrite (check_temp_resolved _ _ _ Ht Hi) in H'.
    pose proof (apply_bands_core _ _ _ _ _ _ H') as Hcore.
    apply core_inv in Hcore.
    destruct Hcore as (_ & _ & _ & _ & _ & _ & _ & Hen & Hp).
    destruct (Z.geb_spec (u32 (tsens_temp e)) SHUTDOWN_TEMP) as [_ | Hlt];
      [| lia].
    split; [| split].
    + rewrite Hp, poweroffs_with_enabled, poweroffs_log_call. lia.
    + rewrite Hen. reflexivity.
    + apply (apply_bands_shutdown_queue _ _ _ _ _ _ Hge H').
  - intros es s Hres Hall.
    apply (shutdown_entries_counted hz es s Hres Hall).
  - intros es s s' H0 Hp.
    apply (poll_poweroffs hz es s s'); [left; exact H0 | exact Hp].
Qed.

Lemma hot_reading : shutdown_reading (reading 85).
Proof. split; [reflexivity | vm_compute; discriminate]. Qed.

Lemma C4_poweroff_once_per_entry_witness :
  (exists s', check_temp 100 (reading 85) warm = Ok s'
              /\ poweroffs s' = 1%nat /\ enabled s' = 0)
  /\ (exists s', invoke 100 [reading 85; reading 85; reading 85] warm = Ok s'
                 /\ poweroffs s' = 3%nat)
  /\ (exists s', poll 100 [reading 85; reading 85] (msm_thermal_init (pdata 1))
                 = Ok s' /\ (poweroffs s' <= 1)%nat).
Proof.
  destruct (C4_poweroff_once_per_entry 100) as (Hentry & Hcount & Hchain).
  split; [| split].
  - destruct (check_temp 100 (reading 85) warm) as [s' |] eqn:E;
      [| vm_compute in E; discriminate E].
    exists s'. split; [reflexivity |].
    destruct (Hentry (reading 85) warm s') as (Hp & He & _).
    + exact hot_reading.
    + vm_compute. discriminate.
    + exact E.
    + split; [exact Hp | exact He].
  - destruct (Hcount [reading 85; reading 85; reading 85] warm)
      as (s' & Hs' & Hp).
    + exact warm_resolved.
    + repeat constructor; apply hot_reading.
    + exists s'. split; [exact Hs' | exact Hp].
  - destruct (poll 100 [reading 85; reading 85] (msm_thermal_init (pdata 1)))
      as [s' |] eqn:E; [| vm_compute in E; discriminate E].
    exists s'. split; [reflexivity |].
    apply (Hchain [reading 85; reading 85] (msm_thermal_init (pdata 1)) s').
    + reflexivity.
    + exact E.
Defined.

(** C4 as the specification states it fails: two entries at 85 degrees
    request power-off twice.  The mutex keeps the two requests apart, it
    does not drop the second. *)
Lemma C4_two_entries_two_poweroffs :
  ~ shutdown_at_most_once 100 [reading 85; reading 85]
      (msm_thermal_init (pdata 1)).
Proof.
  intros H.
  destruct (invoke 100 [reading 85; reading 85] (msm_thermal_init (pdata 1)))
    as [s' |] eqn:E; [| vm_compute in E; discriminate E].
  specialize (H s' E).
  vm_compute in E. injection E as <-. vm_compute in H.
  apply (Nat.nle_succ_diag_l 1). exact H.
Qed.

(** ** Applying a ceiling *)

Lemma calls_update_mono (e : thermal_env) (f : Z) (s : state) (cpu : nat)
    (c : call) :
  In c (calls s) -> In c (calls (update_cpu_max_freq e f s cpu)).
Proof.
  intros H. unfold update_cpu_max_freq.
  destruct (negb _); cbn; rewrite ?in_app_iff; auto.
Qed.

Lemma calls_apply_all_mono (e : thermal_env) (f : Z) (cpus : list nat)
    (c : call) :
  forall s : state,
    In c (calls s) ->
    In c (calls (fold_left (update_cpu_max_freq e f) cpus s)).
Proof.
  induction cpus as [| x cpus IH]; intros s H; cbn [fold_left].
  - exact H.
  - apply IH. apply calls_update_mono. exact H.
Qed.

(** Every cpu of the list is given the ceiling. *)
Lemma calls_apply_all (e : thermal_env) (f : Z) (cpus : list nat)
    (cpu : nat) :
  forall s : state,
    In cpu cpus ->
    In (msm_cpufreq_set_freq_limits cpu MSM_CPUFREQ_NO_LIMIT f)
       (calls (fold_left (update_cpu_max_freq e f) cpus s)).
Proof.
  induction cpus as [| x cpus IH]; intros s H; cbn [fold_left].
  - destruct H.
  - destruct H as [-> | H].
    + apply calls_apply_all_mono. unfold update_cpu_max_freq.
      destruct (negb _); cbn; rewrite ?in_app_iff; cbn; auto.
    + apply IH. exact H.
Qed.

(** The ceiling in force is the new one as soon as one cpu accepted it. *)
Lemma limited_max_freq_apply_all (e : thermal_env) (f : Z)
    (cpus : list nat) :
  forall s : state,
    limited_max_freq (fold_left (update_cpu_max_freq e f) cpus s)
    = if existsb (fun c => set_limits_ret e c =? 0) cpus
      then f else limited_max_freq s.
Proof.
  induction cpus as [| x cpus IH]; intros s; cbn [fold_left existsb].
  - reflexivity.
  - rewrite IH. unfold update_cpu_max_freq.
    destruct (set_limits_ret e x =? 0); cbn [negb orb].
    + destruct (existsb _ cpus); reflexivity.
    + reflexivity.
Qed.

Lemma calls_update (e : thermal_env) (f : Z) (s : state) (cpu : nat) :
  calls (update_cpu_max_freq e f s cpu) = calls s ++ cpu_calls e f cpu.
Proof.
  unfold update_cpu_max_freq, cpu_calls.
  destruct (set_limits_ret e cpu =? 0); cbn [negb calls log_call
    with_limited_max_freq].
  - rewrite <- app_assoc. reflexivity.
  - reflexivity.
Qed.

Lemma calls_apply_all_exact (e : thermal_env) (f : Z) (cpus : list nat) :
  forall s : state,
    calls (fold_left (update_cpu_max_freq e f) cpus s)
    = calls s ++ flat_map (cpu_calls e f) cpus.
Proof.
  induction cpus as [| c cpus IH]; intros s; cbn [fold_left flat_map].
  - symmetry. apply app_nil_r.
  - rewrite IH, calls_update, <- app_assoc. reflexivity.
Qed.

Lemma calls_setmaxfreq (hz : Z) (e : thermal_env) (f temp : Z) (near : bool)
    (s : state) :
  calls (setmaxfreq hz e f temp near s)
  = calls s ++ flat_map (cpu_calls e f) (seq 0 (nr_possible_cpus e)).
Proof.
  unfold setmaxfreq.
  rewrite (proj1 (reschedule_frame _ _ _ _)). apply calls_apply_all_exact.
Qed.

Lemma table_end_found (fs rest : list Z) :
  Forall (fun f => f <> CPUFREQ_TABLE_END) fs ->
  forall i : Z,
    table_end (fs ++ CPUFREQ_TABLE_END :: rest) i
    = Ok (i + Z.of_nat (length fs)).
Proof.
  induction 1 as [| f fs Hf _ IH]; intros i.
  - cbn [app table_end length]. rewrite Z.eqb_refl. f_equal. cbn. lia.
  - cbn [app table_end length].
    destruct (Z.eqb_spec f CPUFREQ_TABLE_END); [contradiction |].
    rewrite IH. f_equal. lia.
Qed.

Lemma table_end_missing (t : list Z) :
  Forall (fun f => f <> CPUFREQ_TABLE_END) t ->
  forall i : Z,
    table_end t i = Fault (OutOfBounds (i + Z.of_nat (length t))).
Proof.
  induction 1 as [| f fs Hf _ IH]; intros i.
  - cbn. rewrite Z.add_0_r. reflexivity.
  - cbn [table_end length].
    destruct (Z.eqb_spec f CPUFREQ_TABLE_END); [contradiction |].
    rewrite IH. do 2 f_equal. lia.
Qed.

(** The lookup on a terminated table of at least two frequencies. *)
Lemma freq_table_shape (e : thermal_env) (s : state) (fs rest : list Z) :
  Forall (fun f => f <> CPUFREQ_TABLE_END) fs ->
  Z.of_nat (length fs) < 2 ^ 31 ->
  cpufreq_table e = Some (fs ++ CPUFREQ_TABLE_END :: rest) ->
  (2 <= length fs)%nat ->
  exists s2 : state,
    msm_thermal_get_freq_table e s = Ok (0, s2)
    /\ s2 = with_limit_idx (Z.of_nat (length fs) - 1)
              (with_range 0 (Z.of_nat (length fs) - 1)
                 (with_table (Some (fs ++ CPUFREQ_TABLE_END :: rest)) s)).
Proof.
  intros Hfs Hlen Htab H2. unfold msm_thermal_get_freq_table.
  rewrite Htab, (table_end_found fs rest Hfs 0). cbn [bind].
  rewrite Z.add_0_l.
  cbn [limit_idx_high limit_idx_low with_limit_idx with_range].
  rewrite s32_small by lia.
  destruct (Z.leb_spec (Z.of_nat (length fs) - 1) 0); [lia |].
  eexists. split; reflexivity.
Qed.

(** A shutdown reading on a state whose table is there. *)
Lemma shutdown_from (hz : Z) (e : thermal_env) (mf temp : Z) (s1 : state)
    (f : Z) :
  SHUTDOWN_TEMP <= temp ->
  table_freq (table s1) (limit_idx s1) = Ok f ->
  exists s' : state,
    apply_bands hz e mf temp s1 = Ok s'
    /\ shuts_down e s1 s' (limit_idx s1) f
    /\ core s' = core (with_enabled 0 (log_call orderly_poweroff s1)).
Proof.
  intros Hge Hf. unfold apply_bands.
  destruct (Z.geb_spec temp SHUTDOWN_TEMP) as [_ | Hlt]; [| lia].
  change (table (log_call orderly_poweroff s1)) with (table s1).
  change (limit_idx (log_call orderly_poweroff s1)) with (limit_idx s1).
  rewrite Hf. cbn [bind].
  set (s2 := with_enabled 0 (log_call orderly_poweroff s1)).
  destruct (core_apply_all e f (seq 0 (nr_possible_cpus e)) s2) as [Hc Hw].
  assert (Hres : setmaxfreq hz e f temp false s2
                 = fold_left (update_cpu_max_freq e f)
                     (seq 0 (nr_possible_cpus e)) s2).
  { unfold setmaxfreq. apply reschedule_disabled.
    pose proof Hc as Hc'. apply core_inv in Hc'. tauto. }
  eexists. split; [reflexivity |]. rewrite Hres.
  split; [| exact Hc].
  apply core_inv in Hc.
  destruct Hc as (Hi & _ & _ & _ & _ & _ & _ & He & Hp).
  unfold shuts_down.
  split; [rewrite Hp; unfold s2;
          rewrite poweroffs_with_enabled, poweroffs_log_call; lia |].
  split; [rewrite Hi; reflexivity |].
  split.
  { rewrite calls_apply_all_exact. unfold s2.
    cbn [calls with_enabled log_call]. rewrite <- app_assoc. reflexivity. }
  split; [rewrite limited_max_freq_apply_all; reflexivity |].
  split; [rewrite He; reflexivity |].
  rewrite Hw. reflexivity.
Qed.

(** C5, as the code has it.  A reading in the shutdown band does its work
    only once the frequency table is there.  If an earlier sampling step
    resolved the table, the step calls orderly_poweroff once, leaves the
    index where it is and gives every possible cpu the table frequency at
    that index as its ceiling, which is the lowest frequency only if the
    index had already reached limit_idx_low; it clears [enabled] and
    queues no poll.  If this is the first use and cpufreq has a table of
    at least two frequencies, the step resolves the table, puts the index
    at the top and does the same there: the ceiling is the highest
    frequency.  If this is the first use and cpufreq has no table, the
    step requests no power-off and applies no ceiling, leaves [enabled]
    as it is and re-arms the poll. *)
Theorem C5_shutdown_band (hz : Z) (e : thermal_env) (s : state) :
  tsens_ret e = 0 ->
  SHUTDOWN_TEMP <= u32 (tsens_temp e) ->
  (limit_init s <> 0 ->
   forall f : Z,
     table_freq (table s) (limit_idx s) = Ok f ->
     exists s' : state,
       check_temp hz e s = Ok s'
       /\ shuts_down e s s' (limit_idx s) f)
  /\ (limit_init s = 0 ->
      forall fs rest : list Z,
        cpufreq_table e = Some (fs ++ CPUFREQ_TABLE_END :: rest) ->
        Forall (fun f => f <> CPUFREQ_TABLE_END) fs ->
        (2 <= length fs)%nat ->
        Z.of_nat (length fs) < 2 ^ 31 ->
        exists (s' : state) (f : Z),
          check_temp hz e s = Ok s'
          /\ fs !! (length fs - 1)%nat = Some f
          /\ limit_init s' = 1
          /\ limit_idx_low s' = 0
          /\ limit_idx_high s' = Z.of_nat (length fs) - 1
          /\ shuts_down e s s' (Z.of_nat (length fs) - 1) f)
  /\ (limit_init s = 0 ->
      cpufreq_table e = None ->
      exists s' : state,
        check_temp hz e s = Ok s'
        /\ poweroffs s' = poweroffs s
        /\ calls s' = calls s
        /\ limited_max_freq s' = limited_max_freq s
        /\ enabled s' = enabled s
        /\ limit_init s' = 0
        /\ (enabled s <> 0 -> check_temp_work s' <> None)).
Proof.
  intros Ht Hge. split; [| split].
  - intros Hi f Hf.
    rewrite (check_temp_resolved hz e s Ht Hi).
    destruct (shutdown_from hz e (limited_max_freq s) (u32 (tsens_temp e))
                s f Hge Hf) as (s' & Hs' & Hsd & _).
    exists s'. split; [exact Hs' | exact Hsd].
  - intros Hi fs rest Htab Hfs H2 Hlen.
    destruct (freq_table_shape e s fs rest Hfs Hlen Htab H2)
      as [s2 (Hg & Hs2)].
    unfold check_temp, init_limits.
    rewrite Ht, Hi, Hg. cbn [Z.eqb negb bind fst snd].
    set (s1 := with_limit_init 1 s2).
    assert (Hlast : exists f : Z, fs !! (length fs - 1)%nat = Some f).
    { apply lookup_lt_is_Some_2. lia. }
    destruct Hlast as [f Hlast].
    assert (Hf : table_freq (table s1) (limit_idx s1) = Ok f).
    { unfold s1. rewrite Hs2.
      cbn [table limit_idx with_limit_init with_limit_idx with_range
           with_table].
      unfold table_freq, block_get. rewrite length_app. cbn [length].
      destruct (Z.leb_spec 0 (Z.of_nat (length fs) - 1)); [| lia].
      destruct (Z.ltb_spec (Z.of_nat (length fs) - 1)
                  (Z.of_nat (length fs + S (length rest)))); [| lia].
      cbn [andb].
      replace (Z.to_nat (Z.of_nat (length fs) - 1))
        with (length fs - 1)%nat by lia.
      rewrite lookup_app_l by lia. rewrite Hlast. reflexivity. }
    destruct (shutdown_from hz e (limited_max_freq s) (u32 (tsens_temp e))
                s1 f Hge Hf) as (s' & Hs' & Hsd & Hc).
    exists s', f. split; [exact Hs' |]. split; [exact Hlast |].
    apply core_inv in Hc.
    destruct Hc as (_ & Hlow & Hhigh & _ & Hinit & _).
    split; [rewrite Hinit; reflexivity |].
    split; [rewrite Hlow; unfold s1; rewrite Hs2; reflexivity |].
    split; [rewrite Hhigh; unfold s1; rewrite Hs2; reflexivity |].
    unfold shuts_down in *. unfold s1 in Hsd. rewrite Hs2 in Hsd.
    exact Hsd.
  - intros Hi Hnone.
    unfold check_temp, init_limits, msm_thermal_get_freq_table.
    rewrite Ht, Hi, Hnone. cbn [Z.eqb negb bind fst snd].
    replace (- EINVAL =? 0) with false by reflexivity. cbn [negb].
    eexists. split; [reflexivity |].
    match goal with
    | |- context [reschedule ?a ?b ?c ?d] =>
      pose proof (core_reschedule a b c d) as Hc;
      destruct (reschedule_frame a b c d) as [Hcalls Hl];
      pose proof (reschedule_rearms a b c d) as Hre
    end.
    apply core_inv in Hc.
    destruct Hc as (_ & _ & _ & _ & Hinit & _ & _ & Hen & Hp).
    split; [rewrite Hp; reflexivity |].
    split; [rewrite Hcalls; reflexivity |].
    split; [rewrite Hl; reflexivity |].
    split; [rewrite Hen; reflexivity |].
    split; [rewrite Hinit; exact Hi |].
    intros Hne. apply Hre. exact Hne.
Qed.

Lemma krait_frequencies :
  Forall (fun f => f <> CPUFREQ_TABLE_END)
    [384000; 486000; 594000; 702000; 810000; 918000; 1026000; 1134000;
     1242000; 1350000; 1458000; 1512000].
Proof. repeat constructor; discriminate. Qed.

Lemma C5_shutdown_band_witness :
  tsens_ret (reading 85) = 0
  /\ SHUTDOWN_TEMP <= u32 (tsens_temp (reading 85))
  /\ limit_init (msm_thermal_init (pdata 1)) = 0
  /\ exists s' : state,
       check_temp 100 (reading 85) (msm_thermal_init (pdata 1)) = Ok s'
       /\ shuts_down (reading 85) (msm_thermal_init (pdata 1)) s' 11 1512000
       /\ poweroffs s' = 1%nat
       /\ limited_max_freq s' = 1512000
       /\ enabled s' = 0
       /\ check_temp_work s' = Some 0.
Proof.
  assert (H1 : tsens_ret (reading 85) = 0) by reflexivity.
  assert (H2 : SHUTDOWN_TEMP <= u32 (tsens_temp (reading 85)))
    by (vm_compute; discriminate).
  split; [exact H1 |]. split; [exact H2 |]. split; [reflexivity |].
  destruct (C5_shutdown_band 100 (reading 85) (msm_thermal_init (pdata 1))
              H1 H2) as (_ & Hfirst & _).
  destruct (Hfirst eq_refl
              [384000; 486000; 594000; 702000; 810000; 918000; 1026000;
               1134000; 1242000; 1350000; 1458000; 1512000] []
              eq_refl krait_frequencies)
    as (s' & f & Hs' & Hlast & _ & _ & _ & Hsd).
  - cbn. lia.
  - cbn. lia.
  - cbn in Hlast. injection Hlast as <-.
    exists s'. split; [exact Hs' |]. split; [exact Hsd |].
    destruct Hsd as (Hp & _ & _ & Hl & He & Hq).
    split; [exact Hp |]. split; [exact Hl |]. split; [exact He | exact Hq].
Defined.

(** C5 as the specification states it fails: at 85 degrees with the index
    still at the top of the table, the ceiling applied is the highest
    frequency, 1512000, not the lowest, 384000. *)
Lemma C5_shutdown_keeps_current_index :
  ~ shutdown_clamps_to_minimum 100 (reading 85) warm.
Proof.
  intros H.
  destruct H as (s' & Hrun & _ & Hmin & _).
  - reflexivity.
  - vm_compute. discriminate.
  - vm_compute in Hrun. injection Hrun as <-.
    vm_compute in Hmin. discriminate Hmin.
Qed.

(** ** Resolving the frequency table *)




(** ** Hysteresis *)


Lemma throttled_resolved : resolved throttled.
Proof.
  unfold resolved. split; [vm_compute; discriminate |].
  split; [exists krait_table; split; [reflexivity | vm_compute; reflexivity] |].
  vm_compute. repeat split; discriminate.
Qed.



End ThermalProps.

(** * Properties of the thermal limiter with the max-throttle band *)

Module ThermalAProps.
Import ThermalA Examples MachineInt.

Lemma unsigned_core_update_cpu_max_freq (e : thermal_env) (f : Z) (s : state)
    (cpu : nat) :
  core (update_cpu_max_freq e f s cpu) = core s.
Proof.
  unfold update_cpu_max_freq. destruct (negb _); reflexivity.
Qed.

Lemma unsigned_core_apply_all (e : thermal_env) (f : Z) (cpus : list nat) :
  forall s : state,
    core (fold_left (update_cpu_max_freq e f) cpus s) = core s.
Proof.
  induction cpus as [| c cpus IH]; intros s; cbn [fold_left].
  - reflexivity.
  - rewrite IH. apply unsigned_core_update_cpu_max_freq.
Qed.

Lemma unsigned_core_reschedule (hz temp : Z) (fast : bool) (s : state) :
  core (reschedule hz temp fast s) = core s.
Proof.
  unfold reschedule, schedule_delayed_work.
  destruct (enabled s =? 0); [reflexivity |].
  destruct (temp >? COOL_TEMP); [destruct fast |];
    destruct (check_temp_work s); reflexivity.
Qed.

Lemma unsigned_core_setmaxfreq (hz : Z) (e : thermal_env) (f temp : Z) (fast : bool)
    (s : state) :
  core (setmaxfreq hz e f temp fast s) = core s.
Proof.
  unfold setmaxfreq. rewrite unsigned_core_reschedule. apply unsigned_core_apply_all.
Qed.

Lemma unsigned_apply_bands_core (hz : Z) (e : thermal_env) (mf temp : Z)
    (s s' : state) :
  apply_bands hz e mf temp s = Ok s' ->
  core s' = core (with_limit_idx (next_limit_idx temp s) s).
Proof.
  unfold apply_bands, next_limit_idx.
  destruct (temp >=? MAX_THROTTLE_TEMP).
  { destruct (table_freq _ _) as [f |]; cbn [bind]; [| discriminate].
    intros H. injection H as <-. rewrite unsigned_core_setmaxfreq. reflexivity. }
  destruct (temp <? _).
  { cbn [limit_idx limit_idx_high with_throttle_on].
    destruct (Z.eqb_spec (limit_idx s) (limit_idx_high s)) as [Heq | Hne].
    - intros H. injection H as <-. rewrite unsigned_core_reschedule.
      unfold core. cbn. rewrite Heq. reflexivity.
    - destruct (table_freq _ _) as [f |]; cbn [bind]; [| discriminate].
      intros H. injection H as <-. rewrite unsigned_core_setmaxfreq. reflexivity. }
  destruct (temp >=? throttle_temp s).
  { destruct (limit_idx s =? min_freq_index s).
    - intros H. injection H as <-. rewrite unsigned_core_reschedule. reflexivity.
    - destruct (table_freq _ _) as [f |]; cbn [bind]; [| discriminate].
      intros H. injection H as <-. rewrite unsigned_core_setmaxfreq. reflexivity. }
  destruct (temp >=? _).
  { cbn [limit_idx limit_idx_high with_throttle_on].
    destruct (Z.eqb_spec (limit_idx s) (limit_idx_high s)) as [Heq | Hne].
    - intros H. injection H as <-. rewrite unsigned_core_reschedule.
      unfold core. cbn. rewrite Heq. reflexivity.
    - destruct (table_freq _ _) as [f |]; cbn [bind]; [| discriminate].
      intros H. injection H as <-. rewrite unsigned_core_setmaxfreq. reflexivity. }
  intros H. injection H as <-. rewrite unsigned_core_setmaxfreq. reflexivity.
Qed.

(** While a step is no larger than the low end of the range, stepping
    down stays between the low end and the current index. *)
Lemma step_down_range (s : state) :
  resolved s -> min_freq_index s <= step_down s <= limit_idx s.
Proof.
  intros (_ & _ & Hmin & Hhigh & Hstep). unfold step_down.
  rewrite (u32_small (limit_idx s - _)) by lia.
  destruct (Z.ltb_spec (limit_idx s - freq_step (msm_thermal_info s))
                       (min_freq_index s)); lia.
Qed.

Lemma unsigned_next_limit_idx_range (temp : Z) (s : state) :
  resolved s ->
  min_freq_index s <= next_limit_idx temp s <= limit_idx_high s.
Proof.
  intros Hres. pose proof (step_down_range s Hres) as Hd.
  destruct Hres as (_ & _ & Hmin & Hhigh & Hstep).
  unfold next_limit_idx.
  repeat match goal with
         | |- context [if ?c then _ else _] => destruct c
         end; lia.
Qed.

(** The index stays inside the validated range as long as a step is no
    larger than min_freq_index. *)
Lemma index_in_range (hz : Z) (e : thermal_env) (mf temp : Z)
    (s s' : state) :
  resolved s ->
  apply_bands hz e mf temp s = Ok s' ->
  min_freq_index s' = min_freq_index s
  /\ limit_idx_high s' = limit_idx_high s
  /\ min_freq_index s <= limit_idx s' <= limit_idx_high s.
Proof.
  intros Hres H.
  pose proof (unsigned_apply_bands_core _ _ _ _ _ _ H) as Hc.
  pose proof (unsigned_next_limit_idx_range temp s Hres) as Hn.
  unfold core in Hc. injection Hc as H1 H2 H3 _ _ _ _.
  cbn in H1, H2, H3. rewrite H1, H2, H3. auto.
Qed.

(** In this revision the warning band already puts the index back at the
    top of the range: one degree below the throttle temperature undoes the
    throttling. *)
Lemma warning_band_returns_to_top (hz : Z) (e : thermal_env) (mf temp : Z)
    (s s' : state) :
  temp < MAX_THROTTLE_TEMP ->
  u32 (throttle_temp s - temp_hysteresis_degC (msm_thermal_info s)) <= temp ->
  temp < throttle_temp s ->
  apply_bands hz e mf temp s = Ok s' ->
  limit_idx s' = limit_idx_high s.
Proof.
  intros Hmax Hwarn Hlt H.
  pose proof (unsigned_apply_bands_core _ _ _ _ _ _ H) as Hc.
  unfold core in Hc. injection Hc as H1 _ _ _ _ _ _.
  rewrite H1. cbn [limit_idx with_limit_idx]. unfold next_limit_idx.
  destruct (Z.geb_spec temp MAX_THROTTLE_TEMP); [lia |].
  destruct (Z.ltb_spec temp
              (u32 (throttle_temp s - temp_hysteresis_degC (msm_thermal_info s))));
    [lia |].
  destruct (Z.geb_spec temp (throttle_temp s)); [lia |].
  destruct (Z.geb_spec temp
              (u32 (throttle_temp s - temp_hysteresis_degC (msm_thermal_info s))));
    [reflexivity | lia].
Qed.

(** With throttle_temp = 70 and a step of 2: 75 degrees takes the index
    from 11 to 9, 69 degrees takes it back to 11. *)
Lemma warning_band_example :
  exists s1 s2 : state,
    invoke 100 [reading 75] (msm_thermal_init (pdata 2)) = Ok s1
    /\ limit_idx s1 = 9
    /\ check_temp 100 (reading 69) s1 = Ok s2
    /\ limit_idx s2 = 11.
Proof.
  eexists. eexists. split; [vm_compute; reflexivity |].
  split; [reflexivity |]. split; [vm_compute; reflexivity | reflexivity].
Qed.

(** C7 fails on the code, in both revisions.  In this one the indices are
    unsigned: with a table of twelve frequencies (range 7..11) and
    freq_step = 12, a reading of 75 degrees takes the index from 11 to
    11 - 12 = 4294967295, which the test against min_freq_index lets
    through, and the table is read there.  In the revision with the
    shutdown band the index is an [int] and freq_step an unsigned: with
    freq_step = 4294967295 a reading of 70 degrees takes the index from 11
    to 12, outside the range 0..11. *)
Theorem C7_index_leaves_range :
  (exists s : ThermalA.state,
      ThermalA.check_temp 100 (reading 50) (ThermalA.msm_thermal_init (pdata 12))
      = Ok s
      /\ ThermalA.min_freq_index s = 7
      /\ ThermalA.limit_idx_high s = 11
      /\ ThermalA.limit_idx s = 11
      /\ ThermalA.step_down s = 4294967295
      /\ ThermalA.check_temp 100 (reading 75) s
         = Fault (OutOfBounds 4294967295))
  /\ (exists s s' : ThermalB.state,
        ThermalB.check_temp 100 (reading 50)
          (ThermalB.msm_thermal_init (pdata 4294967295)) = Ok s
        /\ ThermalB.limit_idx_low s = 0
        /\ ThermalB.limit_idx_high s = 11
        /\ ThermalB.limit_idx s = 11
        /\ ThermalB.check_temp 100 (reading 70) s = Ok s'
        /\ ThermalB.limit_idx s' = 12).
Proof.
  split.
  - eexists. split; [vm_compute; reflexivity |].
    repeat split; vm_compute; reflexivity.
  - eexists. eexists. split; [vm_compute; reflexivity |].
    split; [reflexivity |]. split; [reflexivity |]. split; [reflexivity |].
    split; [vm_compute; reflexivity |]. reflexivity.
Qed.

End ThermalAProps.

(** * Further properties of the hotplug governor *)

Module HotplugMore.
Import AutoHotplug Examples MachineInt HotplugProps.

(** ** The sampler *)

Ltac split_ifs :=
  repeat match goal with
         | |- context [if ?c then _ else _] => destruct c
         end.

(** The decision touches the flags and the queue only. *)
Lemma decide_frame (p : platform) (e : sample_env) (avg : Z) (s : state) :
  tun (decide p e avg s) = tun s
  /\ live_sampling_periods (decide p e avg s) = live_sampling_periods s
  /\ index_max_value (decide p e avg s) = index_max_value s
  /\ history (decide p e avg s) = history s
  /\ index (decide p e avg s) = index s
  /\ cpu_log (decide p e avg s) = cpu_log s.
Proof. unfold decide, decide_enabled, rearm. split_ifs; repeat split. Qed.

(** With no resize outstanding, what sampling does to the state. *)
Lemma sample_load_shape (e : sample_env) (s : state) :
  sampler_ok s ->
  exists avg : Z,
    sample_load e s
    = Ok (avg,
          with_index (if index s =? index_max_value s then 0 else index s + 1)
            (with_history (<[Z.to_nat (index s) := stored_sample e]> (history s))
               s)).
Proof.
  intros (Hlive & Hrange & Himv & Hlen & Hidx).
  unfold sample_load, resize_history.
  replace (live_sampling_periods s =? sampling_periods (tun s)) with true
    by (symmetry; apply Z.eqb_eq; exact Hlive).
  rewrite hist_write_in by lia. cbn [bind].
  fold (stored_sample e).
  set (h := <[Z.to_nat (index s) := stored_sample e]> (history s)).
  assert (Hh : Z.of_nat (length h) = live_sampling_periods s).
  { unfold h. rewrite length_insert. exact Hlen. }
  destruct (sum_history_in (Z.to_nat (live_sampling_periods s)) h
              (index_max_value s)) with (j := index s) (acc := 0)
    as [v Hv]; try lia.
  rewrite Hv. cbn [bind].
  destruct (Z.eqb_spec (live_sampling_periods s) 0) as [H0 | H0]; [lia |].
  exists (v / live_sampling_periods s).
  destruct (Z.eqb_spec (index s) (index_max_value s)); [reflexivity |].
  rewrite u32_small by lia. reflexivity.
Qed.

(** One decision step on a sampler with no resize outstanding. *)
Lemma decision_step_shape (p : platform) (e : sample_env) (s : state) :
  sampler_ok s ->
  exists s' : state,
    hotplug_decision_work_fn p e s = Ok s'
    /\ sampler_ok s'
    /\ history s' = <[Z.to_nat (index s) := stored_sample e]> (history s)
    /\ index s' = (index s + 1) mod live_sampling_periods s.
Proof.
  intros Hok. destruct (sample_load_shape e s Hok) as [avg Hs].
  pose proof Hok as (Hlive & Hrange & Himv & Hlen & Hidx).
  unfold hotplug_decision_work_fn. rewrite Hs. cbn [bind fst snd].
  eexists. split; [reflexivity |].
  destruct (decide_frame p e avg
              (with_index (if index s =? index_max_value s then 0
                           else index s + 1)
                 (with_history
                    (<[Z.to_nat (index s) := stored_sample e]> (history s)) s)))
    as (Ht & Hl & Hi & Hh & Hx & _).
  assert (Hnext : (if index s =? index_max_value s then 0 else index s + 1)
                  = (index s + 1) mod live_sampling_periods s).
  { destruct (Z.eqb_spec (index s) (index_max_value s)) as [He | Hne].
    - replace (index s + 1) with (live_sampling_periods s) by lia.
      rewrite Z.mod_same by lia. reflexivity.
    - rewrite Z.mod_small by lia. reflexivity. }
  split; [| split].
  - unfold sampler_ok. rewrite Ht, Hl, Hi, Hh, Hx. cbn.
    rewrite length_insert.
    repeat split; try assumption; try lia;
      destruct (Z.eqb_spec (index s) (index_max_value s)); lia.
  - rewrite Hh. reflexivity.
  - rewrite Hx. cbn. exact Hnext.
Qed.

(** X1: with no resize outstanding, a decision step stays inside the
    history block and returns; it stores the sample at the cursor, leaves
    every other entry and the length of the block alone, and moves the
    cursor one entry on, from the last entry back to entry 0. *)
Theorem X1_decision_step_stores_and_advances (p : platform) (e : sample_env)
    (s : state) :
  sampler_ok s ->
  exists s' : state,
    hotplug_decision_work_fn p e s = Ok s'
    /\ sampler_ok s'
    /\ history s' = <[Z.to_nat (index s) := stored_sample e]> (history s)
    /\ index s' = (index s + 1) mod live_sampling_periods s.
Proof. intros Hok. exact (decision_step_shape p e s Hok). Qed.

Lemma booted_sampler_ok : sampler_ok booted.
Proof. unfold sampler_ok. vm_compute. repeat split; discriminate. Qed.

Lemma X1_decision_step_stores_and_advances_witness :
  sampler_ok booted
  /\ exists s' : state,
       hotplug_decision_work_fn quad (sample 3) booted = Ok s'
       /\ history s' = [300; 0; 0; 0; 0; 0; 0; 0; 0; 0]
       /\ index s' = 1.
Proof.
  pose proof booted_sampler_ok as H.
  split; [exact H |].
  destruct (X1_decision_step_stores_and_advances quad (sample 3) booted H)
    as (s' & Hs' & _ & Hh & Hi).
  exists s'. split; [exact Hs' |]. split; [exact Hh | exact Hi].
Defined.

(** From cursor [j], as many steps as still fit before the end of the
    block write their samples side by side. *)
Lemma decision_steps_fill (p : platform) (es : list sample_env) :
  forall (s : state) (j : nat),
    sampler_ok s ->
    index s = Z.of_nat j ->
    (j + length es <= length (history s))%nat ->
    exists s' : state,
      decision_steps p es s = Ok s'
      /\ sampler_ok s'
      /\ history s'
         = take j (history s) ++ map stored_sample es
           ++ drop (j + length es) (history s)
      /\ index s' = Z.of_nat (j + length es) mod live_sampling_periods s.
Proof.
  induction es as [| e es IH]; intros s j Hok Hj Hfit.
  - exists s. split; [reflexivity |]. split; [exact Hok |].
    pose proof Hok as (_ & Hrange & Himv & Hlen & Hidx).
    cbn [length map app]. rewrite Nat.add_0_r, take_drop.
    split; [reflexivity |]. rewrite Z.mod_small by lia. exact Hj.
  - destruct (decision_step_shape p e s Hok)
      as (s1 & Hs1 & Hok1 & Hh1 & Hi1).
    pose proof Hok as (_ & Hrange & Himv & Hlen & Hidx).
    pose proof Hok1 as (_ & _ & _ & Hlen1 & _).
    assert (Hlive1 : live_sampling_periods s1 = live_sampling_periods s).
    { rewrite <- Hlen1, Hh1, length_insert. exact Hlen. }
    cbn [decision_steps]. rewrite Hs1. cbn [bind].
    cbn [length] in Hfit.
    rewrite Hj, Nat2Z.id in Hh1.
    assert (Hx : (<[j := stored_sample e]> (history s)) !! j
                 = Some (stored_sample e))
      by (apply list_lookup_insert_eq; lia).
    destruct es as [| e2 es].
    + exists s1. split; [reflexivity |]. split; [exact Hok1 |].
      cbn [length map app]. split.
      * rewrite Hh1, insert_take_drop by lia.
        replace (j + 1)%nat with (S j) by lia. reflexivity.
      * rewrite Hi1, Hj. f_equal. lia.
    + assert (Hj1 : index s1 = Z.of_nat (S j)).
      { rewrite Hi1, Hj. cbn [length] in Hfit. rewrite Z.mod_small; lia. }
      destruct (IH s1 (S j) Hok1 Hj1) as (s' & Hs' & Hok' & Hh' & Hi').
      { rewrite Hh1, length_insert. cbn [length] in Hfit |- *. lia. }
      exists s'. split; [exact Hs' |]. split; [exact Hok' |]. split.
      * rewrite Hh', Hh1.
        rewrite (take_S_r _ j _ Hx), take_insert_ge by lia.
        rewrite drop_insert_lt by lia.
        cbn [map length]. rewrite <- !app_assoc. cbn [app].
        replace (S j + S (length es))%nat with (j + S (S (length es)))%nat
          by lia.
        reflexivity.
      * rewrite Hi', Hlive1. f_equal. cbn [length]. lia.
Qed.

(** X2: from the cursor the governor boots with (entry 0), as many
    decision steps as the buffer has entries, with no resize in between,
    leave the buffer holding exactly the samples of those steps, oldest
    first, and bring the cursor back to entry 0. *)
Theorem X2_window_fills_buffer (p : platform) (es : list sample_env)
    (s : state) :
  sampler_ok s ->
  index s = 0 ->
  length es = length (history s) ->
  exists s' : state,
    decision_steps p es s = Ok s'
    /\ history s' = map stored_sample es
    /\ index s' = 0.
Proof.
  intros Hok H0 Hlen.
  destruct (decision_steps_fill p es s 0 Hok H0) as (s' & Hs' & _ & Hh & Hi).
  - lia.
  - exists s'. split; [exact Hs' |].
    pose proof Hok as (_ & Hrange & _ & Hl & _).
    split.
    + rewrite Hh, take_0, drop_ge by lia. cbn [app]. apply app_nil_r.
    + rewrite Hi. cbn [Nat.add]. rewrite Hlen, Hl. apply Z.mod_same. lia.
Qed.

Lemma X2_window_fills_buffer_witness :
  sampler_ok booted
  /\ index booted = 0
  /\ exists s' : state,
       decision_steps quad (map sample [1; 2; 3; 4; 5; 6; 7; 8; 9; 10]) booted
       = Ok s'
       /\ history s' = [100; 200; 300; 400; 500; 600; 700; 800; 900; 1000]
       /\ index s' = 0.
Proof.
  pose proof booted_sampler_ok as H.
  split; [exact H |]. split; [reflexivity |].
  destruct (X2_window_fills_buffer quad
              (map sample [1; 2; 3; 4; 5; 6; 7; 8; 9; 10]) booted H
              eq_refl eq_refl) as (s' & Hs' & Hh & Hi).
  exists s'. split; [exact Hs' |]. split; [exact Hh | exact Hi].
Defined.

(** ** Tunables *)

Lemma store_same (t : tunable) (tn : tunables) :
  store_tunable t (read_tunable t tn) tn = tn.
Proof. destruct t, tn; reflexivity. Qed.

(** X3: a write of an integer inside the documented range succeeds, the
    tunable then reads back as that integer, and no other tunable
    changes. *)
Theorem X3_in_range_write_reads_back (p : platform) (t : tunable) (n : Z)
    (tn : tunables) :
  1 <= CPUS_AVAILABLE p < 2 ^ 31 ->
  in_documented_range p t n ->
  fst (write_tunable p t (Num n) tn) = 0
  /\ read_tunable t (snd (write_tunable p t (Num n) tn)) = n
  /\ forall t' : tunable,
       t' <> t ->
       read_tunable t' (snd (write_tunable p t (Num n) tn))
       = read_tunable t' tn.
Proof.
  intros Hc Hr. rewrite (write_in_range p t n tn Hr Hc). cbn [fst snd].
  split; [reflexivity |]. split.
  - destruct t; reflexivity.
  - intros t' Hne. destruct t, t'; try reflexivity; contradiction.
Qed.

Lemma X3_in_range_write_reads_back_witness :
  1 <= CPUS_AVAILABLE quad < 2 ^ 31
  /\ in_documented_range quad T_sampling_periods 25
  /\ sampling_periods
       (snd (write_tunable quad T_sampling_periods (Num 25) (tun booted)))
     = 25.
Proof.
  assert (Hc : 1 <= CPUS_AVAILABLE quad < 2 ^ 31) by (simpl; lia).
  assert (Hr : in_documented_range quad T_sampling_periods 25)
    by (unfold in_documented_range; simpl; lia).
  split; [exact Hc |]. split; [exact Hr |].
  apply (X3_in_range_write_reads_back quad T_sampling_periods 25
           (tun booted) Hc Hr).
Defined.

Ltac unfold_setters :=
  unfold write_tunable, set_enable_all_load_threshold,
    set_enable_load_threshold, set_disable_load_threshold,
    set_min_sampling_rate, set_sampling_periods, min_online_cpus_set,
    max_online_cpus_set, strict_strtol, param_set_int.

Ltac compare_cases :=
  repeat match goal with
         | |- context [?a >? ?b] => destruct (Z.gtb_spec a b)
         | |- context [?a <? ?b] => destruct (Z.ltb_spec a b)
         | |- context [?a =? ?b] => destruct (Z.eqb_spec a b)
         end.

(** One write, whatever its text, keeps every tunable inside its
    documented range. *)
Lemma write_keeps_ranges (p : platform) (t : tunable) (val : kparam)
    (tn : tunables) :
  1 <= CPUS_AVAILABLE p < 2 ^ 31 ->
  tunables_in_range p tn ->
  tunables_in_range p (snd (write_tunable p t val tn)).
Proof.
  intros Hc Hin.
  pose proof (Hin T_enable_all_load_threshold) as H1.
  pose proof (Hin T_enable_load_threshold) as H2.
  pose proof (Hin T_disable_load_threshold) as H3.
  pose proof (Hin T_min_sampling_rate) as H4.
  pose proof (Hin T_sampling_periods) as H5.
  pose proof (Hin T_min_online_cpus) as H6.
  pose proof (Hin T_max_online_cpus) as H7.
  unfold in_documented_range in H1, H2, H3, H4, H5, H6, H7.
  cbn in H1, H2, H3, H4, H5, H6, H7.
  intros t'. unfold in_documented_range.
  destruct val as [| | junk | n];
    try pose proof (u32_range n) as Hu;
    destruct t; unfold_setters; cbn [fst snd orb];
    compare_cases; cbn [fst snd orb];
    try rewrite (u32_small n) by lia;
    destruct t'; cbn; lia.
Qed.

(** X4: whatever is written to the parameters, in whatever order, every
    tunable that was inside its documented range stays inside it (the
    thresholds and periods because a bad write is refused, the cpu counts
    because a bad write stores the fallback). *)
Theorem X4_writes_keep_ranges (p : platform)
    (ws : list (tunable * kparam)) (tn : tunables) :
  1 <= CPUS_AVAILABLE p < 2 ^ 31 ->
  tunables_in_range p tn ->
  tunables_in_range p (write_all p ws tn).
Proof.
  intros Hc. revert tn.
  induction ws as [| [t val] ws IH]; intros tn Hin.
  - exact Hin.
  - cbn [write_all]. apply IH. apply write_keeps_ranges; assumption.
Qed.

Lemma booted_tunables_in_range : tunables_in_range quad (tun booted).
Proof.
  intros t. unfold in_documented_range. destruct t; vm_compute;
    split; discriminate.
Qed.

Lemma X4_writes_keep_ranges_witness :
  1 <= CPUS_AVAILABLE quad < 2 ^ 31
  /\ tunables_in_range quad (tun booted)
  /\ 5 <= sampling_periods
           (write_all quad [(T_sampling_periods, Num 3);
                            (T_max_online_cpus, Num 9);
                            (T_sampling_periods, Overflow 7)] (tun booted))
       <= 50.
Proof.
  assert (Hc : 1 <= CPUS_AVAILABLE quad < 2 ^ 31) by (simpl; lia).
  split; [exact Hc |]. split; [exact booted_tunables_in_range |].
  apply (X4_writes_keep_ranges quad
           [(T_sampling_periods, Num 3); (T_max_online_cpus, Num 9);
            (T_sampling_periods, Overflow 7)] (tun booted) Hc
           booted_tunables_in_range T_sampling_periods).
Defined.

(** X5: a write that is not an integer of the machine (no value, text
    that does not parse, a number too large for long) never changes a
    threshold or period tunable, and the setter reports an error:
    -EINVAL, except that a number too large for long gives -ERANGE when
    the stale content of the local [num] happens to lie inside the range
    of the tunable. *)
Theorem X5_non_integer_write_refused (p : platform) (t : tunable)
    (val : kparam) (tn : tunables) :
  range_checked t = true ->
  (forall n : Z, val <> Num n) ->
  fst (write_tunable p t val tn) < 0
  /\ snd (write_tunable p t val tn) = tn
  /\ fst (write_tunable p t val tn)
     = match val with
       | Overflow junk =>
         if (fst (documented_range p t) <=? junk)
            && (junk <=? snd (documented_range p t))
         then - ERANGE else - EINVAL
       | _ => - EINVAL
       end.
Proof.
  intros Ht Hval.
  assert (He1 : (- EINVAL =? - EINVAL) = true) by reflexivity.
  assert (He2 : (- ERANGE =? - EINVAL) = false) by reflexivity.
  assert (Hn1 : - EINVAL < 0) by (unfold EINVAL; lia).
  assert (Hn2 : - ERANGE < 0) by (unfold ERANGE; lia).
  destruct val as [| | junk | n]; [| | | exfalso; apply (Hval n); reflexivity];
    destruct t; try discriminate Ht; destruct tn;
    unfold write_tunable, set_enable_all_load_threshold,
      set_enable_load_threshold, set_disable_load_threshold,
      set_min_sampling_rate, set_sampling_periods, strict_strtol,
      param_set_int, documented_range;
    rewrite ?He1, ?He2; cbn [fst snd orb];
    repeat match goal with
           | |- context [?a >? ?b] => destruct (Z.gtb_spec a b)
           | |- context [?a <? ?b] => destruct (Z.ltb_spec a b)
           | |- context [?a <=? ?b] => destruct (Z.leb_spec a b)
           end;
    cbn [fst snd orb andb]; try lia;
    (split; [assumption | split; reflexivity]).
Qed.

Lemma X5_non_integer_write_refused_witness :
  range_checked T_min_sampling_rate = true
  /\ (forall n : Z, Overflow 20 <> Num n)
  /\ write_tunable quad T_min_sampling_rate (Overflow 20) (tun booted)
     = (- ERANGE, tun booted).
Proof.
  assert (H1 : range_checked T_min_sampling_rate = true) by reflexivity.
  assert (H2 : forall n : Z, Overflow 20 <> Num n) by (intros n; discriminate).
  split; [exact H1 |]. split; [exact H2 |].
  pose proof (X5_non_integer_write_refused quad T_min_sampling_rate
                (Overflow 20) (tun booted) H1 H2) as (_ & Hs & Hr).
  rewrite (surjective_pairing
             (write_tunable quad T_min_sampling_rate (Overflow 20)
                (tun booted))).
  rewrite Hs, Hr. reflexivity.
Defined.

(** ** The queue *)

Lemma pending_after_queue (w : work) (d : Z) (q : workqueue) :
  wq_pending w (wq_queue w d q) = true.
Proof.
  unfold wq_queue. destruct (wq_pending w q) eqn:E; [exact E |].
  unfold wq_pending, wq_set. destruct w; reflexivity.
Qed.

Lemma pending_queue_mono (w w' : work) (d : Z) (q : workqueue) :
  wq_pending w q = true -> wq_pending w (wq_queue w' d q) = true.
Proof.
  intros H. unfold wq_queue. destruct (wq_pending w' q) eqn:E; [exact H |].
  unfold wq_pending, wq_set in *.
  destruct (work_eqb w' w); [reflexivity | exact H].
Qed.

Lemma pending_cancel_other (w w' : work) (q : workqueue) :
  work_eqb w' w = false -> wq_pending w (wq_cancel w' q) = wq_pending w q.
Proof.
  intros H. unfold wq_cancel, wq_pending, wq_set. rewrite H. reflexivity.
Qed.

Lemma pending_after_cancel (w : work) (q : workqueue) :
  wq_pending w (wq_cancel w q) = false.
Proof. unfold wq_cancel, wq_pending, wq_set. destruct w; reflexivity. Qed.

(** Queueing any work that leads back to the decision step makes the
    sampler alive. *)
Lemma alive_after_queue (w : work) (d : Z) (s : state) :
  w = hotplug_decision_work \/ w = hotplug_online_all_work
  \/ w = hotplug_online_single_work \/ w = hotplug_offline_work ->
  sampler_alive (with_pending (wq_queue w d (pending s)) s).
Proof.
  unfold sampler_alive. cbn [pending with_pending].
  intros [-> | [-> | [-> | ->]]]; rewrite pending_after_queue; tauto.
Qed.

Lemma alive_cancel_other (w : work) (s : state) :
  w = hotplug_unpause_work \/ w = hotplug_offline_all_work ->
  sampler_alive s ->
  sampler_alive (with_pending (wq_cancel w (pending s)) s).
Proof.
  unfold sampler_alive. cbn [pending with_pending].
  intros [-> | ->] H; rewrite !pending_cancel_other by reflexivity; exact H.
Qed.

Lemma alive_queue_mono (w : work) (d : Z) (s : state) :
  sampler_alive s ->
  sampler_alive (with_pending (wq_queue w d (pending s)) s).
Proof.
  unfold sampler_alive. cbn [pending with_pending].
  intros [H | [H | [H | H]]];
    apply (pending_queue_mono _ w d) in H; rewrite H; tauto.
Qed.

Lemma alive_same_pending (s s' : state) :
  pending s' = pending s -> sampler_alive s -> sampler_alive s'.
Proof. unfold sampler_alive. intros ->. tauto. Qed.

(** Whatever it decides, the decision step leaves a way back to itself on
    the queue. *)
Lemma decide_alive (p : platform) (e : sample_env) (avg : Z) (s : state) :
  sampler_alive (decide p e avg s).
Proof.
  unfold decide, decide_enabled, rearm, schedule_work, schedule_delayed_work.
  split_ifs; apply alive_after_queue; tauto.
Qed.

Lemma step_keeps_alive (p : platform) (ev : event) (s s' : state) :
  stops_sampler ev = false ->
  sampler_alive s ->
  step p ev s = Ok s' ->
  sampler_alive s'.
Proof.
  intros Hstop Halive Hs. destruct ev; cbn [step] in Hs.
  - unfold run_work in Hs.
    destruct (wq_pending w (pending s)); [| injection Hs as <-; exact Halive].
    destruct w; cbn [work_fn] in Hs.
    + unfold hotplug_decision_work_fn in Hs.
      destruct (sample_load e _) as [r |]; [| discriminate Hs].
      cbn [bind] in Hs. injection Hs as <-. apply decide_alive.
    + injection Hs as <-. unfold hotplug_unpause_work_fn.
      apply (alive_same_pending
               (with_pending (wq_cancel hotplug_unpause_work (pending s)) s));
        [reflexivity |].
      apply alive_cancel_other; [tauto | exact Halive].
    + injection Hs as <-. unfold hotplug_online_all_work_fn.
      apply alive_after_queue. tauto.
    + injection Hs as <-. unfold hotplug_online_single_work_fn.
      apply alive_after_queue. tauto.
    + injection Hs as <-. unfold hotplug_offline_work_fn.
      apply alive_after_queue. tauto.
    + injection Hs as <-. unfold hotplug_offline_all_work_fn.
      apply (alive_same_pending
               (with_pending (wq_cancel hotplug_offline_all_work (pending s)) s));
        [reflexivity |].
      apply alive_cancel_other; [tauto | exact Halive].
  - injection Hs as <-. destruct flag; [discriminate Hstop |].
    unfold hotplug_disable. rewrite andb_false_l.
    destruct (flag_set HOTPLUG_DISABLED s); cbn [andb negb].
    + apply alive_after_queue. tauto.
    + exact Halive.
  - injection Hs as <-. unfold hotplug_boostpulse.
    destruct (negb _); [exact Halive |].
    destruct (_ && _); [| exact Halive].
    destruct (online_cpus <? 2).
    + unfold schedule_delayed_work at 1. apply alive_queue_mono.
      apply alive_after_queue. tauto.
    + destruct (delayed_work_pending _ _).
      * apply alive_after_queue. tauto.
      * exact Halive.
  - discriminate Hstop.
  - unfold auto_hotplug_late_resume in Hs.
    destruct (stack_the_deck _ _ _) as [h |]; [| discriminate Hs].
    cbn [bind] in Hs. injection Hs as <-.
    apply alive_after_queue. tauto.
  - injection Hs as <-. exact Halive.
Qed.

(** X6: the sampling loop sustains itself.  Once some work that leads
    back to the decision step is queued, it stays so through every entry
    into the driver that returns, except [hotplug_disable(true)] and early
    suspend: work functions, boost pulses, enabling, late resume and
    parameter writes never leave the governor without a next decision. *)
Theorem X6_sampler_stays_alive (p : platform) (evs : list event) :
  forall s s' : state,
    sampler_alive s ->
    Forall (fun ev => stops_sampler ev = false) evs ->
    run p evs s = Ok s' ->
    sampler_alive s'.
Proof.
  induction evs as [| ev evs IH]; intros s s' Halive Hall Hrun.
  - injection Hrun as <-. exact Halive.
  - cbn [run] in Hrun.
    destruct (step p ev s) as [s1 |] eqn:E; [| discriminate Hrun].
    cbn [bind] in Hrun.
    apply (IH s1 s'); [| exact (Forall_inv_tail Hall) | exact Hrun].
    apply (step_keeps_alive p ev s s1 (Forall_inv Hall) Halive E).
Qed.

Lemma X6_sampler_stays_alive_witness :
  sampler_alive booted
  /\ Forall (fun ev => stops_sampler ev = false) busy_run
  /\ exists s' : state,
       run quad busy_run booted = Ok s' /\ sampler_alive s'.
Proof.
  assert (Ha : sampler_alive booted) by (left; reflexivity).
  assert (Hall : Forall (fun ev => stops_sampler ev = false) busy_run)
    by (repeat constructor).
  split; [exact Ha |]. split; [exact Hall |].
  destruct (run quad busy_run booted) as [s' |] eqn:E;
    [| vm_compute in E; discriminate E].
  exists s'. split; [reflexivity |].
  exact (X6_sampler_stays_alive quad busy_run booted s' Ha Hall E).
Defined.

(** ** The cpus *)

Lemma resize_history_cpu_log (e : sample_env) (s : state) :
  cpu_log (resize_history e s) = cpu_log s.
Proof.
  unfold resize_history.
  destruct (_ =? _); [reflexivity |]. destruct (krealloc e); reflexivity.
Qed.

Lemma sample_load_cpu_log (e : sample_env) (s : state) (r : Z * state) :
  sample_load e s = Ok r -> cpu_log (snd r) = cpu_log s.
Proof.
  unfold sample_load. intros H.
  pose proof (resize_history_cpu_log e s) as Hc.
  destruct (hist_write _ _ _) as [h |]; [| discriminate H]. cbn [bind] in H.
  destruct (sum_history _ _ _ _ _) as [sum |]; [| discriminate H].
  cbn [bind] in H.
  destruct (_ =? 0); [discriminate H |].
  injection H as <-. cbn. exact Hc.
Qed.

Lemma In_firstn_sub {A : Type} (n : nat) (l : list A) (x : A) :
  In x (firstn n l) -> In x l.
Proof.
  revert l. induction n as [| n IH]; intros [| a l]; cbn; try tauto.
  intros [H | H]; [left; exact H | right; exact (IH l H)].
Qed.

(** Neither a list of [cpu_up] calls nor the [cpu_down] calls for cpus
    that pass the [cpu] test names [cpu_down 0]. *)
Lemma no_down0_in_ups (l : list nat) : ~ In (cpu_down 0) (map cpu_up l).
Proof.
  intros H. apply in_map_iff in H as (c & Hc & _). discriminate Hc.
Qed.

Lemma no_down0_in_downs (mask : list bool) (n : nat) (l : list nat) :
  ~ In (cpu_down 0)
      (map cpu_down
         (firstn n (List.filter (fun c => cpu_online mask c && nonzero c) l))).
Proof.
  intros H. apply in_map_iff in H as (c & Hc & Hin).
  injection Hc as ->. apply In_firstn_sub in Hin.
  apply filter_In in Hin as [_ Hf].
  rewrite andb_comm in Hf. discriminate Hf.
Qed.

Lemma no_down0_in_all_downs (mask : list bool) (l : list nat) :
  ~ In (cpu_down 0)
      (map cpu_down
         (List.filter (fun c => cpu_online mask c && nonzero c) l)).
Proof.
  intros H. apply in_map_iff in H as (c & Hc & Hin).
  injection Hc as ->.
  apply filter_In in Hin as [_ Hf].
  rewrite andb_comm in Hf. discriminate Hf.
Qed.

Lemma calls_keep_cpu_log (p : platform) (s : state) :
  (forall flag : bool, cpu_log (hotplug_disable flag s) = cpu_log s)
  /\ (forall n : Z, cpu_log (hotplug_boostpulse p n s) = cpu_log s)
  /\ (forall n : Z, cpu_log (auto_hotplug_early_suspend n s) = cpu_log s).
Proof.
  split; [| split]; intros x.
  - unfold hotplug_disable. split_ifs; reflexivity.
  - unfold hotplug_boostpulse. split_ifs; reflexivity.
  - unfold auto_hotplug_early_suspend. split_ifs; reflexivity.
Qed.

Lemma step_keeps_cpu0 (p : platform) (ev : event) (s s' : state) :
  cpu0_never_down s ->
  step p ev s = Ok s' ->
  cpu0_never_down s'.
Proof.
  unfold cpu0_never_down. intros H0 Hs.
  destruct (calls_keep_cpu_log p s) as (Hd & Hb & He).
  destruct ev as [w e m | flag | n | n | | t val]; cbn [step] in Hs.
  - unfold run_work in Hs.
    destruct (wq_pending w (pending s)); [| injection Hs as <-; exact H0].
    destruct w; cbn [work_fn] in Hs.
    + unfold hotplug_decision_work_fn in Hs.
      destruct (sample_load e _) as [r |] eqn:E; [| discriminate Hs].
      cbn [bind] in Hs. injection Hs as <-.
      destruct (decide_frame p e (fst r) (snd r)) as (_ & _ & _ & _ & _ & Hc).
      rewrite Hc, (sample_load_cpu_log e _ r E). exact H0.
    + injection Hs as <-. exact H0.
    + injection Hs as <-. cbn. intros Hin.
      apply in_app_or in Hin as [Hin | Hin];
        [exact (H0 Hin) | exact (no_down0_in_ups _ Hin)].
    + injection Hs as <-. cbn. intros Hin.
      apply in_app_or in Hin as [Hin | Hin];
        [exact (H0 Hin) | exact (no_down0_in_ups _ Hin)].
    + injection Hs as <-. cbn. intros Hin.
      apply in_app_or in Hin as [Hin | Hin];
        [exact (H0 Hin) | exact (no_down0_in_downs m 1 _ Hin)].
    + injection Hs as <-. cbn. intros Hin.
      apply in_app_or in Hin as [Hin | Hin];
        [exact (H0 Hin) | exact (no_down0_in_all_downs m _ Hin)].
  - injection Hs as <-. rewrite Hd. exact H0.
  - injection Hs as <-. rewrite Hb. exact H0.
  - injection Hs as <-. rewrite He. exact H0.
  - unfold auto_hotplug_late_resume in Hs.
    destruct (stack_the_deck _ _ _) as [h |]; [| discriminate Hs].
    cbn [bind] in Hs. injection Hs as <-. exact H0.
  - injection Hs as <-. exact H0.
Qed.

(** X7: the governor never takes core 0 down.  Whatever the events, the
    online masks and the samples, if the log of cpu calls holds no
    [cpu_down(0)] before a run it holds none after it. *)
Theorem X7_core0_never_taken_down (p : platform) (evs : list event) :
  forall s s' : state,
    cpu0_never_down s ->
    run p evs s = Ok s' ->
    cpu0_never_down s'.
Proof.
  induction evs as [| ev evs IH]; intros s s' H0 Hrun.
  - injection Hrun as <-. exact H0.
  - cbn [run] in Hrun.
    destruct (step p ev s) as [s1 |] eqn:E; [| discriminate Hrun].
    cbn [bind] in Hrun.
    apply (IH s1 s'); [| exact Hrun].
    apply (step_keeps_cpu0 p ev s s1 H0 E).
Qed.

Lemma X7_core0_never_taken_down_witness :
  cpu0_never_down booted
  /\ exists s' : state,
       run quad suspend_run booted = Ok s'
       /\ cpu_log s' = [cpu_down 1; cpu_down 2; cpu_down 3]
       /\ cpu0_never_down s'.
Proof.
  assert (H0 : cpu0_never_down booted) by (intros H; exact H).
  split; [exact H0 |].
  destruct (run quad suspend_run booted) as [s' |] eqn:E;
    [| vm_compute in E; discriminate E].
  exists s'. split; [reflexivity |].
  split; [vm_compute in E; injection E as <-; reflexivity |].
  exact (X7_core0_never_taken_down quad suspend_run booted s' H0 E).
Defined.

Lemma pending_queue_other (w w' : work) (d : Z) (q : workqueue) :
  work_eqb w' w = false -> wq_pending w (wq_queue w' d q) = wq_pending w q.
Proof.
  intros H. unfold wq_queue. destruct (wq_pending w' q); [reflexivity |].
  unfold wq_pending, wq_set. rewrite H. reflexivity.
Qed.


(** ** Boost pulses *)

Lemma boostpulse_off (p : platform) (n : Z) (s : state) :
  flag_set HOTPLUG_DISABLED s = true \/ flag_set EARLYSUSPEND_ACTIVE s = true ->
  hotplug_boostpulse p n s = s.
Proof.
  intros H. unfold hotplug_boostpulse. rewrite suspend_or_disabled.
  destruct H as [-> | ->]; cbn [negb andb]; rewrite ?andb_false_r; reflexivity.
Qed.

Ltac flags_through :=
  flag_bits;
  repeat first [ rewrite flag_set_with_pending | flag_step ];
  try reflexivity; try assumption.

(** X8: a boost pulse that is accepted (governor neither disabled nor
    suspended, BoostActive clear, fewer cpus online than max_online_cpus)
    sets BoostActive and leaves no offline work on the queue.  With fewer
    than two cpus online it also pauses the governor and queues the
    online-single and the unpause work; with two or more online and an
    offline work pending it pauses the governor and queues the unpause
    and the decision work.  It makes no cpu call itself. *)
Theorem X8_accepted_boost_blocks_offline (p : platform) (n : Z) (s : state) :
  flag_set HOTPLUG_DISABLED s = false ->
  flag_set EARLYSUSPEND_ACTIVE s = false ->
  flag_set BOOSTPULSE_ACTIVE s = false ->
  n < max_online_cpus (tun s) ->
  let s1 := hotplug_boostpulse p n s in
  flag_set BOOSTPULSE_ACTIVE s1 = true
  /\ wq_pending hotplug_offline_work (pending s1) = false
  /\ (n < 2 ->
      flag_set HOTPLUG_PAUSED s1 = true
      /\ wq_pending hotplug_online_single_work (pending s1) = true
      /\ wq_pending hotplug_unpause_work (pending s1) = true)
  /\ (2 <= n -> wq_pending hotplug_offline_work (pending s) = true ->
      flag_set HOTPLUG_PAUSED s1 = true
      /\ wq_pending hotplug_unpause_work (pending s1) = true
      /\ wq_pending hotplug_decision_work (pending s1) = true)
  /\ cpu_log s1 = cpu_log s.
Proof.
  intros Hd He Hb Hn. cbn zeta.
  unfold hotplug_boostpulse.
  rewrite suspend_or_disabled, He, Hd, Hb. cbn [negb andb].
  destruct (Z.gtb_spec (max_online_cpus (tun s)) n) as [_ | Hle]; [| lia].
  destruct (Z.ltb_spec n 2) as [Hlt | Hge].
  - unfold schedule_delayed_work, schedule_work, cancel_delayed_work_sync.
    split.
    { flags_through. }
    split.
    { cbn [pending with_pending set_flag with_flags].
      rewrite !pending_queue_other by reflexivity.
      apply pending_after_cancel. }
    split.
    { intros _. split.
      - flags_through.
      - cbn [pending with_pending set_flag with_flags]. split.
        + apply pending_queue_mono. apply pending_after_queue.
        + apply pending_after_queue. }
    split; [intros; lia | reflexivity].
  - unfold delayed_work_pending.
    change (pending (set_flag BOOSTPULSE_ACTIVE s)) with (pending s).
    destruct (wq_pending hotplug_offline_work (pending s)) eqn:Eoff.
    + unfold schedule_delayed_work, cancel_delayed_work.
      split.
      { flags_through. }
      split.
      { cbn [pending with_pending set_flag with_flags].
        rewrite !pending_queue_other by reflexivity.
        apply pending_after_cancel. }
      split; [intros; lia |].
      split; [| reflexivity].
      intros _ _. split.
      * flags_through.
      * cbn [pending with_pending set_flag with_flags]. split.
        -- apply pending_queue_mono. apply pending_after_queue.
        -- apply pending_after_queue.
    + split; [apply boost_after_set_boost |].
      split; [exact Eoff |].
      split; [intros; lia |].
      split; [intros _ H; discriminate H | reflexivity].
Qed.

Lemma X8_accepted_boost_blocks_offline_witness :
  flag_set HOTPLUG_DISABLED booted = false
  /\ flag_set EARLYSUSPEND_ACTIVE booted = false
  /\ flag_set BOOSTPULSE_ACTIVE booted = false
  /\ 1 < max_online_cpus (tun booted)
  /\ flag_set BOOSTPULSE_ACTIVE (hotplug_boostpulse quad 1 booted) = true
  /\ wq_pending hotplug_online_single_work
       (pending (hotplug_boostpulse quad 1 booted)) = true.
Proof.
  assert (H1 : flag_set HOTPLUG_DISABLED booted = false)
    by (vm_compute; reflexivity).
  assert (H2 : flag_set EARLYSUSPEND_ACTIVE booted = false)
    by (vm_compute; reflexivity).
  assert (H3 : flag_set BOOSTPULSE_ACTIVE booted = false)
    by (vm_compute; reflexivity).
  assert (H4 : 1 < max_online_cpus (tun booted)) by (vm_compute; reflexivity).
  pose proof (X8_accepted_boost_blocks_offline quad 1 booted H1 H2 H3 H4) as H.
  cbv zeta in H. destruct H as (Hb & _ & Hone & _).
  split; [exact H1 |]. split; [exact H2 |]. split; [exact H3 |].
  split; [exact H4 |]. split; [exact Hb |].
  apply Hone. lia.
Defined.

(** ** Suspend and resume *)

Lemma stack_the_deck_fits (n : nat) :
  forall (h : list Z) (j : nat),
    (j + n <= length h)%nat ->
    stack_the_deck (Z.of_nat j) n h
    = Ok (take j h ++ replicate n 500 ++ drop (j + n) h).
Proof.
  induction n as [| n IH]; intros h j Hfit.
  - cbn [stack_the_deck replicate app]. rewrite Nat.add_0_r, take_drop.
    reflexivity.
  - cbn [stack_the_deck]. rewrite hist_write_in by lia. cbn [bind].
    rewrite Nat2Z.id.
    replace (Z.of_nat j + 1) with (Z.of_nat (S j)) by lia.
    rewrite IH by (rewrite length_insert; lia).
    assert (Hx : (<[j := 500]> h) !! j = Some 500)
      by (apply list_lookup_insert_eq; lia).
    rewrite (take_S_r _ j _ Hx), take_insert_ge by lia.
    rewrite drop_insert_lt by lia.
    cbn [replicate]. rewrite <- !app_assoc. cbn [app].
    replace (S j + n)%nat with (j + S n)%nat by lia. reflexivity.
Qed.

Lemma stack_the_deck_short (n : nat) :
  forall (h : list Z) (j : nat),
    (j <= length h < j + n)%nat ->
    stack_the_deck (Z.of_nat j) n h
    = Fault (OutOfBounds (Z.of_nat (length h))).
Proof.
  induction n as [| n IH]; intros h j Hfit; [lia |].
  cbn [stack_the_deck]. unfold hist_write.
  destruct (Nat.eq_dec j (length h)) as [-> | Hne].
  - unfold block_get. destruct (Z.ltb_spec (Z.of_nat (length h))
                                  (Z.of_nat (length h))); [lia |].
    rewrite andb_false_r. reflexivity.
  - fold (hist_write h (Z.of_nat j) 500).
    rewrite hist_write_in by lia. cbn [bind].
    rewrite Nat2Z.id.
    replace (Z.of_nat j + 1) with (Z.of_nat (S j)) by lia.
    rewrite IH by (rewrite length_insert; lia).
    rewrite length_insert. reflexivity.
Qed.

(** What late resume does on a block of at least five entries. *)
Lemma late_resume_shape (p : platform) (s : state) :
  (5 <= length (history s))%nat ->
  exists s' : state,
    auto_hotplug_late_resume p s = Ok s'
    /\ history s' = replicate 5 500 ++ drop 5 (history s)
    /\ length (history s') = length (history s)
    /\ index s' = index s
    /\ flag_set EARLYSUSPEND_ACTIVE s' = false
    /\ wq_pending hotplug_decision_work (pending s') = true
    /\ (wq_pending hotplug_decision_work (pending s) = false ->
        pending s' hotplug_decision_work = Some (HZ p / 2))
    /\ cpu_log s' = cpu_log s /\ tun s' = tun s
    /\ live_sampling_periods s' = live_sampling_periods s
    /\ index_max_value s' = index_max_value s.
Proof.
  intros Hlen. unfold auto_hotplug_late_resume.
  change (history (clear_flag EARLYSUSPEND_ACTIVE s)) with (history s).
  pose proof (stack_the_deck_fits 5 (history s) 0) as Hd.
  change (Z.of_nat 0) with 0 in Hd. change (0 + 5)%nat with 5%nat in Hd.
  rewrite take_0 in Hd.
  rewrite Hd by exact Hlen. cbn [bind app].
  eexists. split; [reflexivity |].
  split; [reflexivity |].
  split.
  { cbn [history schedule_delayed_work with_pending with_history].
    rewrite length_app, length_replicate, length_drop. lia. }
  split; [reflexivity |].
  split.
  { unfold schedule_delayed_work. rewrite flag_set_with_pending.
    change (flag_set EARLYSUSPEND_ACTIVE
              (clear_flag EARLYSUSPEND_ACTIVE s) = false).
    flag_bits. flag_step. reflexivity. }
  split; [apply pending_after_queue |].
  split; [| repeat split].
  intros Hnp. unfold schedule_delayed_work, wq_queue.
  cbn [pending with_pending with_history clear_flag with_flags].
  rewrite Hnp. reflexivity.
Qed.


(** X9: late resume on a block of at least five entries returns; it
    overwrites the first five samples with 500 and leaves the rest of
    the block, its length and the cursor alone, clears EarlySuspend and
    leaves the decision work queued (with a delay of HZ/2 when it was not
    queued before).  It makes no cpu call. *)
Theorem X9_late_resume_preloads_history (p : platform) (s : state) :
  (5 <= length (history s))%nat ->
  exists s' : state,
    auto_hotplug_late_resume p s = Ok s'
    /\ history s' = replicate 5 500 ++ drop 5 (history s)
    /\ length (history s') = length (history s)
    /\ index s' = index s
    /\ flag_set EARLYSUSPEND_ACTIVE s' = false
    /\ wq_pending hotplug_decision_work (pending s') = true
    /\ (wq_pending hotplug_decision_work (pending s) = false ->
        pending s' hotplug_decision_work = Some (HZ p / 2))
    /\ cpu_log s' = cpu_log s.
Proof.
  intros Hlen.
  destruct (late_resume_shape p s Hlen)
    as (s' & H1 & H2 & H3 & H4 & H5 & H6 & H7 & H8 & _).
  exists s'. repeat split; assumption.
Qed.

Lemma X9_late_resume_preloads_history_witness :
  (5 <= length (history booted))%nat
  /\ exists s' : state,
       auto_hotplug_late_resume quad booted = Ok s'
       /\ history s' = [500; 500; 500; 500; 500; 0; 0; 0; 0; 0].
Proof.
  assert (H : (5 <= length (history booted))%nat) by (vm_compute; lia).
  split; [exact H |].
  destruct (X9_late_resume_preloads_history quad booted H)
    as (s' & Hs' & Hh & _).
  exists s'. split; [exact Hs' | exact Hh].
Defined.


(** ** The disabled governor *)

Lemma decide_disabled (p : platform) (e : sample_env) (avg : Z) (s : state) :
  flag_set HOTPLUG_DISABLED s = true ->
  decide p e avg s
  = schedule_delayed_work hotplug_decision_work
      (u32 (msecs_to_jiffies (HZ p) (min_sampling_rate (tun s))
            * (num_online_cpus e * num_online_cpus e))) s.
Proof. intros H. unfold decide. rewrite H. reflexivity. Qed.

Lemma no_cpu_work_queue_decision (d : Z) (s s' : state) :
  pending s' = wq_queue hotplug_decision_work d (pending s) ->
  no_cpu_work s -> no_cpu_work s'.
Proof.
  unfold no_cpu_work. intros ->.
  rewrite !pending_queue_other by reflexivity. tauto.
Qed.

Lemma no_cpu_work_cancel (w : work) (s s' : state) :
  pending s' = wq_cancel w (pending s) ->
  no_cpu_work s -> no_cpu_work s'.
Proof.
  unfold no_cpu_work. intros -> (H1 & H2 & H3 & H4).
  unfold wq_cancel, wq_pending, wq_set in *.
  destruct w; cbn; auto.
Qed.

Lemma disabled_step (p : platform) (ev : event) (s s' : state) :
  keeps_disabled ev = true ->
  flag_set HOTPLUG_DISABLED s = true ->
  no_cpu_work s ->
  step p ev s = Ok s' ->
  flag_set HOTPLUG_DISABLED s' = true
  /\ no_cpu_work s'
  /\ cpu_log s' = cpu_log s.
Proof.
  intros Hk Hd Hn Hs.
  destruct ev as [w e m | flag | n | n | | t val]; cbn [step] in Hs.
  - unfold run_work in Hs.
    destruct (wq_pending w (pending s)) eqn:Ep;
      [| injection Hs as <-; auto].
    set (s0 := with_pending (wq_cancel w (pending s)) s) in Hs.
    assert (Hn0 : no_cpu_work s0)
      by (apply (no_cpu_work_cancel w s); [reflexivity | exact Hn]).
    destruct Hn as (H1 & H2 & H3 & H4).
    destruct w; cbn [work_fn] in Hs; try congruence.
    + unfold hotplug_decision_work_fn in Hs.
      destruct (sample_load e s0) as [r |] eqn:E; [| discriminate Hs].
      cbn [bind] in Hs. injection Hs as <-.
      destruct (sample_load_frame e s0 r E) as (Hf & Ht & Hp).
      pose proof (sample_load_cpu_log e s0 r E) as Hc.
      assert (Hdr : flag_set HOTPLUG_DISABLED (snd r) = true)
        by (rewrite (flag_set_same_flags _ s0 (snd r) Hf); exact Hd).
      rewrite (decide_disabled p e (fst r) (snd r) Hdr).
      split; [exact Hdr |]. split; [| exact Hc].
      eapply (no_cpu_work_queue_decision _ s0); [| exact Hn0].
      unfold schedule_delayed_work. cbn [pending with_pending].
      rewrite Hp. reflexivity.
    + injection Hs as <-. unfold hotplug_unpause_work_fn.
      split; [| split; [exact Hn0 | reflexivity]].
      change (flag_set HOTPLUG_DISABLED (clear_flag HOTPLUG_PAUSED s) = true).
      flag_bits. flag_step. exact Hd.
  - injection Hs as <-. cbn [keeps_disabled] in Hk. subst flag.
    unfold hotplug_disable. rewrite Hd. cbn [negb andb]. auto.
  - injection Hs as <-. rewrite boostpulse_off by (left; exact Hd). auto.
  - injection Hs as <-. cbn [keeps_disabled] in Hk.
    unfold auto_hotplug_early_suspend.
    destruct (Z.gtb_spec n 1) as [Hgt | _]; [apply Z.leb_le in Hk; lia |].
    unfold cancel_delayed_work_sync.
    split; [| split; [| reflexivity]].
    + rewrite !flag_set_with_pending. flag_bits. flag_step. exact Hd.
    + eapply (no_cpu_work_cancel hotplug_decision_work); [reflexivity |].
      eapply (no_cpu_work_cancel hotplug_offline_work); [reflexivity |].
      exact Hn.
  - unfold auto_hotplug_late_resume in Hs.
    destruct (stack_the_deck _ _ _) as [h |]; [| discriminate Hs].
    cbn [bind] in Hs. injection Hs as <-.
    unfold schedule_delayed_work.
    split; [| split; [| reflexivity]].
    + rewrite flag_set_with_pending.
      change (flag_set HOTPLUG_DISABLED (clear_flag EARLYSUSPEND_ACTIVE s)
              = true).
      flag_bits. flag_step. exact Hd.
    + eapply (no_cpu_work_queue_decision _ s); [reflexivity | exact Hn].
  - injection Hs as <-. auto.
Qed.

(** X10: a disabled governor does no hotplugging.  With Disabled set and
    no cpu work on the queue, no entry into the driver other than
    [hotplug_disable(false)] and an early suspend that finds more than
    one cpu online makes a cpu call or queues cpu work, and Disabled stays
    set: decision steps only re-arm themselves, boost pulses return at
    once. *)
Theorem X10_disabled_governor_is_idle (p : platform) (evs : list event) :
  forall s s' : state,
    flag_set HOTPLUG_DISABLED s = true ->
    no_cpu_work s ->
    Forall (fun ev => keeps_disabled ev = true) evs ->
    run p evs s = Ok s' ->
    cpu_log s' = cpu_log s
    /\ flag_set HOTPLUG_DISABLED s' = true
    /\ no_cpu_work s'.
Proof.
  induction evs as [| ev evs IH]; intros s s' Hd Hn Hall Hrun.
  - injection Hrun as <-. auto.
  - cbn [run] in Hrun.
    destruct (step p ev s) as [s1 |] eqn:E; [| discriminate Hrun].
    cbn [bind] in Hrun.
    destruct (disabled_step p ev s s1 (Forall_inv Hall) Hd Hn E)
      as (Hd1 & Hn1 & Hc1).
    destruct (IH s1 s' Hd1 Hn1 (Forall_inv_tail Hall) Hrun)
      as (Hc & Hd' & Hn').
    split; [congruence | auto].
Qed.

Lemma X10_disabled_governor_is_idle_witness :
  flag_set HOTPLUG_DISABLED (hotplug_disable true booted) = true
  /\ no_cpu_work (hotplug_disable true booted)
  /\ Forall (fun ev => keeps_disabled ev = true) disabled_run
  /\ exists s' : state,
       run quad disabled_run (hotplug_disable true booted) = Ok s'
       /\ cpu_log s' = []
       /\ flag_set HOTPLUG_DISABLED s' = true.
Proof.
  assert (Hd : flag_set HOTPLUG_DISABLED (hotplug_disable true booted) = true)
    by (vm_compute; reflexivity).
  assert (Hn : no_cpu_work (hotplug_disable true booted))
    by (repeat split).
  assert (Hall : Forall (fun ev => keeps_disabled ev = true) disabled_run)
    by (repeat constructor).
  split; [exact Hd |]. split; [exact Hn |]. split; [exact Hall |].
  destruct (run quad disabled_run (hotplug_disable true booted))
    as [s' |] eqn:E; [| vm_compute in E; discriminate E].
  exists s'. split; [reflexivity |].
  destruct (X10_disabled_governor_is_idle quad disabled_run
              (hotplug_disable true booted) s' Hd Hn Hall E)
    as (Hc & Hd' & _).
  split; [exact Hc | exact Hd'].
Defined.

(** X11: disabling an enabled governor and enabling it again leaves
    Disabled and Paused clear, the decision work queued to run at once,
    no offline and no unpause work queued, and everything else (the other
    two flags, the other work items, tunables, history, cpu calls) as it
    was.  Enabling a governor that is not disabled changes nothing. *)
Theorem X11_disable_then_enable (s : state) :
  flag_set HOTPLUG_DISABLED s = false ->
  let s2 := hotplug_disable false (hotplug_disable true s) in
  hotplug_disable false s = s
  /\ flag_set HOTPLUG_DISABLED s2 = false
  /\ flag_set HOTPLUG_PAUSED s2 = false
  /\ flag_set BOOSTPULSE_ACTIVE s2 = flag_set BOOSTPULSE_ACTIVE s
  /\ flag_set EARLYSUSPEND_ACTIVE s2 = flag_set EARLYSUSPEND_ACTIVE s
  /\ pending s2 hotplug_decision_work = Some 0
  /\ pending s2 hotplug_offline_work = None
  /\ pending s2 hotplug_unpause_work = None
  /\ pending s2 hotplug_online_all_work = pending s hotplug_online_all_work
  /\ pending s2 hotplug_online_single_work
     = pending s hotplug_online_single_work
  /\ pending s2 hotplug_offline_all_work = pending s hotplug_offline_all_work
  /\ tun s2 = tun s /\ history s2 = history s /\ index s2 = index s
  /\ cpu_log s2 = cpu_log s.
Proof.
  intros Hd. cbn zeta.
  set (q1 := wq_cancel hotplug_unpause_work
               (wq_cancel hotplug_decision_work
                  (wq_cancel hotplug_offline_work (pending s)))).
  assert (H1 : hotplug_disable true s
               = with_pending q1 (set_flag HOTPLUG_DISABLED s)).
  { unfold hotplug_disable. rewrite Hd. reflexivity. }
  assert (H2 : hotplug_disable false
                 (with_pending q1 (set_flag HOTPLUG_DISABLED s))
               = with_pending (wq_queue hotplug_decision_work 0 q1)
                   (clear_flag HOTPLUG_PAUSED
                      (clear_flag HOTPLUG_DISABLED
                         (set_flag HOTPLUG_DISABLED s)))).
  { unfold hotplug_disable.
    rewrite flag_set_with_pending, disabled_after_set_disabled.
    reflexivity. }
  split.
  { unfold hotplug_disable. rewrite Hd. reflexivity. }
  rewrite H1, H2.
  repeat split; flags_through.
Qed.

Lemma X11_disable_then_enable_witness :
  flag_set HOTPLUG_DISABLED booted = false
  /\ flag_set HOTPLUG_PAUSED booted = true
  /\ flag_set HOTPLUG_PAUSED
       (hotplug_disable false (hotplug_disable true booted)) = false
  /\ pending (hotplug_disable false (hotplug_disable true booted))
       hotplug_decision_work = Some 0.
Proof.
  assert (H : flag_set HOTPLUG_DISABLED booted = false)
    by (vm_compute; reflexivity).
  split; [exact H |]. split; [vm_compute; reflexivity |].
  pose proof (X11_disable_then_enable booted H) as Hx.
  cbv zeta in Hx. destruct Hx as (_ & _ & Hp & _ & _ & Hq & _).
  split; [exact Hp | exact Hq].
Defined.

(** ** Which cpu the single-step works pick *)

(** The first cpu of [a .. a+n-1] that passes [f], if there is one. *)
Lemma first_match_seq (f : nat -> bool) (n : nat) :
  forall a : nat,
    (firstn 1 (List.filter f (seq a n)) = []
     /\ forall c : nat, (a <= c < a + n)%nat -> f c = false)
    \/ exists c : nat,
         (a <= c < a + n)%nat /\ f c = true
         /\ (forall c' : nat, (a <= c' < c)%nat -> f c' = false)
         /\ firstn 1 (List.filter f (seq a n)) = [c].
Proof.
  induction n as [| n IH]; intros a.
  - left. split; [reflexivity | intros c Hc; lia].
  - cbn [seq List.filter]. destruct (f a) eqn:Ea.
    + right. exists a. split; [lia |]. split; [exact Ea |].
      split; [intros c' Hc'; lia | reflexivity].
    + destruct (IH (S a)) as [[Hnil Hall] | (c & Hc & Hf & Hlow & Hone)].
      * left. split; [exact Hnil |]. intros c Hc.
        destruct (Nat.eq_dec c a) as [-> | Hne]; [exact Ea |].
        apply Hall. lia.
      * right. exists c. split; [lia |]. split; [exact Hf |].
        split; [| exact Hone]. intros c' Hc'.
        destruct (Nat.eq_dec c' a) as [-> | Hne]; [exact Ea |].
        apply Hlow. lia.
Qed.

(** X12: the offline work takes down at most one cpu: the lowest-numbered
    online cpu other than core 0, or none when core 0 is the only possible
    cpu online.  Either way it queues the decision work again. *)
Theorem X12_offline_takes_lowest_cpu (p : platform) (m : list bool)
    (s : state) :
  let s' := hotplug_offline_work_fn p m s in
  let cpus := Z.to_nat (CPUS_AVAILABLE p) in
  wq_pending hotplug_decision_work (pending s') = true
  /\ ((cpu_log s' = cpu_log s
       /\ forall c : nat, (0 < c < cpus)%nat -> cpu_online m c = false)
      \/ exists c : nat,
           (0 < c < cpus)%nat /\ cpu_online m c = true
           /\ (forall c' : nat, (0 < c' < c)%nat -> cpu_online m c' = false)
           /\ cpu_log s' = cpu_log s ++ [cpu_down c]).
Proof.
  cbn zeta. unfold hotplug_offline_work_fn, schedule_delayed_work.
  cbn [pending with_pending cpu_log log_cpu].
  split; [apply pending_after_queue |].
  unfold possible_cpus.
  destruct (first_match_seq (fun c => cpu_online m c && nonzero c)
              (Z.to_nat (CPUS_AVAILABLE p)) 0)
    as [[Hnil Hall] | (c & Hc & Hf & Hlow & Hone)].
  - left. rewrite Hnil. cbn [map]. split; [apply app_nil_r |].
    intros c Hc. specialize (Hall c ltac:(lia)).
    apply andb_false_iff in Hall as [Hoff | Hz]; [exact Hoff |].
    unfold nonzero in Hz. destruct c; [lia | discriminate Hz].
  - right. exists c. apply andb_true_iff in Hf as [Hon Hnz].
    assert (c <> 0%nat) by (intros ->; discriminate Hnz).
    split; [lia |]. split; [exact Hon |]. split.
    + intros c' Hc'. specialize (Hlow c' ltac:(lia)).
      apply andb_false_iff in Hlow as [Hoff | Hz]; [exact Hoff |].
      unfold nonzero in Hz. destruct c'; [lia | discriminate Hz].
    + rewrite Hone. reflexivity.
Qed.

(** X13: the online-single work brings up at most one cpu: the
    lowest-numbered offline cpu other than core 0, or none when every
    possible cpu is online.  Either way it queues the decision work
    again. *)
Theorem X13_online_single_brings_lowest_cpu (p : platform) (m : list bool)
    (s : state) :
  let s' := hotplug_online_single_work_fn p m s in
  let cpus := Z.to_nat (CPUS_AVAILABLE p) in
  wq_pending hotplug_decision_work (pending s') = true
  /\ ((cpu_log s' = cpu_log s
       /\ forall c : nat, (0 < c < cpus)%nat -> cpu_online m c = true)
      \/ exists c : nat,
           (0 < c < cpus)%nat /\ cpu_online m c = false
           /\ (forall c' : nat, (0 < c' < c)%nat -> cpu_online m c' = true)
           /\ cpu_log s' = cpu_log s ++ [cpu_up c]).
Proof.
  cbn zeta. unfold hotplug_online_single_work_fn, schedule_delayed_work.
  cbn [pending with_pending cpu_log log_cpu].
  split; [apply pending_after_queue |].
  unfold possible_cpus.
  destruct (first_match_seq (fun c => nonzero c && negb (cpu_online m c))
              (Z.to_nat (CPUS_AVAILABLE p)) 0)
    as [[Hnil Hall] | (c & Hc & Hf & Hlow & Hone)].
  - left. rewrite Hnil. cbn [map]. split; [apply app_nil_r |].
    intros c Hc. specialize (Hall c ltac:(lia)).
    apply andb_false_iff in Hall as [Hz | Hon].
    + unfold nonzero in Hz. destruct c; [lia | discriminate Hz].
    + apply negb_false_iff in Hon. exact Hon.
  - right. exists c. apply andb_true_iff in Hf as [Hnz Hoff].
    apply negb_true_iff in Hoff.
    assert (c <> 0%nat) by (intros ->; discriminate Hnz).
    split; [lia |]. split; [exact Hoff |]. split.
    + intros c' Hc'. specialize (Hlow c' ltac:(lia)).
      apply andb_false_iff in Hlow as [Hz | Hon].
      * unfold nonzero in Hz. destruct c'; [lia | discriminate Hz].
      * apply negb_false_iff in Hon. exact Hon.
    + rewrite Hone. reflexivity.
Qed.

(** ** Boot, and running without a resize *)

Lemma length_kmalloc (n : Z) (content : nat -> Z) :
  length (kmalloc n (KmBlock content)) = Z.to_nat n.
Proof. unfold kmalloc. rewrite length_map, length_seq. reflexivity. Qed.

(** X14: on a platform of three to five possible cpus
    [auto_hotplug_init] leaves the governor paused and not disabled, the
    cursor on entry 0, every tunable inside its documented range, the
    decision work queued and no cpu call made, whether or not the
    allocation of the history block succeeded (the pointer is not
    tested).  If it succeeded, whatever the fresh block holds, the block
    has ten entries and no resize is outstanding.  If it failed, the
    history is NULL and the first decision work faults on its first store
    (entry 0). *)
Theorem X14_boot_state (p : platform) (alloc : kmalloc_ret) :
  3 <= CPUS_AVAILABLE p <= 5 ->
  let s := auto_hotplug_init p alloc in
  index s = 0
  /\ tunables_in_range p (tun s)
  /\ flag_set HOTPLUG_PAUSED s = true
  /\ flag_set HOTPLUG_DISABLED s = false
  /\ sampler_alive s
  /\ cpu_log s = []
  /\ match alloc with
     | KmBlock _ => sampler_steady s /\ length (history s) = 10%nat
     | KmNull =>
       history s = []
       /\ forall (e : sample_env) (m : list bool),
            step p (RunWork hotplug_decision_work e m) s
            = Fault (OutOfBounds 0)
     end.
Proof.
  intros Hc. cbn zeta.
  split; [reflexivity |].
  split.
  { intros t. unfold in_documented_range.
    destruct t; cbn; unfold DEFAULT_ENABLE_ALL_LOAD_THRESHOLD,
      DEFAULT_ENABLE_LOAD_THRESHOLD, DEFAULT_DISABLE_LOAD_THRESHOLD,
      DEFAULT_MIN_SAMPLING_RATE, DEFAULT_SAMPLING_PERIODS;
      try rewrite u32_small by lia; lia. }
  split; [reflexivity |].
  split; [reflexivity |].
  split; [left; reflexivity |].
  split; [reflexivity |].
  destruct alloc as [| content].
  - split; [reflexivity |]. intros e m. reflexivity.
  - split; [| apply length_kmalloc].
    unfold sampler_steady, sampler_ok.
    cbn -[kmalloc]. rewrite length_kmalloc.
    unfold DEFAULT_SAMPLING_PERIODS. cbn. lia.
Qed.

Lemma X14_boot_state_witness :
  3 <= CPUS_AVAILABLE quad <= 5
  /\ sampler_steady booted
  /\ tunables_in_range quad (tun booted).
Proof.
  assert (Hc : 3 <= CPUS_AVAILABLE quad <= 5) by (simpl; lia).
  split; [exact Hc |].
  pose proof (X14_boot_state quad (KmBlock (fun _ => 0)) Hc) as H.
  cbv zeta in H. destruct H as (_ & Ht & _ & _ & _ & _ & Hs & _).
  split; [exact Hs | exact Ht].
Defined.

(** After a failed allocation the first run of the decision work stops
    the kernel, on the quad-core board. *)
Lemma boot_without_memory :
  run quad [RunWork hotplug_decision_work (sample 1) one_online]
      (auto_hotplug_init quad KmNull)
  = Fault (OutOfBounds 0).
Proof. reflexivity. Qed.

Lemma steady_same (s s' : state) :
  tun s' = tun s ->
  live_sampling_periods s' = live_sampling_periods s ->
  index_max_value s' = index_max_value s ->
  length (history s') = length (history s) ->
  index s' = index s ->
  sampler_steady s -> sampler_steady s'.
Proof.
  unfold sampler_steady, sampler_ok.
  intros -> -> -> -> ->. tauto.
Qed.

Lemma write_keeps_periods (p : platform) (t : tunable) (val : kparam)
    (tn : tunables) :
  t <> T_sampling_periods ->
  sampling_periods (snd (write_tunable p t val tn)) = sampling_periods tn.
Proof.
  intros Ht.
  destruct t; try contradiction; destruct val; unfold_setters;
    cbn [fst snd orb]; compare_cases; reflexivity.
Qed.

Lemma steady_step (p : platform) (ev : event) (s : state) :
  writes_periods ev = false ->
  sampler_steady s ->
  exists s' : state, step p ev s = Ok s' /\ sampler_steady s'.
Proof.
  intros Hw Hst.
  destruct ev as [w e m | flag | n | n | | t val]; cbn [step].
  - unfold run_work.
    destruct (wq_pending w (pending s)); [| exists s; auto].
    set (s0 := with_pending (wq_cancel w (pending s)) s).
    assert (Hst0 : sampler_steady s0) by exact Hst.
    destruct w; cbn [work_fn];
      try (eexists; split; [reflexivity |];
           revert Hst0; apply steady_same; reflexivity).
    destruct Hst0 as [Hok H5].
    destruct (decision_step_shape p e s0 Hok) as (s' & Hs' & Hok' & Hh & _).
    exists s'. split; [exact Hs' |]. split; [exact Hok' |].
    destruct Hok as (Hl & _ & _ & Hlen & _).
    destruct Hok' as (Hl' & _ & _ & Hlen' & _).
    rewrite Hh, length_insert in Hlen'. lia.
  - eexists. split; [reflexivity |]. revert Hst. apply steady_same;
      unfold hotplug_disable; split_ifs; reflexivity.
  - eexists. split; [reflexivity |]. revert Hst. apply steady_same;
      unfold hotplug_boostpulse; split_ifs; reflexivity.
  - eexists. split; [reflexivity |]. revert Hst. apply steady_same;
      unfold auto_hotplug_early_suspend; split_ifs; reflexivity.
  - pose proof Hst as [(Hl & _ & _ & Hlen & _) H5].
    destruct (late_resume_shape p s) as
      (s' & Hs' & _ & Hlen' & Hi & _ & _ & _ & _ & Ht & Hlv & Himv);
      [lia |].
    exists s'. split; [exact Hs' |]. revert Hst.
    apply steady_same; assumption.
  - eexists. split; [reflexivity |].
    destruct Hst as [(Hl & Hr & Himv & Hlen & Hi) H5].
    assert (Hsp : sampling_periods (snd (write_tunable p t val (tun s)))
                  = sampling_periods (tun s)).
    { apply write_keeps_periods. intros ->. discriminate Hw. }
    unfold sampler_steady, sampler_ok. cbn [tun with_tun
      live_sampling_periods index_max_value history index].
    rewrite Hsp. tauto.
Qed.

Lemma run_steady (p : platform) (evs : list event) :
  forall s : state,
    sampler_steady s ->
    Forall (fun ev => writes_periods ev = false) evs ->
    exists s' : state, run p evs s = Ok s' /\ sampler_steady s'.
Proof.
  induction evs as [| ev evs IH]; intros s Hst Hall.
  - exists s. split; [reflexivity | exact Hst].
  - destruct (steady_step p ev s (Forall_inv Hall) Hst) as (s1 & Hs1 & Hst1).
    destruct (IH s1 Hst1 (Forall_inv_tail Hall)) as (s' & Hs' & Hst').
    exists s'. split; [| exact Hst'].
    cbn [run]. rewrite Hs1. exact Hs'.
Qed.

(** X15: the governor never faults as long as sampling_periods is not
    rewritten.  From a state with no resize outstanding and a block of at
    least five entries, every sequence of entries into the driver that
    holds no write to sampling_periods runs to its end, every access to
    the history block stays inside it, and the state at the end is again
    such a state. *)
Theorem X15_no_fault_without_resize (p : platform) (evs : list event) :
  forall s : state,
    sampler_steady s ->
    Forall (fun ev => writes_periods ev = false) evs ->
    exists s' : state, run p evs s = Ok s' /\ sampler_steady s'.
Proof. exact (run_steady p evs). Qed.

Lemma booted_steady : sampler_steady booted.
Proof. split; [exact booted_sampler_ok | vm_compute; discriminate]. Qed.

Lemma X15_no_fault_without_resize_witness :
  sampler_steady booted
  /\ Forall (fun ev => writes_periods ev = false) steady_run
  /\ exists s' : state, run quad steady_run booted = Ok s' /\ sampler_steady s'.
Proof.
  assert (Hall : Forall (fun ev => writes_periods ev = false) steady_run)
    by (repeat constructor).
  split; [exact booted_steady |]. split; [exact Hall |].
  exact (X15_no_fault_without_resize quad steady_run booted booted_steady Hall).
Defined.

End HotplugMore.

(** * The boost latch *)

Module HotplugLatch.
Import AutoHotplug Examples MachineInt HotplugProps HotplugMore.

(** An entry into the driver that takes the single-off branch returns
    with BoostActive clear. *)
Lemma single_off_step_clears (p : platform) (ev : event) (s : state) :
  takes_single_off p ev s = true ->
  exists s' : state,
    step p ev s = Ok s' /\ flag_set BOOSTPULSE_ACTIVE s' = false.
Proof.
  intros H.
  destruct ev as [w e m | flag | n | n | | t val]; try discriminate H.
  destruct w; try discriminate H.
  cbn [takes_single_off] in H. cbn [step]. unfold run_work.
  destruct (wq_pending hotplug_decision_work (pending s));
    [| discriminate H].
  cbn [andb] in H. cbn [work_fn]. unfold hotplug_decision_work_fn.
  destruct (sample_load e _) as [r |]; [| discriminate H].
  cbn [bind]. eexists. split; [reflexivity |].
  apply decide_clears_boost. exact H.
Qed.

(** C10: a boost pulse that arrives with no flag set, at least two cpus
    online, fewer than max_online_cpus online and no offline pending only
    sets BoostActive: the queue is left as it was, so no online action and
    no unpause is scheduled.  BoostActive then stays set through every
    entry into the driver that does not take the single-off branch of the
    decision step, and every boost pulse in that time returns at once;
    with no resize outstanding and no write to sampling_periods each of
    these entries returns.  The decision work that next takes the
    single-off branch returns with BoostActive clear. *)
Theorem C10_boost_latch (p : platform) (n : Z) (s : state) :
  flag_set HOTPLUG_DISABLED s = false ->
  flag_set EARLYSUSPEND_ACTIVE s = false ->
  flag_set BOOSTPULSE_ACTIVE s = false ->
  2 <= n ->
  n < max_online_cpus (tun s) ->
  delayed_work_pending hotplug_offline_work s = false ->
  let s1 := hotplug_boostpulse p n s in
  s1 = set_flag BOOSTPULSE_ACTIVE s
  /\ flag_set BOOSTPULSE_ACTIVE s1 = true
  /\ pending s1 = pending s
  /\ (forall (evs : list event) (s2 : state),
        single_off_free p evs s1 ->
        run p evs s1 = Ok s2 ->
        flag_set BOOSTPULSE_ACTIVE s2 = true
        /\ (forall m : Z, hotplug_boostpulse p m s2 = s2)
        /\ forall ev : event,
             takes_single_off p ev s2 = true ->
             exists s3 : state,
               run p (evs ++ [ev]) s1 = Ok s3
               /\ step p ev s2 = Ok s3
               /\ flag_set BOOSTPULSE_ACTIVE s3 = false)
  /\ (sampler_steady s ->
      forall evs : list event,
        Forall (fun ev => writes_periods ev = false) evs ->
        exists s2 : state, run p evs s1 = Ok s2)
  /\ (forall (e : sample_env) (avg : Z) (s2 : state),
        single_off_fires p e avg s2 = true ->
        flag_set BOOSTPULSE_ACTIVE (decide p e avg s2) = false).
Proof.
  intros Hd He Hb Hn Hmax Hoff.
  assert (Hs1 : hotplug_boostpulse p n s = set_flag BOOSTPULSE_ACTIVE s).
  { unfold hotplug_boostpulse.
    rewrite suspend_or_disabled, He, Hd, Hb. cbn [negb andb].
    destruct (Z.gtb_spec (max_online_cpus (tun s)) n) as [_ | Hle]; [| lia].
    destruct (Z.ltb_spec n 2) as [Hlt | _]; [lia |].
    replace (delayed_work_pending hotplug_offline_work
               (set_flag BOOSTPULSE_ACTIVE s)) with false by (symmetry; exact Hoff).
    reflexivity. }
  cbn zeta. rewrite Hs1.
  split; [reflexivity |].
  split; [apply boost_after_set_boost |].
  split; [reflexivity |].
  split; [| split].
  - intros evs s2 Hfree Hrun.
    assert (Hb2 : flag_set BOOSTPULSE_ACTIVE s2 = true).
    { apply (run_keeps_boost p evs _ s2 Hfree Hrun).
      apply boost_after_set_boost. }
    split; [exact Hb2 |].
    split; [intros m; apply boostpulse_noop; exact Hb2 |].
    intros ev Htake.
    destruct (single_off_step_clears p ev s2 Htake) as (s3 & Hs3 & Hclear).
    exists s3. split; [| split; [exact Hs3 | exact Hclear]].
    clear - Hrun Hs3. revert Hrun. generalize (set_flag BOOSTPULSE_ACTIVE s).
    induction evs as [| ev0 evs IH]; intros s0 Hrun.
    + injection Hrun as <-. cbn [app run]. rewrite Hs3. reflexivity.
    + cbn [app run] in *.
      destruct (step p ev0 s0) as [sx |]; [| discriminate Hrun].
      cbn [bind] in *. apply IH. exact Hrun.
  - intros Hst evs Hall.
    assert (Hst1 : sampler_steady (set_flag BOOSTPULSE_ACTIVE s))
      by (revert Hst; apply steady_same; reflexivity).
    destruct (run_steady p evs _ Hst1 Hall) as (s2 & Hs2 & _).
    exists s2. exact Hs2.
  - intros e avg s2. apply decide_clears_boost.
Qed.

Lemma C10_boost_latch_witness :
  flag_set HOTPLUG_DISABLED booted = false
  /\ flag_set EARLYSUSPEND_ACTIVE booted = false
  /\ flag_set BOOSTPULSE_ACTIVE booted = false
  /\ 2 < max_online_cpus (tun booted)
  /\ delayed_work_pending hotplug_offline_work booted = false
  /\ hotplug_boostpulse quad 2 booted = set_flag BOOSTPULSE_ACTIVE booted
  /\ exists s2 s3 : state,
       run quad quiet_run (hotplug_boostpulse quad 2 booted) = Ok s2
       /\ flag_set BOOSTPULSE_ACTIVE s2 = true
       /\ step quad (RunWork hotplug_decision_work low_load [true; true]) s2
          = Ok s3
       /\ flag_set BOOSTPULSE_ACTIVE s3 = false.
Proof.
  assert (H1 : flag_set HOTPLUG_DISABLED booted = false)
    by (vm_compute; reflexivity).
  assert (H2 : flag_set EARLYSUSPEND_ACTIVE booted = false)
    by (vm_compute; reflexivity).
  assert (H3 : flag_set BOOSTPULSE_ACTIVE booted = false)
    by (vm_compute; reflexivity).
  assert (H4 : 2 <= 2) by lia.
  assert (H5 : 2 < max_online_cpus (tun booted)) by (vm_compute; reflexivity).
  assert (H6 : delayed_work_pending hotplug_offline_work booted = false)
    by (vm_compute; reflexivity).
  pose proof (C10_boost_latch quad 2 booted H1 H2 H3 H4 H5 H6) as H.
  cbv zeta in H. destruct H as (Hs1 & _ & _ & Hlatch & _).
  split; [exact H1 |]. split; [exact H2 |]. split; [exact H3 |].
  split; [exact H5 |]. split; [exact H6 |]. split; [exact Hs1 |].
  destruct (run quad quiet_run (hotplug_boostpulse quad 2 booted))
    as [s2 |] eqn:E; [| vm_compute in E; discriminate E].
  assert (Hfree : single_off_free quad quiet_run
                    (hotplug_boostpulse quad 2 booted))
    by (vm_compute; repeat split).
  destruct (Hlatch quiet_run s2 Hfree E) as (Hb2 & _ & Hrel).
  assert (Htake : takes_single_off quad
                    (RunWork hotplug_decision_work low_load [true; true]) s2
                  = true).
  { vm_compute in E. injection E as <-. vm_compute. reflexivity. }
  destruct (Hrel _ Htake) as (s3 & _ & Hs3 & Hclear).
  exists s2, s3. split; [reflexivity |]. split; [exact Hb2 |].
  split; [exact Hs3 | exact Hclear].
Defined.

End HotplugLatch.

(** * The call that disables the governor, with work functions in progress *)

Module HotplugDisable.
Import AutoHotplug HotplugSMP HotplugProps HotplugMore Examples.

(** ** The steps *)












(** ** What the call has cancelled, whatever the timing *)












(** ** The call on a quiet governor *)








(** ** The call returns *)




(** ** The call with nothing in progress

    Its seven steps one after the other do what the sequential
    [hotplug_disable] does. *)
Lemma sequential_call (p : platform) (s : state) :
  flag_set HOTPLUG_DISABLED s = false ->
  exists c : cstate,
    crun p (repeat Call 7) (entering s) = Some c
    /\ todo c = []
    /\ (forall w : work, held c w = false /\ in_progress c w = [])
    /\ flags (base c) = flags (hotplug_disable true s)
    /\ tun (base c) = tun (hotplug_disable true s)
    /\ history (base c) = history (hotplug_disable true s)
    /\ index (base c) = index (hotplug_disable true s)
    /\ cpu_log (base c) = cpu_log (hotplug_disable true s)
    /\ forall w : work,
         pending (base c) w = pending (hotplug_disable true s) w.
Proof.
  intros Hd. unfold hotplug_disable. rewrite Hd. cbn [andb negb].
  cbn [repeat crun cstep]. unfold call_step at 1. cbn [todo entering base].
  rewrite Hd. cbn [hotplug_disable_true].
  eexists. split; [reflexivity |]. cbn.
  split; [reflexivity |].
  split; [intros w; destruct w; split; reflexivity |].
  repeat (split; [reflexivity |]).
  intros w. unfold wq_queue, wq_cancel, wq_set, wq_pending.
  destruct w; cbn;
    repeat match goal with
           | |- context [match ?x with _ => _ end] => destruct x; cbn
           end; reflexivity.
Qed.

(** ** Disabling, for every timing *)






(** ... and it runs a second later: with the governor disabled it takes
    cpu 1 down and queues the decision work. *)
Lemma offline_work_runs_after_disable :
  run_work quad hotplug_offline_work (sample 0) [true; true]
           (base after_race) = Ok stale_offline
  /\ flag_set HOTPLUG_DISABLED stale_offline = true
  /\ cpu_log stale_offline = [cpu_down 1]
  /\ wq_pending hotplug_decision_work (pending stale_offline) = true.
Proof.
  split; [| repeat split; vm_compute; reflexivity].
  unfold stale_offline.
  assert (H : match run_work quad hotplug_offline_work (sample 0)
                             [true; true] (base after_race)
              with
              | Ok _ => true
              | Fault _ => false
              end = true) by (vm_compute; reflexivity).
  destruct (run_work _ _ _ _ _); [reflexivity | discriminate H].
Qed.

End HotplugDisable.

(** * More of the thermal limiter (shutdown-band revision) *)

Module ThermalMore.
Import ThermalB Examples MachineInt ThermalProps.

(** ** A sensor that does not answer *)

Lemma reschedule_delay (hz temp : Z) (near : bool) (s : state) :
  enabled s <> 0 ->
  check_temp_work s = None ->
  check_temp_work (reschedule hz temp near s)
  = Some (poll_delay hz temp near s).
Proof.
  intros Hen Hq. unfold reschedule, poll_delay, schedule_delayed_work.
  destruct (Z.eqb_spec (enabled s) 0) as [H0 | _]; [contradiction |].
  rewrite Hq.
  destruct (temp >? COOL_TEMP); [destruct near |]; reflexivity.
Qed.

(** X16: when the sensor cannot be read the sampling step changes no
    index, asks for no table, applies no ceiling and makes no call; the
    reading counts as 0 degrees, so an enabled driver with nothing queued
    polls again after msecs_to_jiffies(poll_ms + 250): poll_ms + 250 ms
    rounded up to ticks, or MAX_JIFFY_OFFSET when poll_ms + 250 is
    negative as an int. *)
Theorem X16_sensor_failure_changes_nothing (hz : Z) (e : thermal_env)
    (s : state) :
  tsens_ret e <> 0 ->
  exists s' : state,
    check_temp hz e s = Ok s'
    /\ core s' = core s
    /\ calls s' = calls s
    /\ limited_max_freq s' = limited_max_freq s
    /\ (enabled s <> 0 -> check_temp_work s = None ->
        let poll := poll_ms (msm_thermal_info s) in
        check_temp_work s'
        = Some (msecs_to_jiffies hz (u32 (poll + COOL_TEMP_OFFSET_MS)))
        /\ (0 <= poll < 2 ^ 31 - COOL_TEMP_OFFSET_MS ->
            check_temp_work s'
            = Some ((poll + COOL_TEMP_OFFSET_MS + 1000 / hz - 1)
                    / (1000 / hz)))
        /\ (2 ^ 31 - COOL_TEMP_OFFSET_MS <= poll
            < 2 ^ 32 - COOL_TEMP_OFFSET_MS ->
            check_temp_work s' = Some MAX_JIFFY_OFFSET)).
Proof.
  intros Ht. exists (reschedule hz 0 false s).
  split.
  { unfold check_temp.
    destruct (Z.eqb_spec (tsens_ret e) 0); [contradiction | reflexivity]. }
  split; [apply core_reschedule |].
  destruct (reschedule_frame hz 0 false s) as [Hc Hl].
  split; [exact Hc |]. split; [exact Hl |].
  intros Hen Hq. cbn zeta. rewrite (reschedule_delay hz 0 false s Hen Hq).
  unfold poll_delay, COOL_TEMP_OFFSET_MS.
  change (0 >? COOL_TEMP) with false. cbn iota.
  split; [reflexivity |]. split; intros Hp.
  - rewrite u32_small by lia. rewrite msecs_to_jiffies_small by lia.
    reflexivity.
  - rewrite u32_small by lia. rewrite msecs_to_jiffies_negative by lia.
    reflexivity.
Qed.

(** ** The index over a run *)

Lemma invoke_resolved (hz : Z) (es : list thermal_env) :
  forall s : state,
    resolved s ->
    exists s' : state,
      invoke hz es s = Ok s'
      /\ resolved s'
      /\ limit_idx_low s' = limit_idx_low s
      /\ limit_idx_high s' = limit_idx_high s
      /\ throttle_temp s' = throttle_temp s
      /\ msm_thermal_info s' = msm_thermal_info s.
Proof.
  induction es as [| e es IH]; intros s Hres.
  - exists s. repeat split; try reflexivity; apply Hres.
  - destruct (check_temp_returns hz e s Hres)
      as (s1 & Hs1 & Hres1 & Htt1 & Hinfo1 & Hlow1 & Hhigh1 & _).
    destruct (IH s1 Hres1) as (s' & Hs' & Hres' & Hlow & Hhigh & Htt & Hinfo).
    exists s'. cbn [invoke]. rewrite Hs1. cbn [bind].
    split; [exact Hs' |]. split; [exact Hres' |].
    repeat split; congruence.
Qed.

(** X17: once the table is resolved and freq_step is small enough for the
    step arithmetic to stay inside int, the sampling step returns on every
    sequence of readings (sensor failures and the shutdown band included):
    it never reads outside the frequency table, the range stays as it was
    validated and the index stays inside it. *)
Theorem X17_index_stays_in_range (hz : Z) (es : list thermal_env)
    (s : state) :
  resolved s ->
  exists s' : state,
    invoke hz es s = Ok s'
    /\ limit_idx_low s' = limit_idx_low s
    /\ limit_idx_high s' = limit_idx_high s
    /\ limit_idx_low s <= limit_idx s' <= limit_idx_high s.
Proof.
  intros Hres.
  destruct (invoke_resolved hz es s Hres)
    as (s' & Hs' & Hres' & Hlow & Hhigh & _).
  exists s'. split; [exact Hs' |]. split; [exact Hlow |].
  split; [exact Hhigh |].
  destruct Hres' as (_ & _ & Hl & Hh & _). lia.
Qed.

Lemma X17_index_stays_in_range_witness :
  resolved warm
  /\ exists s' : state,
       invoke 100 [reading 70; reading 90; reading 30; reading 66] warm = Ok s'
       /\ 0 <= limit_idx s' <= 11.
Proof.
  split; [exact warm_resolved |].
  destruct (X17_index_stays_in_range 100
              [reading 70; reading 90; reading 30; reading 66] warm
              warm_resolved) as (s' & Hs' & _ & _ & Hr).
  exists s'. split; [exact Hs' | exact Hr].
Defined.

(** ** The hold band *)

(** X18: a reading in the hold band (at least throttle_temp - hysteresis,
    below throttle_temp) with the table resolved moves nothing: the index
    and the ceiling stay as they are and no call is made. *)
Theorem X18_hold_band_changes_nothing (hz : Z) (e : thermal_env)
    (s : state) :
  tsens_ret e = 0 ->
  limit_init s <> 0 ->
  0 <= temp_hysteresis_degC (msm_thermal_info s) <= throttle_temp s ->
  throttle_temp s <= SHUTDOWN_TEMP ->
  throttle_temp s - temp_hysteresis_degC (msm_thermal_info s)
  <= u32 (tsens_temp e) < throttle_temp s ->
  exists s' : state,
    check_temp hz e s = Ok s'
    /\ core s' = core s
    /\ limited_max_freq s' = limited_max_freq s
    /\ calls s' = calls s.
Proof.
  intros Ht Hi Hh Hsd Hband.
  rewrite (check_temp_resolved hz e s Ht Hi).
  unfold SHUTDOWN_TEMP in Hsd.
  unfold apply_bands.
  destruct (Z.geb_spec (u32 (tsens_temp e)) SHUTDOWN_TEMP) as [Hge | _];
    [unfold SHUTDOWN_TEMP in Hge; lia |].
  rewrite (u32_small (throttle_temp s)) by lia.
  rewrite (u32_small (throttle_temp s - _)) by lia.
  destruct (Z.geb_spec (u32 (tsens_temp e)) (throttle_temp s)); [lia |].
  destruct (Z.ltb_spec (u32 (tsens_temp e))
              (throttle_temp s - temp_hysteresis_degC (msm_thermal_info s)));
    [lia |].
  unfold apply_if_changed. rewrite Z.eqb_refl.
  eexists. split; [reflexivity |].
  split; [apply core_reschedule |].
  match goal with
  | |- context [reschedule ?a ?b ?c ?d] =>
    destruct (reschedule_frame a b c d) as [Hc Hl]
  end.
  split; [exact Hl | exact Hc].
Qed.

Lemma X18_hold_band_changes_nothing_witness :
  tsens_ret (reading 62) = 0
  /\ limit_init throttled <> 0
  /\ throttle_temp throttled
       - temp_hysteresis_degC (msm_thermal_info throttled)
     <= u32 (tsens_temp (reading 62)) < throttle_temp throttled
  /\ exists s' : state,
       check_temp 100 (reading 62) throttled = Ok s'
       /\ limit_idx s' = 10
       /\ calls s' = calls throttled.
Proof.
  assert (H1 : tsens_ret (reading 62) = 0) by reflexivity.
  assert (H2 : limit_init throttled <> 0) by (vm_compute; discriminate).
  assert (H3 : 0 <= temp_hysteresis_degC (msm_thermal_info throttled)
               <= throttle_temp throttled)
    by (vm_compute; split; discriminate).
  assert (H4 : throttle_temp throttled <= SHUTDOWN_TEMP)
    by (vm_compute; discriminate).
  assert (H5 : throttle_temp throttled
               - temp_hysteresis_degC (msm_thermal_info throttled)
               <= u32 (tsens_temp (reading 62)) < throttle_temp throttled)
    by (vm_compute; split; [discriminate | reflexivity]).
  split; [exact H1 |]. split; [exact H2 |]. split; [exact H5 |].
  destruct (X18_hold_band_changes_nothing 100 (reading 62) throttled
              H1 H2 H3 H4 H5) as (s' & Hs' & Hc & _ & Hcalls).
  exists s'. split; [exact Hs' |]. split; [| exact Hcalls].
  apply core_inv in Hc. destruct Hc as (Hidx & _). rewrite Hidx.
  vm_compute. reflexivity.
Defined.

Lemma X16_sensor_failure_changes_nothing_witness :
  tsens_ret no_reading <> 0
  /\ exists s' : state,
       check_temp 100
         no_reading
         throttled = Ok s'
       /\ core s' = core throttled
       /\ calls s' = calls throttled.
Proof.
  assert (H : tsens_ret no_reading <> 0)
    by (cbn; discriminate).
  split; [exact H |].
  destruct (X16_sensor_failure_changes_nothing 100 no_reading throttled H)
    as (s' & Hs' & Hc & Hcalls & _).
  exists s'. split; [exact Hs' |]. split; [exact Hc | exact Hcalls].
Defined.

(** ** Applying a ceiling *)

Lemma calls_apply_if_changed (hz : Z) (e : thermal_env) (f temp : Z)
    (near : bool) (s : state) :
  calls (apply_if_changed hz e f temp near s) = calls s
  \/ calls (apply_if_changed hz e f temp near s)
     = calls s ++ flat_map (cpu_calls e f) (seq 0 (nr_possible_cpus e)).
Proof.
  unfold apply_if_changed. destruct (f =? limited_max_freq s).
  - left. apply (proj1 (reschedule_frame _ _ _ _)).
  - right. apply calls_setmaxfreq.
Qed.

Lemma apply_bands_calls (hz : Z) (e : thermal_env) (mf temp : Z)
    (s s' : state) :
  apply_bands hz e mf temp s = Ok s' ->
  exists f : Z,
    calls s' = calls s
    \/ calls s'
       = calls s ++ flat_map (cpu_calls e f) (seq 0 (nr_possible_cpus e))
    \/ calls s'
       = calls s
         ++ orderly_poweroff
            :: flat_map (cpu_calls e f) (seq 0 (nr_possible_cpus e)).
Proof.
  unfold apply_bands.
  destruct (_ >=? SHUTDOWN_TEMP).
  { destruct (table_freq _ _) as [f |]; cbn [bind]; [| discriminate].
    intros H. injection H as <-. exists f. right. right.
    rewrite calls_setmaxfreq. cbn [calls with_enabled log_call].
    rewrite <- app_assoc. reflexivity. }
  destruct (_ >=? u32 (throttle_temp s)).
  { destruct (limit_idx s =? limit_idx_low s).
    - intros H. injection H as <-. exists 0. left.
      apply (proj1 (reschedule_frame _ _ _ _)).
    - destruct (table_freq _ _) as [f |]; cbn [bind]; [| discriminate].
      intros H. injection H as <-. exists f.
      match goal with
      | |- context [apply_if_changed ?a ?b ?c ?d ?g ?h] =>
        destruct (calls_apply_if_changed a b c d g h) as [H | H]
      end; [left | right; left]; exact H. }
  destruct (_ <? _).
  { destruct (limit_idx s =? limit_idx_high s).
    - intros H. injection H as <-. exists 0. left.
      apply (proj1 (reschedule_frame _ _ _ _)).
    - destruct (_ >=? limit_idx_high s).
      + intros H. injection H as <-. exists MSM_CPUFREQ_NO_LIMIT.
        match goal with
        | |- context [apply_if_changed ?a ?b ?c ?d ?g ?h] =>
          destruct (calls_apply_if_changed a b c d g h) as [H | H]
        end; [left | right; left]; exact H.
      + destruct (table_freq _ _) as [f |]; cbn [bind]; [| discriminate].
        intros H. injection H as <-. exists f.
        match goal with
        | |- context [apply_if_changed ?a ?b ?c ?d ?g ?h] =>
          destruct (calls_apply_if_changed a b c d g h) as [H | H]
        end; [left | right; left]; exact H. }
  intros H. injection H as <-. exists mf.
  match goal with
  | |- context [apply_if_changed ?a ?b ?c ?d ?g ?h] =>
    destruct (calls_apply_if_changed a b c d g h) as [H | H]
  end; [left | right; left]; exact H.
Qed.

(** X19: what one entry into the sampling step adds to the calls made
    into cpufreq.  Either it adds nothing, or it gives one ceiling [f] to
    every possible cpu, in order of cpu number: a set-limits call for each
    cpu, followed by a policy update only for a cpu that accepted the
    limit; a cpu that refuses does not end the loop.  In the shutdown band
    the power-off request comes first.  No entry applies two different
    ceilings or skips a cpu. *)
Theorem X19_one_ceiling_for_every_cpu (hz : Z) (e : thermal_env)
    (s s' : state) :
  check_temp hz e s = Ok s' ->
  exists f : Z,
    let applied := flat_map (cpu_calls e f) (seq 0 (nr_possible_cpus e)) in
    calls s' = calls s
    \/ calls s' = calls s ++ applied
    \/ calls s' = calls s ++ orderly_poweroff :: applied.
Proof.
  unfold check_temp.
  destruct (negb (tsens_ret e =? 0)).
  { intros H. injection H as <-. exists 0. left.
    apply (proj1 (reschedule_frame _ _ _ _)). }
  destruct (init_limits e s) as [r |] eqn:Ei; cbn [bind]; [| discriminate].
  destruct (init_limits_frame e s r Ei) as (Hc & _).
  destruct (negb (fst r =? 0)).
  { intros H. injection H as <-. exists 0. left.
    rewrite (proj1 (reschedule_frame _ _ _ _)). exact Hc. }
  intros H. rewrite <- Hc.
  exact (apply_bands_calls _ _ _ _ _ _ H).
Qed.

Lemma X19_one_ceiling_for_every_cpu_witness :
  exists s' : state,
    check_temp 100 (reading 70) throttled = Ok s'
    /\ exists f : Z,
         calls s' = calls throttled
         \/ calls s'
            = calls throttled
              ++ flat_map (cpu_calls (reading 70) f) [0; 1; 2; 3]%nat
         \/ calls s'
            = calls throttled
              ++ orderly_poweroff
                 :: flat_map (cpu_calls (reading 70) f) [0; 1; 2; 3]%nat.
Proof.
  destruct (check_temp 100 (reading 70) throttled) as [s' |] eqn:E;
    [| vm_compute in E; discriminate E].
  exists s'. split; [reflexivity |].
  exact (X19_one_ceiling_for_every_cpu 100 (reading 70) throttled s' E).
Defined.

(** X20: recovery.  With a ceiling in force, a reading below
    throttle_temp - hysteresis that takes the index to the top of the
    range (one step from it at most) lifts the ceiling: every possible
    cpu is given MSM_CPUFREQ_NO_LIMIT, and that is the ceiling in force
    afterwards if at least one cpu accepted it. *)
Theorem X20_recovery_lifts_ceiling (hz : Z) (e : thermal_env) (s : state) :
  tsens_ret e = 0 ->
  resolved s ->
  0 <= temp_hysteresis_degC (msm_thermal_info s) <= throttle_temp s ->
  throttle_temp s <= SHUTDOWN_TEMP ->
  u32 (tsens_temp e)
  < throttle_temp s - temp_hysteresis_degC (msm_thermal_info s) ->
  limit_idx s <> limit_idx_high s ->
  limit_idx_high s <= limit_idx s + freq_step (msm_thermal_info s) ->
  limited_max_freq s <> MSM_CPUFREQ_NO_LIMIT ->
  exists s' : state,
    check_temp hz e s = Ok s'
    /\ limit_idx s' = limit_idx_high s
    /\ calls s'
       = calls s
         ++ flat_map (cpu_calls e MSM_CPUFREQ_NO_LIMIT)
                     (seq 0 (nr_possible_cpus e))
    /\ limited_max_freq s'
       = if existsb (fun c => set_limits_ret e c =? 0)
                    (seq 0 (nr_possible_cpus e))
         then MSM_CPUFREQ_NO_LIMIT else limited_max_freq s.
Proof.
  intros Ht Hres Hh Hsd Hlow Hne Hstep Hlim.
  rewrite (check_temp_resolved hz e s Ht (proj1 Hres)).
  destruct Hres as (_ & _ & Hl & Hhi & Hfs & Hsum).
  unfold SHUTDOWN_TEMP in Hsd. unfold apply_bands.
  destruct (Z.geb_spec (u32 (tsens_temp e)) SHUTDOWN_TEMP) as [Hge | _];
    [unfold SHUTDOWN_TEMP in Hge; lia |].
  rewrite (u32_small (throttle_temp s)) by lia.
  rewrite (u32_small (throttle_temp s - _)) by lia.
  destruct (Z.geb_spec (u32 (tsens_temp e)) (throttle_temp s)); [lia |].
  destruct (Z.ltb_spec (u32 (tsens_temp e))
              (throttle_temp s - temp_hysteresis_degC (msm_thermal_info s)));
    [| lia].
  destruct (Z.eqb_spec (limit_idx s) (limit_idx_high s)); [contradiction |].
  rewrite s32_small by lia.
  destruct (Z.geb_spec (limit_idx s + freq_step (msm_thermal_info s))
                       (limit_idx_high s)); [| lia].
  unfold apply_if_changed. cbn [limited_max_freq with_limit_idx].
  destruct (Z.eqb_spec MSM_CPUFREQ_NO_LIMIT (limited_max_freq s)) as [Heq | _];
    [symmetry in Heq; contradiction |].
  eexists. split; [reflexivity |].
  split.
  { match goal with
    | |- limit_idx (setmaxfreq ?a ?b ?c ?d ?g ?h) = _ =>
      pose proof (core_setmaxfreq a b c d g h) as Hc
    end.
    apply core_inv in Hc. destruct Hc as (Hi & _). rewrite Hi. reflexivity. }
  split; [rewrite calls_setmaxfreq; reflexivity |].
  unfold setmaxfreq. rewrite (proj2 (reschedule_frame _ _ _ _)).
  rewrite limited_max_freq_apply_all. reflexivity.
Qed.

(** ** The polling interval *)

Lemma reschedule_delay_like (hz temp : Z) (near : bool) (s x : state) :
  enabled x = enabled s ->
  msm_thermal_info x = msm_thermal_info s ->
  check_temp_work x = None ->
  enabled s <> 0 ->
  check_temp_work (reschedule hz temp near x)
  = Some (poll_delay hz temp near s).
Proof.
  intros He Hi Hq Hen.
  rewrite reschedule_delay by congruence.
  unfold poll_delay. rewrite Hi. reflexivity.
Qed.

Lemma setmaxfreq_delay (hz : Z) (e : thermal_env) (f temp : Z) (near : bool)
    (s x : state) :
  enabled x = enabled s ->
  msm_thermal_info x = msm_thermal_info s ->
  check_temp_work x = None ->
  enabled s <> 0 ->
  check_temp_work (setmaxfreq hz e f temp near x)
  = Some (poll_delay hz temp near s).
Proof.
  intros He Hi Hq Hen. unfold setmaxfreq.
  destruct (core_apply_all e f (seq 0 (nr_possible_cpus e)) x) as [Hc Hw].
  apply core_inv in Hc.
  destruct Hc as (_ & _ & _ & _ & _ & _ & Hinfo & Hena & _).
  apply reschedule_delay_like; congruence.
Qed.

Lemma apply_if_changed_delay (hz : Z) (e : thermal_env) (f temp : Z)
    (near : bool) (s x : state) :
  enabled x = enabled s ->
  msm_thermal_info x = msm_thermal_info s ->
  check_temp_work x = None ->
  enabled s <> 0 ->
  check_temp_work (apply_if_changed hz e f temp near x)
  = Some (poll_delay hz temp near s).
Proof.
  intros He Hi Hq Hen. unfold apply_if_changed.
  destruct (f =? limited_max_freq x);
    [apply reschedule_delay_like | apply setmaxfreq_delay]; assumption.
Qed.

(** The poll is queued again below the shutdown band. *)
Lemma poll_requeue_shape (hz : Z) (e : thermal_env) (s : state) (d : Z) :
  check_temp_work s = Some d ->
  enabled s <> 0 ->
  tsens_ret e = 0 ->
  resolved s ->
  u32 (tsens_temp e) < SHUTDOWN_TEMP ->
  let temp := u32 (tsens_temp e) in
  let near :=
    temp >? u32 (throttle_temp s
                 - temp_hysteresis_degC (msm_thermal_info s)) in
  let poll := poll_ms (msm_thermal_info s) in
  exists s' : state,
    run_check_temp hz e s = Ok s'
    /\ check_temp_work s'
       = Some (if temp >? COOL_TEMP
               then if near
                    then msecs_to_jiffies hz (u32 (poll - HOT_TEMP_OFFSET_MS))
                    else msecs_to_jiffies hz poll
               else msecs_to_jiffies hz (u32 (poll + COOL_TEMP_OFFSET_MS))).
Proof.
  intros Hq Hen Ht Hres Hsd. cbn zeta.
  unfold run_check_temp. rewrite Hq.
  set (s0 := with_check_temp_work None s).
  assert (Hres0 : resolved s0) by exact Hres.
  assert (Hen0 : enabled s0 <> 0) by exact Hen.
  rewrite (check_temp_resolved hz e s0 Ht (proj1 Hres0)).
  destruct (apply_bands_returns hz e (limited_max_freq s0)
              (u32 (tsens_temp e)) s0 Hres0) as [s' Hs'].
  exists s'. split; [exact Hs' |].
  revert Hs'. unfold apply_bands.
  destruct (Z.geb_spec (u32 (tsens_temp e)) SHUTDOWN_TEMP) as [Hge | _];
    [lia |].
  fold (poll_delay hz (u32 (tsens_temp e))
          (u32 (tsens_temp e)
           >? u32 (throttle_temp s
                   - temp_hysteresis_degC (msm_thermal_info s))) s).
  change (throttle_temp s0) with (throttle_temp s).
  change (msm_thermal_info s0) with (msm_thermal_info s).
  destruct (_ >=? u32 (throttle_temp s)).
  { destruct (limit_idx s0 =? limit_idx_low s0).
    - intros H. injection H as <-.
      apply (reschedule_delay_like _ _ _ s s0); auto.
    - destruct (table_freq _ _) as [f |]; cbn [bind]; [| discriminate].
      intros H. injection H as <-.
      apply (apply_if_changed_delay _ _ _ _ _ s); auto. }
  destruct (_ <? _).
  { destruct (limit_idx s0 =? limit_idx_high s0).
    - intros H. injection H as <-.
      apply (reschedule_delay_like _ _ _ s s0); auto.
    - destruct (_ >=? limit_idx_high s0).
      + intros H. injection H as <-.
        apply (apply_if_changed_delay _ _ _ _ _ s); auto.
      + destruct (table_freq _ _) as [f |]; cbn [bind]; [| discriminate].
        intros H. injection H as <-.
        apply (apply_if_changed_delay _ _ _ _ _ s); auto. }
  intros H. injection H as <-.
  apply (apply_if_changed_delay _ _ _ _ _ s); auto.
Qed.

(** X21: when the poll fires on an enabled driver with the table
    resolved and the reading is below the shutdown band, the poll is
    queued again, whatever the band and whether or not a ceiling was
    applied.  The delay is msecs_to_jiffies of poll_ms + 250 up to 40
    degrees, of poll_ms - 250 (an unsigned subtraction) above 40 degrees
    when the reading is above throttle_temp - hysteresis, and of poll_ms
    otherwise: the milliseconds rounded up to ticks while they are
    non-negative as an int, and MAX_JIFFY_OFFSET when poll_ms is below 250
    and the subtraction wraps. *)
Theorem X21_poll_requeued_with_delay (hz : Z) (e : thermal_env) (s : state)
    (d : Z) :
  check_temp_work s = Some d ->
  enabled s <> 0 ->
  tsens_ret e = 0 ->
  resolved s ->
  u32 (tsens_temp e) < SHUTDOWN_TEMP ->
  let temp := u32 (tsens_temp e) in
  let near :=
    temp >? u32 (throttle_temp s
                 - temp_hysteresis_degC (msm_thermal_info s)) in
  let poll := poll_ms (msm_thermal_info s) in
  let tick := 1000 / hz in
  exists s' : state,
    run_check_temp hz e s = Ok s'
    /\ check_temp_work s'
       = Some (if temp >? COOL_TEMP
               then if near
                    then msecs_to_jiffies hz (u32 (poll - HOT_TEMP_OFFSET_MS))
                    else msecs_to_jiffies hz poll
               else msecs_to_jiffies hz (u32 (poll + COOL_TEMP_OFFSET_MS)))
    /\ (temp <= COOL_TEMP -> 0 <= poll < 2 ^ 31 - COOL_TEMP_OFFSET_MS ->
        check_temp_work s'
        = Some ((poll + COOL_TEMP_OFFSET_MS + tick - 1) / tick))
    /\ (COOL_TEMP < temp -> near = false -> 0 <= poll < 2 ^ 31 ->
        check_temp_work s' = Some ((poll + tick - 1) / tick))
    /\ (COOL_TEMP < temp -> near = true ->
        HOT_TEMP_OFFSET_MS <= poll < 2 ^ 31 + HOT_TEMP_OFFSET_MS ->
        check_temp_work s'
        = Some ((poll - HOT_TEMP_OFFSET_MS + tick - 1) / tick))
    /\ (COOL_TEMP < temp -> near = true -> 0 <= poll < HOT_TEMP_OFFSET_MS ->
        check_temp_work s' = Some MAX_JIFFY_OFFSET).
Proof.
  intros Hq Hen Ht Hres Hsd. cbn zeta.
  pose proof (poll_requeue_shape hz e s d Hq Hen Ht Hres Hsd) as H.
  cbv zeta in H. destruct H as (s' & Hs' & Hd).
  exists s'. split; [exact Hs' |]. split; [exact Hd |].
  unfold COOL_TEMP_OFFSET_MS, HOT_TEMP_OFFSET_MS in *.
  rewrite Hd.
  split; [| split; [| split]].
  - intros Hc Hp.
    destruct (Z.gtb_spec (u32 (tsens_temp e)) COOL_TEMP); [lia |].
    rewrite u32_small by lia. rewrite msecs_to_jiffies_small by lia.
    reflexivity.
  - intros Hc Hn Hp.
    destruct (Z.gtb_spec (u32 (tsens_temp e)) COOL_TEMP); [| lia].
    rewrite Hn, msecs_to_jiffies_small by lia. reflexivity.
  - intros Hc Hn Hp.
    destruct (Z.gtb_spec (u32 (tsens_temp e)) COOL_TEMP); [| lia].
    rewrite Hn, u32_small by lia. rewrite msecs_to_jiffies_small by lia.
    reflexivity.
  - intros Hc Hn Hp.
    destruct (Z.gtb_spec (u32 (tsens_temp e)) COOL_TEMP); [| lia].
    rewrite Hn. rewrite msecs_to_jiffies_negative; [reflexivity |].
    rewrite u32_neg by lia. lia.
Qed.

Lemma X20_recovery_lifts_ceiling_witness :
  resolved throttled
  /\ u32 (tsens_temp (reading 50))
     < throttle_temp throttled
       - temp_hysteresis_degC (msm_thermal_info throttled)
  /\ limited_max_freq throttled <> MSM_CPUFREQ_NO_LIMIT
  /\ exists s' : state,
    check_temp 100 (reading 50) throttled = Ok s'
    /\ limit_idx s' = 11
    /\ limited_max_freq s' = MSM_CPUFREQ_NO_LIMIT.
Proof.
  assert (H1 : tsens_ret (reading 50) = 0) by reflexivity.
  assert (H3 : 0 <= temp_hysteresis_degC (msm_thermal_info throttled)
               <= throttle_temp throttled)
    by (vm_compute; split; discriminate).
  assert (H4 : throttle_temp throttled <= SHUTDOWN_TEMP)
    by (vm_compute; discriminate).
  assert (H5 : u32 (tsens_temp (reading 50))
               < throttle_temp throttled
                 - temp_hysteresis_degC (msm_thermal_info throttled))
    by (vm_compute; reflexivity).
  assert (H6 : limit_idx throttled <> limit_idx_high throttled)
    by (vm_compute; discriminate).
  assert (H7 : limit_idx_high throttled
               <= limit_idx throttled
                  + freq_step (msm_thermal_info throttled))
    by (vm_compute; discriminate).
  assert (H8 : limited_max_freq throttled <> MSM_CPUFREQ_NO_LIMIT)
    by (vm_compute; discriminate).
  destruct (X20_recovery_lifts_ceiling 100 (reading 50) throttled
              H1 throttled_resolved H3 H4 H5 H6 H7 H8)
    as (s' & Hs' & Hi & _ & Hl).
  split; [exact throttled_resolved |]. split; [exact H5 |].
  split; [exact H8 |].
  exists s'. split; [exact Hs' |]. split; [exact Hi | exact Hl].
Defined.

Lemma X21_poll_requeued_with_delay_witness :
  check_temp_work throttled = Some 0
  /\ enabled throttled <> 0
  /\ resolved throttled
  /\ u32 (tsens_temp (reading 62)) < SHUTDOWN_TEMP
  /\ exists s' : state,
    run_check_temp 100 (reading 62) throttled = Ok s'
    /\ check_temp_work s' = Some 75.
Proof.
  assert (H0 : check_temp_work throttled = Some 0)
    by (vm_compute; reflexivity).
  assert (H1 : enabled throttled <> 0) by (vm_compute; discriminate).
  assert (H2 : tsens_ret (reading 62) = 0) by reflexivity.
  assert (H3 : u32 (tsens_temp (reading 62)) < SHUTDOWN_TEMP)
    by (vm_compute; reflexivity).
  pose proof (X21_poll_requeued_with_delay 100 (reading 62) throttled 0
                H0 H1 H2 throttled_resolved H3) as H.
  cbv zeta in H. destruct H as (s' & Hs' & Hq & _).
  split; [exact H0 |]. split; [exact H1 |].
  split; [exact throttled_resolved |]. split; [exact H3 |].
  exists s'. split; [exact Hs' |]. rewrite Hq. vm_compute. reflexivity.
Defined.

(** ** The throttle temperature parameter *)

Lemma with_throttle_temp_same (s : state) :
  with_throttle_temp (throttle_temp s) s = s.
Proof. destruct s. reflexivity. Qed.

(** X22: a write to throttle_temp is accepted exactly when it is an
    integer from 40 to 74: then it returns 0 and the parameter, and
    nothing else, takes the value.  Every other write returns an error and
    leaves the driver as it was.  So a parameter inside 40..74 stays
    inside it. *)
Theorem X22_throttle_temp_write (val : kparam) (s : state) :
  COOL_TEMP <= throttle_temp s <= MAX_THROTTLE_TEMP ->
  let r := set_throttle_temp val s in
  COOL_TEMP <= throttle_temp (snd r) <= MAX_THROTTLE_TEMP
  /\ (forall n : Z,
        val = Num n -> COOL_TEMP <= n <= MAX_THROTTLE_TEMP ->
        r = (0, with_throttle_temp n s))
  /\ ((forall n : Z,
         val = Num n -> ~ COOL_TEMP <= n <= MAX_THROTTLE_TEMP) ->
      fst r < 0 /\ snd r = s).
Proof.
  unfold COOL_TEMP, MAX_THROTTLE_TEMP. intros Hr. cbn zeta.
  assert (Hsame : with_throttle_temp (s32 (u32 (throttle_temp s))) s = s).
  { unfold u32. rewrite Z.mod_small by lia. rewrite s32_small by lia.
    apply with_throttle_temp_same. }
  assert (He1 : (- EINVAL =? - EINVAL) = true) by reflexivity.
  assert (He2 : (- ERANGE =? - EINVAL) = false) by reflexivity.
  assert (He3 : (0 =? - EINVAL) = false) by reflexivity.
  assert (Hn1 : - EINVAL < 0) by (unfold EINVAL; lia).
  assert (Hn2 : - ERANGE < 0) by (unfold ERANGE; lia).
  destruct val as [| | junk | n]; unfold set_throttle_temp, strict_strtol,
    param_set_int, COOL_TEMP, MAX_THROTTLE_TEMP;
    rewrite ?He1, ?He2, ?He3; cbn [fst snd orb].
  - split; [exact Hr |]. split; [intros n Hn; discriminate Hn |].
    intros _. split; [exact Hn1 | reflexivity].
  - split; [exact Hr |]. split; [intros n Hn; discriminate Hn |].
    intros _. split; [exact Hn1 | reflexivity].
  - destruct (Z.gtb_spec junk 74); destruct (Z.ltb_spec junk 40);
      cbn [orb fst snd]; rewrite ?Hsame;
      (split; [exact Hr |]; split; [intros n Hn; discriminate Hn |];
       intros _; split; [assumption | reflexivity]).
  - destruct (Z.gtb_spec n 74); destruct (Z.ltb_spec n 40);
      cbn [orb fst snd throttle_temp with_throttle_temp];
      try (split; [exact Hr |]; split;
           [intros m Hm; injection Hm as <-; lia |];
           intros _; split; [exact Hn1 | reflexivity]).
    assert (Hn : s32 (u32 n) = n).
    { unfold u32. rewrite Z.mod_small by lia. apply s32_small. lia. }
    rewrite Hn.
    split; [lia |]. split.
    + intros m Hm _. injection Hm as <-. reflexivity.
    + intros Hno. exfalso. apply (Hno n eq_refl). lia.
Qed.

Lemma X22_throttle_temp_write_witness :
  COOL_TEMP <= throttle_temp warm <= MAX_THROTTLE_TEMP
  /\ set_throttle_temp (Num 70) warm = (0, with_throttle_temp 70 warm)
  /\ snd (set_throttle_temp (Num 75) warm) = warm.
Proof.
  assert (H : COOL_TEMP <= throttle_temp warm <= MAX_THROTTLE_TEMP)
    by (vm_compute; split; discriminate).
  split; [exact H |].
  split.
  - pose proof (X22_throttle_temp_write (Num 70) warm H) as Hx.
    cbv zeta in Hx. destruct Hx as (_ & Hacc & _).
    apply (Hacc 70 eq_refl). vm_compute. split; discriminate.
  - pose proof (X22_throttle_temp_write (Num 75) warm H) as Hx.
    cbv zeta in Hx. destruct Hx as (_ & _ & Hrej).
    apply Hrej. intros n Hn. injection Hn as <-. vm_compute.
    intros [_ Hle]. apply Hle. reflexivity.
Defined.

(** ** The frequency table *)

(** X23: how the frequency table is validated.  With no table the lookup
    returns -EINVAL.  With [fs] the frequencies before the terminator,
    the lookup stops the kernel (BUG_ON) when the table holds fewer than
    two frequencies, and otherwise sets the range to 0 .. #fs - 1 with
    the index at the top.  A table with no terminator is read past its
    last entry. *)
Theorem X23_table_validation (e : thermal_env) (s : state)
    (fs rest : list Z) :
  Forall (fun f => f <> CPUFREQ_TABLE_END) fs ->
  Z.of_nat (length fs) < 2 ^ 31 ->
  (cpufreq_table e = None ->
   msm_thermal_get_freq_table e s = Ok (- EINVAL, with_table None s))
  /\ (cpufreq_table e = Some (fs ++ CPUFREQ_TABLE_END :: rest) ->
      msm_thermal_get_freq_table e s
      = if (length fs <=? 1)%nat then Fault BugOn
        else
          Ok (0,
              with_limit_idx (Z.of_nat (length fs) - 1)
                (with_range 0 (Z.of_nat (length fs) - 1)
                   (with_table (Some (fs ++ CPUFREQ_TABLE_END :: rest)) s))))
  /\ (cpufreq_table e = Some fs ->
      msm_thermal_get_freq_table e s
      = Fault (OutOfBounds (Z.of_nat (length fs)))).
Proof.
  intros Hfs Hlen. unfold msm_thermal_get_freq_table.
  split; [intros ->; reflexivity |].
  split.
  - intros ->. rewrite (table_end_found fs rest Hfs 0). cbn [bind].
    rewrite Z.add_0_l.
    cbn [limit_idx_high limit_idx_low with_limit_idx with_range].
    destruct (Nat.leb_spec (length fs) 1) as [Hle | Hgt].
    + destruct (length fs) as [| [| n]]; [reflexivity | reflexivity | lia].
    + rewrite s32_small by lia.
      destruct (Z.leb_spec (Z.of_nat (length fs) - 1) 0); [lia |].
      reflexivity.
  - intros ->. rewrite (table_end_missing fs Hfs 0). reflexivity.
Qed.

Lemma X23_table_validation_witness :
  Forall (fun f => f <> CPUFREQ_TABLE_END) [384000]
  /\ Z.of_nat (length [384000]) < 2 ^ 31
  /\ msm_thermal_get_freq_table
       short_table
       (msm_thermal_init (pdata 1))
     = Fault BugOn.
Proof.
  assert (H1 : Forall (fun f => f <> CPUFREQ_TABLE_END) [384000])
    by (repeat constructor; discriminate).
  assert (H2 : Z.of_nat (length [384000]) < 2 ^ 31) by (cbn; lia).
  split; [exact H1 |]. split; [exact H2 |].
  destruct (X23_table_validation
              short_table
              (msm_thermal_init (pdata 1)) [384000] [] H1 H2)
    as (_ & H & _).
  exact (H eq_refl).
Defined.

(** X24: the first reading that finds a terminated table of at least two
    frequencies resolves the driver for good: the sampling step returns,
    the range is 0 .. #fs - 1, and the state is one from which the index
    never leaves the range (for a freq_step with which the step
    arithmetic stays inside int). *)
Theorem X24_first_reading_resolves (hz : Z) (e : thermal_env) (s : state)
    (fs rest : list Z) :
  tsens_ret e = 0 ->
  limit_init s = 0 ->
  cpufreq_table e = Some (fs ++ CPUFREQ_TABLE_END :: rest) ->
  Forall (fun f => f <> CPUFREQ_TABLE_END) fs ->
  (2 <= length fs)%nat ->
  0 <= freq_step (msm_thermal_info s) ->
  freq_step (msm_thermal_info s) + Z.of_nat (length fs) < 2 ^ 31 ->
  exists s' : state,
    check_temp hz e s = Ok s'
    /\ resolved s'
    /\ limit_idx_low s' = 0
    /\ limit_idx_high s' = Z.of_nat (length fs) - 1.
Proof.
  intros Ht Hi Htab Hfs Hlen Hstep Hsum.
  assert (Hl31 : Z.of_nat (length fs) < 2 ^ 31) by lia.
  destruct (freq_table_shape e s fs rest Hfs Hl31 Htab) as [s2 (Hg & Hs2)].
  - exact Hlen.
  - unfold check_temp, init_limits.
    rewrite Ht, Hi, Hg. cbn [Z.eqb negb bind fst snd].
    set (s3 := with_limit_init 1 s2).
    assert (Hres : resolved s3).
    { unfold s3. rewrite Hs2. unfold resolved. cbn.
      split; [discriminate |].
      split.
      { eexists. split; [reflexivity |].
        rewrite length_app. cbn [length]. lia. }
      lia. }
    destruct (apply_bands_returns hz e (limited_max_freq s)
                (u32 (tsens_temp e)) s3 Hres) as [s' Hs'].
    exists s'. split; [exact Hs' |].
    destruct (apply_bands_resolved _ _ _ _ _ _ Hres Hs')
      as (Hres' & _ & _ & Hlow & Hhigh & _).
    split; [exact Hres' |].
    rewrite Hlow, Hhigh. unfold s3. rewrite Hs2. split; reflexivity.
Qed.

Lemma X24_first_reading_resolves_witness :
  limit_init (msm_thermal_init (pdata 1)) = 0
  /\ exists s' : state,
       check_temp 100 (reading 50) (msm_thermal_init (pdata 1)) = Ok s'
       /\ resolved s'
       /\ limit_idx_high s' = 11.
Proof.
  split; [reflexivity |].
  destruct (X24_first_reading_resolves 100 (reading 50)
              (msm_thermal_init (pdata 1))
              [384000; 486000; 594000; 702000; 810000; 918000; 1026000;
               1134000; 1242000; 1350000; 1458000; 1512000] []
              eq_refl eq_refl eq_refl krait_frequencies)
    as (s' & Hs' & Hres & _ & Hhigh).
  - cbn. lia.
  - cbn. lia.
  - cbn. lia.
  - exists s'. split; [exact Hs' |]. split; [exact Hres | exact Hhigh].
Defined.

(** ** Switching the limiter off and on *)

Lemma poll_idle (hz : Z) (es : list thermal_env) (s : state) :
  check_temp_work s = None -> poll hz es s = Ok s.
Proof.
  intros Hq. induction es as [| e es IH]; [reflexivity |].
  cbn [poll]. unfold run_check_temp. rewrite Hq. cbn [bind]. exact IH.
Qed.

Lemma disable_shape (e : thermal_env) (s : state) :
  check_temp_work (disable_msm_thermal e s) = None
  /\ core (disable_msm_thermal e s) = core s
  /\ calls (disable_msm_thermal e s)
     = calls s
       ++ (if limited_max_freq s =? MSM_CPUFREQ_NO_LIMIT then []
           else flat_map (cpu_calls e MSM_CPUFREQ_NO_LIMIT)
                         (seq 0 (nr_possible_cpus e)))
  /\ limited_max_freq (disable_msm_thermal e s)
     = if existsb (fun c => set_limits_ret e c =? 0)
                  (seq 0 (nr_possible_cpus e))
       then MSM_CPUFREQ_NO_LIMIT else limited_max_freq s.
Proof.
  unfold disable_msm_thermal.
  cbn [limited_max_freq with_check_temp_work].
  destruct (Z.eqb_spec (limited_max_freq s) MSM_CPUFREQ_NO_LIMIT) as [Heq | _].
  - split; [reflexivity |]. split; [reflexivity |].
    split; [cbn; symmetry; apply app_nil_r |].
    cbn. rewrite Heq. destruct (existsb _ _); reflexivity.
  - destruct (core_apply_all e MSM_CPUFREQ_NO_LIMIT
                (seq 0 (nr_possible_cpus e)) (with_check_temp_work None s))
      as [Hc Hw].
    split; [rewrite Hw; reflexivity |].
    split; [rewrite Hc; reflexivity |].
    split; [rewrite calls_apply_all_exact; reflexivity |].
    rewrite limited_max_freq_apply_all. reflexivity.
Qed.

Lemma switch_off_queue (e : thermal_env) (s : state) :
  check_temp_work (snd (set_enabled e No s)) = None.
Proof.
  unfold set_enabled. cbn [param_set_bool enabled with_enabled Z.eqb fst snd].
  apply (disable_shape e (with_enabled 0 s)).
Qed.

(** X25: writing "off" to the enabled parameter returns 0, clears
    enabled and takes the poll off the queue, so that no sampling step
    runs afterwards.  If a ceiling was in force every possible cpu is
    given MSM_CPUFREQ_NO_LIMIT (and that is the ceiling in force
    afterwards if one cpu accepted); if none was, no call is made.  The
    index, the range and the table are left where they were. *)
Theorem X25_switch_off (e : thermal_env) (s : state) :
  let r := set_enabled e No s in
  fst r = 0
  /\ enabled (snd r) = 0
  /\ check_temp_work (snd r) = None
  /\ (forall (hz : Z) (es : list thermal_env),
        poll hz es (snd r) = Ok (snd r))
  /\ calls (snd r)
     = calls s
       ++ (if limited_max_freq s =? MSM_CPUFREQ_NO_LIMIT then []
           else flat_map (cpu_calls e MSM_CPUFREQ_NO_LIMIT)
                         (seq 0 (nr_possible_cpus e)))
  /\ limited_max_freq (snd r)
     = (if existsb (fun c => set_limits_ret e c =? 0)
                   (seq 0 (nr_possible_cpus e))
        then MSM_CPUFREQ_NO_LIMIT else limited_max_freq s)
  /\ limit_idx (snd r) = limit_idx s
  /\ limit_idx_low (snd r) = limit_idx_low s
  /\ limit_idx_high (snd r) = limit_idx_high s
  /\ table (snd r) = table s.
Proof.
  cbn zeta. unfold set_enabled. cbn [param_set_bool enabled with_enabled
    Z.eqb fst snd].
  destruct (disable_shape e (with_enabled 0 s)) as (Hq & Hc & Hcalls & Hl).
  apply core_inv in Hc.
  destruct Hc as (H1 & H2 & H3 & H4 & _ & _ & _ & H8 & _).
  split; [reflexivity |].
  split; [exact H8 |].
  split; [exact Hq |].
  split; [intros hz es; apply poll_idle; exact Hq |].
  split; [exact Hcalls |].
  split; [exact Hl |].
  repeat split; assumption.
Qed.

(** X26: writing "on" to the enabled parameter sets the variable and
    nothing else.  After the limiter was switched off the poll is not
    queued again: enabled reads 1, but no sampling step runs and no cpu is
    ever limited. *)
Theorem X26_switch_on_does_not_restart_polling (e e' : thermal_env)
    (s : state) :
  let s1 := snd (set_enabled e No s) in
  let r := set_enabled e' Yes s1 in
  fst r = 0
  /\ snd r = with_enabled 1 s1
  /\ check_temp_work (snd r) = None
  /\ forall (hz : Z) (es : list thermal_env),
       poll hz es (snd r) = Ok (snd r).
Proof.
  cbn zeta.
  pose proof (switch_off_queue e s) as Hq.
  set (s1 := snd (set_enabled e No s)) in *.
  unfold set_enabled at 1 2 3 4.
  cbn [param_set_bool enabled with_enabled Z.eqb fst snd].
  split; [reflexivity |]. split; [reflexivity |].
  split; [exact Hq |].
  intros hz es. apply poll_idle. exact Hq.
Qed.

(** ** Probing *)

Lemma init_from_statics (tsens_max : Z) (pdata : msm_thermal_data) :
  sensor_id pdata < tsens_max ->
  msm_thermal_init_from tsens_max pdata statics
  = Ok (0, msm_thermal_init pdata).
Proof.
  intros H. unfold msm_thermal_init_from.
  destruct (Z.geb_spec (sensor_id pdata) tsens_max); [lia | reflexivity].
Qed.

(** X27: the probe starts the driver only when all five device-tree
    properties were read.  If it returns 0, every property was read, the
    sensor id is below TSENS_MAX_SENSORS, the driver holds the five
    values, is enabled and has its first poll queued with no delay, and
    nothing else of its state has changed.  If it returns an error, that
    is the code of the first property that could not be read, and the
    probe has changed nothing.  The probe ends in BUG_ON exactly when
    all five properties are read and the sensor id is not below
    TSENS_MAX_SENSORS. *)
Theorem X27_probe_all_or_nothing (tsens_max : Z) (node : dt_node)
    (s : state) :
  (msm_thermal_dev_probe tsens_max node s = Fault BugOn
   <-> first_unreadable node = None
       /\ tsens_max <= u32 (snd (node qcom_sensor_id)))
  /\ forall (ret : Z) (s' : state),
       msm_thermal_dev_probe tsens_max node s = Ok (ret, s') ->
       (ret = 0
        /\ (forall k : dt_key, fst (node k) = 0)
        /\ u32 (snd (node qcom_sensor_id)) < tsens_max
        /\ msm_thermal_info s'
           = {| sensor_id := u32 (snd (node qcom_sensor_id));
                poll_ms := u32 (snd (node qcom_poll_ms));
                limit_temp_degC := u32 (snd (node qcom_limit_temp));
                temp_hysteresis_degC := u32 (snd (node qcom_temp_hysteresis));
                freq_step := u32 (snd (node qcom_freq_step)) |}
        /\ enabled s' = 1
        /\ check_temp_work s' = Some 0
        /\ limited_max_freq s' = limited_max_freq s
        /\ limit_idx s' = limit_idx s
        /\ limit_idx_low s' = limit_idx_low s
        /\ limit_idx_high s' = limit_idx_high s
        /\ table s' = table s
        /\ limit_init s' = limit_init s
        /\ throttle_temp s' = throttle_temp s
        /\ calls s' = calls s)
       \/ (ret <> 0
           /\ (exists k : dt_key,
                 first_unreadable node = Some k /\ fst (node k) = ret)
           /\ s' = s).
Proof.
  unfold msm_thermal_dev_probe, first_unreadable, msm_thermal_init_from.
  cbn [List.find].
  destruct (Z.eqb_spec (fst (node qcom_sensor_id)) 0) as [H1 | H1];
    cbn [negb];
    [| split; [split; [discriminate | intros [Hn _]; discriminate Hn] |];
       intros ret s' H; injection H as <- <-; right;
       split; [exact H1 | split; [eexists; split; reflexivity | reflexivity]]].
  destruct (Z.eqb_spec (fst (node qcom_poll_ms)) 0) as [H2 | H2];
    cbn [negb];
    [| split; [split; [discriminate | intros [Hn _]; discriminate Hn] |];
       intros ret s' H; injection H as <- <-; right;
       split; [exact H2 | split; [eexists; split; reflexivity | reflexivity]]].
  destruct (Z.eqb_spec (fst (node qcom_limit_temp)) 0) as [H3 | H3];
    cbn [negb];
    [| split; [split; [discriminate | intros [Hn _]; discriminate Hn] |];
       intros ret s' H; injection H as <- <-; right;
       split; [exact H3 | split; [eexists; split; reflexivity | reflexivity]]].
  destruct (Z.eqb_spec (fst (node qcom_temp_hysteresis)) 0) as [H4 | H4];
    cbn [negb];
    [| split; [split; [discriminate | intros [Hn _]; discriminate Hn] |];
       intros ret s' H; injection H as <- <-; right;
       split; [exact H4 | split; [eexists; split; reflexivity | reflexivity]]].
  destruct (Z.eqb_spec (fst (node qcom_freq_step)) 0) as [H5 | H5];
    cbn [negb];
    [| split; [split; [discriminate | intros [Hn _]; discriminate Hn] |];
       intros ret s' H; injection H as <- <-; right;
       split; [exact H5 | split; [eexists; split; reflexivity | reflexivity]]].
  cbn [sensor_id].
  destruct (Z.geb_spec (u32 (snd (node qcom_sensor_id))) tsens_max)
    as [Hge | Hlt].
  - split; [split; [intros _; split; [reflexivity | exact Hge] | reflexivity] |].
    intros ret s' H. discriminate H.
  - split; [split; [discriminate | intros [_ Hle]; lia] |].
    intros ret s' H. injection H as <- <-. left.
    split; [reflexivity |].
    split; [intros k; destruct k; assumption |].
    split; [exact Hlt |].
    repeat split.
Qed.

Lemma X27_probe_all_or_nothing_witness :
  exists s : state,
    msm_thermal_dev_probe 11 good_node statics = Ok (0, s)
    /\ enabled s = 1
    /\ check_temp_work s = Some 0
    /\ msm_thermal_info s = pdata 1
    /\ s = msm_thermal_init (pdata 1).
Proof.
  destruct (msm_thermal_dev_probe 11 good_node statics) as [[ret s] |] eqn:E;
    [| vm_compute in E; discriminate E].
  assert (Hret : ret = 0) by (vm_compute in E; congruence).
  subst ret. exists s. split; [reflexivity |].
  destruct (proj2 (X27_probe_all_or_nothing 11 good_node statics) 0 s E)
    as [(_ & _ & _ & Hi & He & Hq & _) | (Hne & _)];
    [| contradiction].
  split; [exact He |]. split; [exact Hq |]. split; [rewrite Hi; reflexivity |].
  vm_compute in E. injection E as <-. reflexivity.
Defined.

End ThermalMore.

(** * More of the thermal limiter (revision with unsigned indices) *)

Module ThermalAMore.
Import ThermalA Examples MachineInt ThermalAProps.

(** ** The index over a run *)

Lemma unsigned_init_limits_resolved (e : thermal_env) (s : state) :
  limit_init s <> 0 -> init_limits e s = Ok (0, s).
Proof.
  intros H. unfold init_limits.
  destruct (Z.eqb_spec (limit_init s) 0); [contradiction | reflexivity].
Qed.

Lemma unsigned_resolved_core (a b : state) :
  core a = core b -> resolved b -> resolved a.
Proof.
  unfold core, resolved. intros H.
  injection H as H1 H2 H3 H4 H5 H6 H7.
  rewrite H1, H2, H3, H4, H5, H7. tauto.
Qed.

(** With the table resolved and a step no larger than min_freq_index,
    the bands read the table inside its bounds. *)
Lemma unsigned_apply_bands_returns (hz : Z) (e : thermal_env) (mf temp : Z)
    (s : state) :
  resolved s -> exists s', apply_bands hz e mf temp s = Ok s'.
Proof.
  intros Hres. pose proof (step_down_range s Hres) as Hd.
  destruct Hres as (_ & (t & Ht & Hlen) & Hmin & Hhigh & Hstep).
  unfold apply_bands.
  cbn [table limit_idx limit_idx_high with_limit_idx with_throttle_on].
  rewrite Ht.
  repeat match goal with
         | |- context [table_freq (Some t) ?i] =>
           let f := fresh "f" in
           destruct (table_freq_in t i) as [f ->]; [lia |]
         end.
  cbn [bind].
  repeat match goal with
         | |- context [if ?c then _ else _] => destruct c
         end; eexists; reflexivity.
Qed.

Lemma unsigned_check_temp_returns (hz : Z) (e : thermal_env) (s : state) :
  resolved s ->
  exists s' : state,
    check_temp hz e s = Ok s'
    /\ resolved s'
    /\ min_freq_index s' = min_freq_index s
    /\ limit_idx_high s' = limit_idx_high s.
Proof.
  intros Hres. unfold check_temp.
  destruct (negb (tsens_ret e =? 0)).
  - eexists. split; [reflexivity |].
    pose proof (unsigned_core_reschedule hz 0 false s) as Hc.
    split; [exact (unsigned_resolved_core _ _ Hc Hres) |].
    unfold core in Hc. injection Hc as _ H2 H3 _ _ _ _. auto.
  - rewrite (unsigned_init_limits_resolved e s (proj1 Hres)).
    cbn [bind fst snd Z.eqb negb].
    destruct (unsigned_apply_bands_returns hz e (limited_max_freq s)
                (u32 (tsens_temp e)) s Hres) as [s' Hs'].
    exists s'. split; [exact Hs' |].
    pose proof (unsigned_apply_bands_core _ _ _ _ _ _ Hs') as Hc.
    pose proof (unsigned_next_limit_idx_range (u32 (tsens_temp e)) s Hres)
      as Hn.
    split.
    + apply (unsigned_resolved_core _ _ Hc).
      destruct Hres as (Hi & Ht & Hmin & Hhigh & Hstep).
      unfold resolved. cbn. repeat split; try assumption; lia.
    + unfold core in Hc. injection Hc as _ H2 H3 _ _ _ _. auto.
Qed.

(** X28: in the revision with unsigned indices, once the table is
    resolved and freq_step is no larger than min_freq_index, the sampling
    step returns on every sequence of readings: it never reads outside
    the frequency table, and the index stays between min_freq_index and
    the top of the range. *)
Theorem X28_unsigned_index_stays_in_range (hz : Z) (es : list thermal_env) :
  forall s : state,
    resolved s ->
    exists s' : state,
      invoke hz es s = Ok s'
      /\ min_freq_index s' = min_freq_index s
      /\ limit_idx_high s' = limit_idx_high s
      /\ min_freq_index s <= limit_idx s' <= limit_idx_high s.
Proof.
  induction es as [| e es IH]; intros s Hres.
  - exists s. split; [reflexivity |].
    destruct Hres as (_ & _ & Hmin & Hhigh & _). repeat split; lia.
  - destruct (unsigned_check_temp_returns hz e s Hres)
      as (s1 & Hs1 & Hres1 & Hm1 & Hh1).
    destruct (IH s1 Hres1) as (s' & Hs' & Hm & Hh & Hr).
    exists s'. cbn [invoke]. rewrite Hs1. cbn [bind].
    split; [exact Hs' |]. rewrite <- Hm1, <- Hh1. auto.
Qed.

Lemma cool_resolved : resolved cool.
Proof.
  unfold resolved. split; [vm_compute; discriminate |].
  split; [exists krait_table; split; [reflexivity | vm_compute; reflexivity] |].
  vm_compute. repeat split; discriminate.
Qed.

Lemma X28_unsigned_index_stays_in_range_witness :
  resolved cool
  /\ exists s' : state,
       invoke 100 [reading 75; reading 85; reading 72; reading 30] cool
       = Ok s'
       /\ 7 <= limit_idx s' <= 11.
Proof.
  split; [exact cool_resolved |].
  destruct (X28_unsigned_index_stays_in_range 100
              [reading 75; reading 85; reading 72; reading 30] cool
              cool_resolved) as (s' & Hs' & _ & _ & Hr).
  exists s'. split; [exact Hs' | exact Hr].
Defined.

(** ** The frequency table *)

(** X29: how the revision with unsigned indices validates the frequency
    table, with [fs] the frequencies before the terminator.  A table of
    one to eight frequencies stops the kernel (BUG_ON); a table of nine or
    more sets the range to 7 .. #fs - 1 with the index at the top.  An
    empty table is not caught: #fs - 1 wraps to 4294967295, which passes
    the BUG_ON and becomes the index and the top of the range. *)
Theorem X29_unsigned_table_validation (e : thermal_env) (s : state)
    (fs rest : list Z) :
  Forall (fun f => f <> CPUFREQ_TABLE_END) fs ->
  Z.of_nat (length fs) < 2 ^ 32 ->
  cpufreq_table e = Some (fs ++ CPUFREQ_TABLE_END :: rest) ->
  let top := if (length fs =? 0)%nat then 4294967295
             else Z.of_nat (length fs) - 1 in
  msm_thermal_get_freq_table e s
  = if (1 <=? length fs)%nat && (length fs <=? 8)%nat then Fault BugOn
    else
      Ok (0,
          with_limit_idx top
            (with_limit_idx_high top
               (with_min_freq_index DEFAULT_MIN_FREQ_INDEX
                  (with_table (Some (fs ++ CPUFREQ_TABLE_END :: rest)) s)))).
Proof.
  intros Hfs Hlen Htab. cbn zeta. unfold msm_thermal_get_freq_table.
  rewrite Htab, (ThermalProps.table_end_found fs rest Hfs 0). cbn [bind].
  rewrite Z.add_0_l.
  cbn [limit_idx_high min_freq_index with_limit_idx with_limit_idx_high
       with_min_freq_index].
  unfold DEFAULT_MIN_FREQ_INDEX.
  destruct (length fs) as [| n] eqn:En.
  - reflexivity.
  - cbn [Nat.eqb Nat.leb andb].
    rewrite u32_small by lia.
    destruct (Nat.leb_spec n 7) as [Hle | Hgt].
    + destruct (Z.leb_spec (Z.of_nat (S n) - 1) 0); [reflexivity |].
      destruct (Z.leb_spec (Z.of_nat (S n) - 1) 7); [reflexivity | lia].
    + destruct (Z.leb_spec (Z.of_nat (S n) - 1) 0); [lia |].
      destruct (Z.leb_spec (Z.of_nat (S n) - 1) 7); [lia | reflexivity].
Qed.

Lemma X29_unsigned_table_validation_witness :
  Forall (fun f => f <> CPUFREQ_TABLE_END) []
  /\ exists s' : state,
       msm_thermal_get_freq_table
         empty_table
         (msm_thermal_init (pdata 1))
       = Ok (0, s')
       /\ limit_idx s' = 4294967295.
Proof.
  assert (H1 : Forall (fun f => f <> CPUFREQ_TABLE_END) []) by constructor.
  split; [exact H1 |].
  eexists. split.
  - apply (X29_unsigned_table_validation
             empty_table
             (msm_thermal_init (pdata 1)) [] [] H1).
    + cbn. lia.
    + reflexivity.
  - reflexivity.
Defined.

(** ** Recovery *)

Lemma unsigned_limited_max_freq_apply_all (e : thermal_env) (f : Z)
    (cpus : list nat) :
  forall s : state,
    limited_max_freq (fold_left (update_cpu_max_freq e f) cpus s)
    = if existsb (fun c => set_limits_ret e c =? 0) cpus
      then f else limited_max_freq s.
Proof.
  induction cpus as [| x cpus IH]; intros s; cbn [fold_left existsb].
  - reflexivity.
  - rewrite IH. unfold update_cpu_max_freq.
    destruct (set_limits_ret e x =? 0); cbn [negb orb].
    + destruct (existsb _ cpus); reflexivity.
    + reflexivity.
Qed.

Lemma unsigned_limited_setmaxfreq (hz : Z) (e : thermal_env) (f temp : Z)
    (fast : bool) (s : state) :
  limited_max_freq (setmaxfreq hz e f temp fast s)
  = if existsb (fun c => set_limits_ret e c =? 0)
               (seq 0 (nr_possible_cpus e))
    then f else limited_max_freq s.
Proof.
  unfold setmaxfreq. rewrite <- unsigned_limited_max_freq_apply_all.
  unfold reschedule, schedule_delayed_work.
  repeat match goal with
         | |- context [if ?c then _ else _] => destruct c
         | |- context [match ?c with Some _ => _ | None => _ end] =>
           destruct c
         end; reflexivity.
Qed.

Lemma unsigned_calls_apply_all (e : thermal_env) (f : Z) (cpus : list nat) :
  forall s : state,
    calls (fold_left (update_cpu_max_freq e f) cpus s)
    = calls s ++ flat_map (cpu_calls e f) cpus.
Proof.
  induction cpus as [| c cpus IH]; intros s; cbn [fold_left flat_map].
  - symmetry. apply app_nil_r.
  - rewrite IH. unfold update_cpu_max_freq, cpu_calls.
    destruct (set_limits_ret e c =? 0);
      cbn [negb calls log_call with_limited_max_freq];
      rewrite <- ?app_assoc; reflexivity.
Qed.

Lemma unsigned_calls_setmaxfreq (hz : Z) (e : thermal_env) (f temp : Z)
    (fast : bool) (s : state) :
  calls (setmaxfreq hz e f temp fast s)
  = calls s ++ flat_map (cpu_calls e f) (seq 0 (nr_possible_cpus e)).
Proof.
  unfold setmaxfreq. rewrite <- unsigned_calls_apply_all.
  unfold reschedule, schedule_delayed_work.
  repeat match goal with
         | |- context [if ?c then _ else _] => destruct c
         | |- context [match ?c with Some _ => _ | None => _ end] =>
           destruct c
         end; reflexivity.
Qed.

(** X30: in the revision with unsigned indices one reading below
    throttle_temp (and below 80 degrees) undoes all throttling at once:
    the index goes back to the top of the range in a single step, and
    every possible cpu is given the top frequency of the table as its
    ceiling (the ceiling is not reset to MSM_CPUFREQ_NO_LIMIT): a
    set-limits call for each cpu in order, followed by a policy update
    for a cpu that accepted it; that frequency is the ceiling in force
    afterwards if at least one cpu accepted it. *)
Theorem X30_unsigned_recovery_in_one_step (hz : Z) (e : thermal_env)
    (s : state) :
  tsens_ret e = 0 ->
  resolved s ->
  0 <= temp_hysteresis_degC (msm_thermal_info s) <= throttle_temp s ->
  throttle_temp s < 2 ^ 32 ->
  u32 (tsens_temp e) < throttle_temp s ->
  u32 (tsens_temp e) < MAX_THROTTLE_TEMP ->
  limit_idx s <> limit_idx_high s ->
  exists (s' : state) (f : Z),
    check_temp hz e s = Ok s'
    /\ limit_idx s' = limit_idx_high s
    /\ table_freq (table s) (limit_idx_high s) = Ok f
    /\ calls s'
       = calls s ++ flat_map (cpu_calls e f) (seq 0 (nr_possible_cpus e))
    /\ limited_max_freq s'
       = if existsb (fun c => set_limits_ret e c =? 0)
                    (seq 0 (nr_possible_cpus e))
         then f else limited_max_freq s.
Proof.
  intros Ht Hres Hh Htt Hlt Hmax Hne.
  unfold check_temp. rewrite Ht.
  rewrite (unsigned_init_limits_resolved e s (proj1 Hres)).
  cbn [bind fst snd Z.eqb negb].
  destruct Hres as (_ & (t & Htab & Hlen) & Hmin & Hhigh & Hstep).
  destruct (table_freq_in t (limit_idx_high s)) as [f Hf]; [lia |].
  unfold apply_bands.
  cbn [table limit_idx limit_idx_high with_limit_idx with_throttle_on].
  rewrite Htab, Hf. cbn [bind].
  rewrite (u32_small (throttle_temp s - _)) by lia.
  destruct (Z.geb_spec (u32 (tsens_temp e)) MAX_THROTTLE_TEMP); [lia |].
  destruct (Z.eqb_spec (limit_idx s) (limit_idx_high s)); [contradiction |].
  destruct (Z.geb_spec (u32 (tsens_temp e)) (throttle_temp s)); [lia |].
  destruct (Z.ltb_spec (u32 (tsens_temp e))
              (throttle_temp s - temp_hysteresis_degC (msm_thermal_info s)));
    [| destruct (Z.geb_spec (u32 (tsens_temp e))
                   (throttle_temp s
                    - temp_hysteresis_degC (msm_thermal_info s))); [| lia]];
    (eexists; exists f; split; [reflexivity |];
     split;
     [ match goal with
       | |- limit_idx (setmaxfreq ?a ?b ?c ?d ?g ?h) = _ =>
         pose proof (unsigned_core_setmaxfreq a b c d g h) as Hc
       end;
       unfold core in Hc; injection Hc as Hix _ _ _ _ _ _; exact Hix
     | split; [reflexivity |];
       split; [rewrite unsigned_calls_setmaxfreq; reflexivity |];
       rewrite unsigned_limited_setmaxfreq; reflexivity ]).
Qed.

Lemma X30_unsigned_recovery_in_one_step_witness :
  exists s0 s' : state,
    invoke 100 [reading 75; reading 75] cool = Ok s0
    /\ limit_idx s0 = 7
    /\ check_temp 100 (reading 69) s0 = Ok s'
    /\ limit_idx s' = 11
    /\ limited_max_freq s' = 1512000.
Proof.
  destruct (invoke 100 [reading 75; reading 75] cool) as [s0 |] eqn:E;
    [| vm_compute in E; discriminate E].
  assert (Hs0 : s0 = match invoke 100 [reading 75; reading 75] cool with
                     | Ok s => s | Fault _ => cool end)
    by (rewrite E; reflexivity).
  vm_compute in Hs0.
  assert (Hres : resolved s0).
  { rewrite Hs0. unfold resolved. split; [cbn; discriminate |].
    split; [eexists; split; [reflexivity | vm_compute; reflexivity] |].
    cbn. lia. }
  assert (H1 : tsens_ret (reading 69) = 0) by reflexivity.
  assert (H3 : 0 <= temp_hysteresis_degC (msm_thermal_info s0)
               <= throttle_temp s0) by (rewrite Hs0; cbn; lia).
  assert (H4 : throttle_temp s0 < 2 ^ 32) by (rewrite Hs0; cbn; lia).
  assert (H5 : u32 (tsens_temp (reading 69)) < throttle_temp s0)
    by (rewrite Hs0; vm_compute; reflexivity).
  assert (H6 : u32 (tsens_temp (reading 69)) < MAX_THROTTLE_TEMP)
    by (vm_compute; reflexivity).
  assert (H7 : limit_idx s0 <> limit_idx_high s0)
    by (rewrite Hs0; cbn; discriminate).
  destruct (X30_unsigned_recovery_in_one_step 100 (reading 69) s0
              H1 Hres H3 H4 H5 H6 H7) as (s' & f & Hs' & Hi & Hf & _ & Hl).
  exists s0, s'. split; [reflexivity |].
  split; [rewrite Hs0; reflexivity |].
  split; [exact Hs' |].
  split; [rewrite Hi, Hs0; reflexivity |].
  rewrite Hl. cbn [existsb seq nr_possible_cpus reading set_limits_ret
    Z.eqb orb].
  rewrite Hs0 in Hf. vm_compute in Hf. injection Hf as <-. reflexivity.
Defined.

End ThermalAMore.
